(** * bySIMMED ERP: manufacturing orders, production cards and time tracking

    A shallow embedding of the order / production-card lifecycle of the
    backend (use-case layer and Mongo repositories) together with the
    properties of its specification.

    Conventions of the embedding:
    - a [Date] is its [getTime()] value, an integer number of milliseconds;
      every operation that reads the clock ([new Date()]) takes the reading
      as its argument [now];
    - counts and stock quantities are integers ([Z]); hours and material
      quantities are rationals ([Q]);
    - identifiers (Mongo [_id]s, inventory ids) are strings;
    - a JavaScript array of components is an object with an identity: it
      lives in a heap and is designated by a reference ([Ref]).  Documents
      stored in a collection hold their components by value, the in-memory
      entities built by [mapToEntity] hold a reference;
    - [async] functions are computations in a state-and-exception monad over
      the collections and the heap; [throw new Error(msg)] is [throw e], the
      error naming the use case and the message. *)

From stdpp Require Import gmap strings list fin_maps sorting pretty.
From Stdlib Require Import ZArith QArith Qround Lia.

Open Scope Z_scope.

(** ** Dates, rounding *)

Definition Date := Z.

(** [Math.round(x)]: the nearest integer, a tie going to the larger one.
    Numbers are taken as rationals. *)
Definition Math_round (x : Q) : Z := Qfloor (x + (1 # 2)).

(** [Math.round(t / (1000 * 60))] for a number of milliseconds [t]. *)
Definition round_minutes (t : Z) : Z :=
  Math_round (inject_Z t / inject_Z (1000 * 60)).

(** ** Domain entities (domain/entities/ManufacturingOrder.ts) *)

Inductive ManufacturingOrderStatus :=
| PENDING | IN_PROGRESS | PAUSED | COMPLETED | CANCELLED | OVERDUE.

Module ProductionCardStatus.
Inductive t := PENDING | IN_PROGRESS | PAUSED | COMPLETED | CANCELLED.
End ProductionCardStatus.

Inductive ProductionCardPriority := LOW | NORMAL | HIGH | URGENT.

Inductive InventoryType := MODEL | COMPONENT | MATERIAL.

Global Instance ManufacturingOrderStatus_eq_dec : EqDecision ManufacturingOrderStatus.
Proof. solve_decision. Defined.
Global Instance ProductionCardStatus_eq_dec : EqDecision ProductionCardStatus.t.
Proof. solve_decision. Defined.
Global Instance ProductionCardPriority_eq_dec : EqDecision ProductionCardPriority.
Proof. solve_decision. Defined.
Global Instance InventoryType_eq_dec : EqDecision InventoryType.
Proof. solve_decision. Defined.

(** The time tracker.  [startTime] is declared mandatory by the interface,
    but the update operators of the repositories ([$set] on
    ['timeTracker.isPaused']) create the sub-document when it is missing, and
    then without a [startTime]: the field is optional in the stored data. *)
Record TimeTracker := {
  startTime : option Date;
  endTime : option Date;
  totalTimeMinutes : Z;
  isPaused : bool;
  pauseStartTime : option Date;
  totalPauseMinutes : Z
}.

Module MaterialUsage.
Record t := mk {
  materialId : string;
  materialName : string;
  materialSku : string;
  plannedQuantity : Q;
  actualQuantity : Q;
  unit : string;
  notes : option string;
  adjustedBy : option string;
  adjustedAt : option Date
}.
End MaterialUsage.

(** Field updates of the embedded values. *)
Definition tt_set_paused (now : Date) (t : TimeTracker) : TimeTracker :=
  {| startTime := startTime t; endTime := endTime t;
     totalTimeMinutes := totalTimeMinutes t;
     isPaused := true; pauseStartTime := Some now;
     totalPauseMinutes := totalPauseMinutes t |}.

Definition tt_set_resumed (newTotalPauseMinutes : Z) (t : TimeTracker) : TimeTracker :=
  {| startTime := startTime t; endTime := endTime t;
     totalTimeMinutes := totalTimeMinutes t;
     isPaused := false; pauseStartTime := None;
     totalPauseMinutes := newTotalPauseMinutes |}.

(** The tracker written by the start operations. *)
Definition fresh_tracker (now : Date) : TimeTracker :=
  {| startTime := Some now; endTime := None; totalTimeMinutes := 0;
     isPaused := false; pauseStartTime := None; totalPauseMinutes := 0 |}.

(** The sub-document that [$set: {'….isPaused': true, '….pauseStartTime': now}]
    creates when there is no tracker yet (numeric fields at their schema
    defaults, no [startTime]). *)
Definition paused_stub (now : Date) : TimeTracker :=
  {| startTime := None; endTime := None; totalTimeMinutes := 0;
     isPaused := true; pauseStartTime := Some now; totalPauseMinutes := 0 |}.

Definition set_tracker_paused (now : Date) (o : option TimeTracker) : option TimeTracker :=
  match o with
  | Some t => Some (tt_set_paused now t)
  | None => Some (paused_stub now)
  end.

Module ComponentProgress.
Record t := mk {
  componentId : string;
  componentName : string;
  componentSku : string;
  quantityRequired : Z;
  quantityCompleted : Z;
  isCompleted : bool;
  completedAt : option Date;
  timeTracker : option TimeTracker;
  materialUsage : list MaterialUsage.t;
  startedAt : option Date
}.

(** ['components.$.timeTracker.…': …] *)
Definition set_timeTracker (tr : option TimeTracker) (c : t) : t :=
  mk (componentId c) (componentName c) (componentSku c) (quantityRequired c)
     (quantityCompleted c) (isCompleted c) (completedAt c) tr
     (materialUsage c) (startedAt c).

(** ['components.$.timeTracker': {...}, 'components.$.startedAt': now] *)
Definition set_started (now : Date) (c : t) : t :=
  mk (componentId c) (componentName c) (componentSku c) (quantityRequired c)
     (quantityCompleted c) (isCompleted c) (completedAt c)
     (Some (fresh_tracker now)) (materialUsage c) (Some now).

(** ['components.$.isCompleted': true, 'components.$.completedAt': now,
     'components.$.quantityCompleted': q] *)
Definition set_completed (now : Date) (q : Z) (c : t) : t :=
  mk (componentId c) (componentName c) (componentSku c) (quantityRequired c)
     q true (Some now) (timeTracker c) (materialUsage c) (startedAt c).

(** ['components.$.materialUsage': materials] *)
Definition set_materialUsage (ms : list MaterialUsage.t) (c : t) : t :=
  mk (componentId c) (componentName c) (componentSku c) (quantityRequired c)
     (quantityCompleted c) (isCompleted c) (completedAt c) (timeTracker c)
     ms (startedAt c).
End ComponentProgress.

(** ** Inventory items (domain/entities/InventoryItem.ts)

    Only the fields that the order and card use cases read or write are
    kept; the descriptive fields (description, price, stock thresholds,
    location, supplier, bill of materials) take no part in them. *)
Module InventoryItem.
Record t := mk {
    id : string;
    name : string;
    type : InventoryType;
    sku : string;
    quantity : Z;
    unit : string;
    estimatedManufacturingTime : option Q;
    components : list string;
    canManufacture : option bool;
    updatedAt : Date
  }.

Definition set_quantity (q : Z) (now : Date) (i : t) : t :=
    mk (id i) (name i) (type i) (sku i) q (unit i)
       (estimatedManufacturingTime i) (components i) (canManufacture i) now.
End InventoryItem.

(** ** Manufacturing orders

    The record is shared by the stored document ([ManufacturingOrderDocument],
    components by value) and by the entity returned to the callers
    ([ManufacturingOrder], components by reference). *)
Definition Ref := positive.

Module ManufacturingOrder.
Record t (C : Type) := mk {
    id : string;
    modelId : string;
    modelName : string;
    modelSku : string;
    quantity : Z;
    clientName : string;
    dueDate : Date;
    createdDate : Date;
    status : ManufacturingOrderStatus;
    components : C;
    notes : option string;
    estimatedHours : Q;
    startedAt : option Date;
    completedAt : option Date;
    timeTracker : option TimeTracker;
    createdAt : Date;
    updatedAt : Date
  }.
Global Arguments mk {C}.
Global Arguments id {C}.
Global Arguments modelId {C}.
Global Arguments modelName {C}.
Global Arguments modelSku {C}.
Global Arguments quantity {C}.
Global Arguments clientName {C}.
Global Arguments dueDate {C}.
Global Arguments createdDate {C}.
Global Arguments status {C}.
Global Arguments components {C}.
Global Arguments notes {C}.
Global Arguments estimatedHours {C}.
Global Arguments startedAt {C}.
Global Arguments completedAt {C}.
Global Arguments timeTracker {C}.
Global Arguments createdAt {C}.
Global Arguments updatedAt {C}.

Section Updates.
Context {C : Type}.
Implicit Type o : t C.

Definition with_components {D : Type} (cs : D) o : t D :=
      mk (id o) (modelId o) (modelName o) (modelSku o) (quantity o)
         (clientName o) (dueDate o) (createdDate o) (status o) cs (notes o)
         (estimatedHours o) (startedAt o) (completedAt o) (timeTracker o)
         (createdAt o) (updatedAt o).

    (** [{ status, startedAt: now, timeTracker: {...}, updatedAt: now }] *)
Definition started (now : Date) o : t C :=
      mk (id o) (modelId o) (modelName o) (modelSku o) (quantity o)
         (clientName o) (dueDate o) (createdDate o) IN_PROGRESS (components o)
         (notes o) (estimatedHours o) (Some now) (completedAt o)
         (Some (fresh_tracker now)) (createdAt o) now.

    (** [{ status, timeTracker: ..., updatedAt: now }] *)
Definition with_status_tracker (s : ManufacturingOrderStatus)
        (tr : option TimeTracker) (now : Date) o : t C :=
      mk (id o) (modelId o) (modelName o) (modelSku o) (quantity o)
         (clientName o) (dueDate o) (createdDate o) s (components o)
         (notes o) (estimatedHours o) (startedAt o) (completedAt o)
         tr (createdAt o) now.

    (** [{ status: COMPLETED, completedAt: now, updatedAt: now }] *)
Definition completed (now : Date) o : t C :=
      mk (id o) (modelId o) (modelName o) (modelSku o) (quantity o)
         (clientName o) (dueDate o) (createdDate o) COMPLETED (components o)
         (notes o) (estimatedHours o) (startedAt o) (Some now)
         (timeTracker o) (createdAt o) now.

    (** [{ status: CANCELLED, updatedAt: now }] *)
Definition cancelled (now : Date) o : t C :=
      mk (id o) (modelId o) (modelName o) (modelSku o) (quantity o)
         (clientName o) (dueDate o) (createdDate o) CANCELLED (components o)
         (notes o) (estimatedHours o) (startedAt o) (completedAt o)
         (timeTracker o) (createdAt o) now.

    (** [{ $set: { 'components.$.…': …, updatedAt: now } }] *)
Definition with_components_at (cs : C) (now : Date) o : t C :=
      mk (id o) (modelId o) (modelName o) (modelSku o) (quantity o)
         (clientName o) (dueDate o) (createdDate o) (status o) cs
         (notes o) (estimatedHours o) (startedAt o) (completedAt o)
         (timeTracker o) (createdAt o) now.
End Updates.
End ManufacturingOrder.

Abbreviation ManufacturingOrderDocument := (ManufacturingOrder.t (list ComponentProgress.t)).
Abbreviation ManufacturingOrderEntity := (ManufacturingOrder.t Ref).

(** ** Production cards (domain/entities/ProductionCard.ts)

    [priority] is declared mandatory; the listing and the statistics
    nevertheless provide for a card without one ([… || 3],
    [card.priority || NORMAL]), so the stored field is optional. *)
Module ProductionCard.
Record t (C : Type) := mk {
    id : string;
    orderId : string;
    orderName : string;
    cardNumber : Z;
    totalCards : Z;
    modelId : string;
    modelName : string;
    modelSku : string;
    quantity : Z;
    dueDate : Date;
    status : ProductionCardStatus.t;
    priority : option ProductionCardPriority;
    components : C;
    notes : option string;
    estimatedHours : Q;
    startedAt : option Date;
    completedAt : option Date;
    timeTracker : option TimeTracker;
    createdAt : Date;
    updatedAt : Date
  }.
Global Arguments mk {C}.
Global Arguments id {C}.
Global Arguments orderId {C}.
Global Arguments orderName {C}.
Global Arguments cardNumber {C}.
Global Arguments totalCards {C}.
Global Arguments modelId {C}.
Global Arguments modelName {C}.
Global Arguments modelSku {C}.
Global Arguments quantity {C}.
Global Arguments dueDate {C}.
Global Arguments status {C}.
Global Arguments priority {C}.
Global Arguments components {C}.
Global Arguments notes {C}.
Global Arguments estimatedHours {C}.
Global Arguments startedAt {C}.
Global Arguments completedAt {C}.
Global Arguments timeTracker {C}.
Global Arguments createdAt {C}.
Global Arguments updatedAt {C}.

Section Updates.
Context {C : Type}.
Implicit Type c : t C.

Definition with_components {D : Type} (cs : D) c : t D :=
      mk (id c) (orderId c) (orderName c) (cardNumber c) (totalCards c)
         (modelId c) (modelName c) (modelSku c) (quantity c) (dueDate c)
         (status c) (priority c) cs (notes c) (estimatedHours c)
         (startedAt c) (completedAt c) (timeTracker c) (createdAt c)
         (updatedAt c).

Definition started (now : Date) c : t C :=
      mk (id c) (orderId c) (orderName c) (cardNumber c) (totalCards c)
         (modelId c) (modelName c) (modelSku c) (quantity c) (dueDate c)
         ProductionCardStatus.IN_PROGRESS (priority c) (components c)
         (notes c) (estimatedHours c) (Some now) (completedAt c)
         (Some (fresh_tracker now)) (createdAt c) now.

Definition with_status_tracker (s : ProductionCardStatus.t)
        (tr : option TimeTracker) (now : Date) c : t C :=
      mk (id c) (orderId c) (orderName c) (cardNumber c) (totalCards c)
         (modelId c) (modelName c) (modelSku c) (quantity c) (dueDate c)
         s (priority c) (components c) (notes c) (estimatedHours c)
         (startedAt c) (completedAt c) tr (createdAt c) now.

Definition completed (now : Date) c : t C :=
      mk (id c) (orderId c) (orderName c) (cardNumber c) (totalCards c)
         (modelId c) (modelName c) (modelSku c) (quantity c) (dueDate c)
         ProductionCardStatus.COMPLETED (priority c) (components c)
         (notes c) (estimatedHours c) (startedAt c) (Some now)
         (timeTracker c) (createdAt c) now.

Definition cancelled (now : Date) c : t C :=
      mk (id c) (orderId c) (orderName c) (cardNumber c) (totalCards c)
         (modelId c) (modelName c) (modelSku c) (quantity c) (dueDate c)
         ProductionCardStatus.CANCELLED (priority c) (components c)
         (notes c) (estimatedHours c) (startedAt c) (completedAt c)
         (timeTracker c) (createdAt c) now.

Definition with_components_at (cs : C) (now : Date) c : t C :=
      mk (id c) (orderId c) (orderName c) (cardNumber c) (totalCards c)
         (modelId c) (modelName c) (modelSku c) (quantity c) (dueDate c)
         (status c) (priority c) cs (notes c) (estimatedHours c)
         (startedAt c) (completedAt c) (timeTracker c) (createdAt c) now.
End Updates.
End ProductionCard.

Abbreviation ProductionCardDocument := (ProductionCard.t (list ComponentProgress.t)).
Abbreviation ProductionCardEntity := (ProductionCard.t Ref).


(** ** Strings *)

Fixpoint trimStart (s : string) : string :=
  match s with
  | String a s' => if Ascii.is_space a then trimStart s' else s
  | EmptyString => EmptyString
  end.

(** [String.prototype.trim], on the ASCII white space. *)
Definition trim (s : string) : string :=
  String.rev (trimStart (String.rev (trimStart s))).

(** ** Errors

    The use cases throw plain [Error]s that differ by their message only.
    [Rejected who why] is the error thrown by the use cases of [who]; the
    message of each [Reason] is quoted where it is thrown. *)
Inductive Entity := AnOrder | ACard.

Inductive Reason :=
| EntityNotFound | ModelNotFound | ModelNotManufacturable | NotAModel
| UpdateCompleted | UpdateCancelled | UpdateFailed
| StartNotPending | StartFailed
| PauseNotInProgress | PauseFailed
| ResumeNotPaused | ResumeFailed
| ComponentsNotActive | ComponentNotFound | ComponentAlreadyCompleted
| CompleteComponentFailed
| CompleteNotActive | ComponentsIncomplete | CompleteFailed
| CancelCompleted | AlreadyCancelled | CancelFailed
| StartComponentNotActive | ComponentTimerActive | StartComponentFailed
| ComponentOrTimerMissing | ComponentTimerAlreadyPaused | PauseComponentFailed
| ComponentTimerNotPaused | ResumeComponentFailed
| MaterialsNotActive | MaterialsComponentCompleted | UpdateMaterialsFailed
| MaterialNotFound | AddMaterialFailed
| PriorityTerminal | PriorityFailed.

Inductive Error :=
| Rejected (who : Entity) (why : Reason)
| ValidationFailed   (* a schema validator rejects the document *)
| DuplicateKey       (* a unique index rejects the document *)
| TypeError.          (* a property is read on [undefined] *)

(** The taxonomy of the specification (section 7) read on the messages:
    a missing order, card, component, material or model is [NotFound]; a
    guard on the lifecycle state is [InvalidState]; an operation of a
    repository that returns no document is [Internal]. *)
Inductive ErrorKind := NotFound | InvalidState | ValidationError | Conflict | Internal.

Definition reason_kind (r : Reason) : ErrorKind :=
  match r with
  | EntityNotFound | ModelNotFound | ComponentNotFound | MaterialNotFound
  | ComponentOrTimerMissing => NotFound
  | ModelNotManufacturable | NotAModel | UpdateCompleted | UpdateCancelled
  | StartNotPending | PauseNotInProgress | ResumeNotPaused
  | ComponentsNotActive | ComponentAlreadyCompleted | CompleteNotActive
  | ComponentsIncomplete | CancelCompleted | AlreadyCancelled
  | StartComponentNotActive | ComponentTimerActive
  | ComponentTimerAlreadyPaused | ComponentTimerNotPaused
  | MaterialsNotActive | MaterialsComponentCompleted | PriorityTerminal => InvalidState
  | UpdateFailed | StartFailed | PauseFailed | ResumeFailed
  | CompleteComponentFailed | CompleteFailed | CancelFailed
  | StartComponentFailed | PauseComponentFailed | ResumeComponentFailed
  | UpdateMaterialsFailed | AddMaterialFailed | PriorityFailed => Internal
  end.

Definition error_kind (e : Error) : ErrorKind :=
  match e with
  | Rejected _ why => reason_kind why
  | ValidationFailed => ValidationError
  | DuplicateKey => Conflict
  | TypeError => Internal
  end.

Inductive Outcome (A : Type) :=
| Ok (a : A)
| Throw (e : Error).
Global Arguments Ok {A}.
Global Arguments Throw {A}.

(** ** The inventory repository (domain/repositories/IInventoryRepository.ts)

    The use cases depend on the interface only.  An implementation has a
    state of its own and may fail (reject its promise) on any call. *)
Class IInventoryRepository (S : Type) := {
  findById : string -> S -> Outcome (option InventoryItem.t) * S;
  updateQuantity : string -> Z -> Date -> S -> Outcome (option InventoryItem.t) * S
}.

(** MongoInventoryRepository: [findByIdAndUpdate] with [runValidators], so
    that a negative quantity is rejected ([quantity: { min: 0 }]). *)
Global Instance MongoInventoryRepository :
  IInventoryRepository (gmap string InventoryItem.t) := {|
  findById id items := (Ok (items !! id), items);
  updateQuantity id quantity now items :=
    if quantity <? 0 then (Throw ValidationFailed, items)
    else match items !! id with
         | Some item =>
             let updatedItem := InventoryItem.set_quantity quantity now item in
             (Ok (Some updatedItem), <[id := updatedItem]> items)
         | None => (Ok None, items)
         end
|}.

(** ** The state: collections and heap *)

Record World (S : Type) := mkWorld {
  inventory : S;
  orders : gmap string ManufacturingOrderDocument;
  cards : gmap string ProductionCardDocument;
  heap : gmap Ref (list ComponentProgress.t)
}.
Global Arguments mkWorld {S}.
Global Arguments inventory {S}.
Global Arguments orders {S}.
Global Arguments cards {S}.
Global Arguments heap {S}.

Definition M (S A : Type) : Type := World S -> Outcome A * World S.

Definition ret {S A} (a : A) : M S A := fun w => (Ok a, w).

Definition throw {S A} (e : Error) : M S A := fun w => (Throw e, w).

Definition bind {S A B} (m : M S A) (k : A -> M S B) : M S B :=
  fun w =>
    match m w with
    | (Ok a, w') => k a w'
    | (Throw e, w') => (Throw e, w')
    end.

(** [try { body } catch (error) { console.error(...) }] *)
Definition try_catch_log {S} (body : M S unit) : M S unit :=
  fun w =>
    match body w with
    | (Ok _, w') => (Ok tt, w')
    | (Throw _, w') => (Ok tt, w')
    end.

Declare Scope monad_scope.
Delimit Scope monad_scope with monad.
Notation "x <- m ;; k" := (bind m (fun x => k))
  (at level 100, m at next level, right associativity,
   format "'[v' x  <-  m  ;; '/' k ']'") : monad_scope.
Notation "m ;;; k" := (bind m (fun _ => k))
  (at level 100, right associativity) : monad_scope.
Open Scope monad_scope.

(** [for (const x of xs) { body }] *)
Fixpoint forEach {S A} (xs : list A) (body : A -> M S unit) : M S unit :=
  match xs with
  | [] => ret tt
  | x :: xs' => body x ;;; forEach xs' body
  end.

(** A loop that collects one result per element, in order. *)
Fixpoint forCollect {S A B} (xs : list A) (body : A -> M S B) : M S (list B) :=
  match xs with
  | [] => ret []
  | x :: xs' =>
      y <- body x ;;
      ys <- forCollect xs' body ;;
      ret (y :: ys)
  end.

Section Heap.
Context {S : Type}.

Definition set_heap (h : gmap Ref (list ComponentProgress.t)) (w : World S) : World S :=
  mkWorld (inventory w) (orders w) (cards w) h.

Definition set_orders (o : gmap string ManufacturingOrderDocument) (w : World S) : World S :=
  mkWorld (inventory w) o (cards w) (heap w).

Definition set_cards (c : gmap string ProductionCardDocument) (w : World S) : World S :=
  mkWorld (inventory w) (orders w) c (heap w).

Definition set_inventory (i : S) (w : World S) : World S :=
  mkWorld i (orders w) (cards w) (heap w).

(** A new array object holding [cs]. *)
Definition allocArray (cs : list ComponentProgress.t) : M S Ref :=
  fun w =>
    let r := fresh (dom (heap w)) in
    (Ok r, set_heap (<[r := cs]> (heap w)) w).

Definition readArray (r : Ref) : M S (list ComponentProgress.t) :=
  fun w =>
    match heap w !! r with
    | Some cs => (Ok cs, w)
    | None => (Throw TypeError, w)
    end.

(** [array.push(c)]: the array object is modified in place. *)
Definition pushArray (r : Ref) (c : ComponentProgress.t) : M S unit :=
  fun w =>
    match heap w !! r with
    | Some cs => (Ok tt, set_heap (<[r := cs ++ [c]]> (heap w)) w)
    | None => (Throw TypeError, w)
    end.

(** [JSON.parse(JSON.stringify(array))]: a new array with the same contents.
    (The numbers, strings, booleans and nested arrays of a component survive
    the round trip unchanged; a date becomes its ISO string, which keeps the
    millisecond and is cast back to the same date when stored.) *)
Definition jsonClone (r : Ref) : M S Ref :=
  cs <- readArray r ;;
  allocArray cs.

(** A call to the inventory repository. *)
Definition callInventory {A} (f : S -> Outcome A * S) : M S A :=
  fun w =>
    let (r, s') := f (inventory w) in
    (r, set_inventory s' w).

End Heap.

(** ** Mongoose helpers shared by the two repositories *)

(** The positional operator: [{ 'components.componentId': id }] in the query
    and ['components.$.…'] in the update designate the first component with
    that id; without one, the query matches no document. *)
Fixpoint updateFirst (componentId' : string) (f : ComponentProgress.t -> ComponentProgress.t)
    (cs : list ComponentProgress.t) : option (list ComponentProgress.t) :=
  match cs with
  | [] => None
  | c :: cs' =>
      if bool_decide (ComponentProgress.componentId c = componentId') then Some (f c :: cs')
      else match updateFirst componentId' f cs' with
           | Some cs'' => Some (c :: cs'')
           | None => None
           end
  end.

(** [components.find(c => c.componentId === componentId)] *)
Definition findComponent (componentId' : string) (cs : list ComponentProgress.t)
    : option ComponentProgress.t :=
  List.find (fun c => bool_decide (ComponentProgress.componentId c = componentId')) cs.

(** [$set] of [isPaused] and [totalPauseMinutes] with [$unset] of
    [pauseStartTime], on the tracker of the document. *)
Definition set_tracker_resumed (newTotalPauseMinutes : Z) (o : option TimeTracker)
    : option TimeTracker :=
  match o with
  | Some t => Some (tt_set_resumed newTotalPauseMinutes t)
  | None =>
      Some {| startTime := None; endTime := None; totalTimeMinutes := 0;
              isPaused := false; pauseStartTime := None;
              totalPauseMinutes := newTotalPauseMinutes |}
  end.

(** The [required] validator of a string path. *)
Definition required (s : string) : bool := negb (bool_decide (s = "")).

Definition maxlength (n : nat) (s : option string) : bool :=
  match s with
  | Some s => bool_decide (String.length s <= n)%nat
  | None => true
  end.

(** The validators of an embedded component.  The order schema also bounds
    the material quantities from below ([min: 0]), the card schema does
    not: [materialMin] tells which. *)
Definition validMaterial (materialMin : bool) (m : MaterialUsage.t) : bool :=
  required (MaterialUsage.materialId m)
  && required (MaterialUsage.materialName m)
  && required (MaterialUsage.materialSku m)
  && required (MaterialUsage.unit m)
  && (negb materialMin
      || (Qle_bool 0 (MaterialUsage.plannedQuantity m)
          && Qle_bool 0 (MaterialUsage.actualQuantity m))).

Definition validComponent (materialMin : bool) (c : ComponentProgress.t) : bool :=
  required (ComponentProgress.componentId c)
  && required (ComponentProgress.componentName c)
  && required (ComponentProgress.componentSku c)
  && (0 <=? ComponentProgress.quantityRequired c)
  && (0 <=? ComponentProgress.quantityCompleted c)
  && forallb (validMaterial materialMin) (ComponentProgress.materialUsage c).

(** [Array.prototype.sort(compareFn)]: the sort is stable and, with a
    consistent comparator, leaves the elements in ascending order; the
    stable insertion sort is its reference implementation. *)
Fixpoint insertSorted {A} (compareFn : A -> A -> Z) (x : A) (l : list A) : list A :=
  match l with
  | [] => [x]
  | y :: l' =>
      if compareFn x y <=? 0 then x :: y :: l'
      else y :: insertSorted compareFn x l'
  end.

Definition sort {A} (compareFn : A -> A -> Z) (l : list A) : list A :=
  foldr (insertSorted compareFn) [] l.

(** [Model.find(query).sort({ key: 1 })]: the documents by ascending key.
    MongoDB does not fix the order of the documents that have the same key;
    they are left in the order of the collection. *)
Definition sortAscending {A} (key : A -> Z) (l : list A) : list A :=
  sort (fun a b => key a - key b) l.

(** ** Requests and creation data *)

Module ManufacturingOrderData.
Record t := mk {
  modelId : string;
  modelName : string;
  modelSku : string;
  quantity : Z;
  clientName : string;
  dueDate : Date;
  createdDate : Date;
  status : ManufacturingOrderStatus;
  components : Ref;
  notes : option string;
  estimatedHours : Q
}.
End ManufacturingOrderData.

Module UpdateManufacturingOrderRequest.
Record t := mk {
  clientName : option string;
  dueDate : option Date;
  notes : option string;
  quantity : option Z
}.
End UpdateManufacturingOrderRequest.

(** ** MongoManufacturingOrderRepository *)

Module MongoManufacturingOrderRepository.
Import ManufacturingOrder.
Section Repository.
Context {S : Type}.

(** [ManufacturingOrderModel.findById(id)] *)
Definition findDocument (id : string) : M S (option ManufacturingOrderDocument) :=
  fun w => (Ok (orders w !! id), w).

(** [ManufacturingOrderModel.findByIdAndUpdate(id, update, { new: true })] *)
Definition findByIdAndUpdate (id : string)
    (update : ManufacturingOrderDocument -> ManufacturingOrderDocument)
    : M S (option ManufacturingOrderDocument) :=
  fun w =>
    match orders w !! id with
    | Some doc =>
        let doc' := update doc in
        (Ok (Some doc'), set_orders (<[id := doc']> (orders w)) w)
    | None => (Ok None, w)
    end.

(** [ManufacturingOrderModel.findOneAndUpdate(
       { _id: orderId, 'components.componentId': componentId },
       { $set: { 'components.$.…': …, updatedAt: now } }, { new: true })] *)
Definition findOneAndUpdate (orderId componentId' : string)
    (update : ComponentProgress.t -> ComponentProgress.t) (now : Date)
    : M S (option ManufacturingOrderDocument) :=
  fun w =>
    match orders w !! orderId with
    | Some doc =>
        match updateFirst componentId' update (components doc) with
        | Some cs =>
            let doc' := with_components_at cs now doc in
            (Ok (Some doc'), set_orders (<[orderId := doc']> (orders w)) w)
        | None => (Ok None, w)
        end
    | None => (Ok None, w)
    end.

(** The entity shares the component array of the hydrated document, an
    array of its own for every document read or saved. *)
Definition mapToEntity (doc : ManufacturingOrderDocument) : M S ManufacturingOrderEntity :=
  r <- allocArray (components doc) ;;
  ret (with_components r doc).

(** [order ? this.mapToEntity(order) : null] *)
Definition mapToEntityOrNull (doc : option ManufacturingOrderDocument)
    : M S (option ManufacturingOrderEntity) :=
  match doc with
  | Some doc => e <- mapToEntity doc ;; ret (Some e)
  | None => ret None
  end.

(** The validators run by [save()]. *)
Definition validate (doc : ManufacturingOrderDocument) : bool :=
  required (modelId doc) && required (modelName doc) && required (modelSku doc)
  && (1 <=? quantity doc)
  && required (clientName doc) && maxlength 200 (Some (clientName doc))
  && maxlength 1000 (notes doc)
  && Qle_bool 0 (estimatedHours doc)
  && forallb (validComponent true) (components doc).

Definition create (orderData : ManufacturingOrderData.t) (now : Date)
    : M S ManufacturingOrderEntity :=
  cs <- readArray (ManufacturingOrderData.components orderData) ;;
  fun w =>
    let doc :=
      mk (fresh (dom (orders w)))
         (ManufacturingOrderData.modelId orderData)
         (ManufacturingOrderData.modelName orderData)
         (ManufacturingOrderData.modelSku orderData)
         (ManufacturingOrderData.quantity orderData)
         (ManufacturingOrderData.clientName orderData)
         (ManufacturingOrderData.dueDate orderData)
         (ManufacturingOrderData.createdDate orderData)
         (ManufacturingOrderData.status orderData)
         cs
         (ManufacturingOrderData.notes orderData)
         (ManufacturingOrderData.estimatedHours orderData)
         None None None now now in
    if validate doc
    then mapToEntity doc (set_orders (<[id doc := doc]> (orders w)) w)
    else (Throw ValidationFailed, w).

Definition findById (id : string) : M S (option ManufacturingOrderEntity) :=
  order <- findDocument id ;;
  mapToEntityOrNull order.

(** [{ ...updates, updatedAt: new Date() }] *)
Definition applyUpdates (updates : UpdateManufacturingOrderRequest.t) (now : Date)
    (doc : ManufacturingOrderDocument) : ManufacturingOrderDocument :=
  mk (id doc) (modelId doc) (modelName doc) (modelSku doc)
     (default (quantity doc) (UpdateManufacturingOrderRequest.quantity updates))
     (default (clientName doc) (UpdateManufacturingOrderRequest.clientName updates))
     (default (dueDate doc) (UpdateManufacturingOrderRequest.dueDate updates))
     (createdDate doc) (status doc) (components doc)
     (match UpdateManufacturingOrderRequest.notes updates with
      | Some n => Some n
      | None => notes doc
      end)
     (estimatedHours doc) (startedAt doc) (completedAt doc) (timeTracker doc)
     (createdAt doc) now.

Definition update (id : string) (updates : UpdateManufacturingOrderRequest.t)
    (now : Date) : M S (option ManufacturingOrderEntity) :=
  order <- findByIdAndUpdate id (applyUpdates updates now) ;;
  mapToEntityOrNull order.

Definition startProduction (id : string) (now : Date)
    : M S (option ManufacturingOrderEntity) :=
  order <- findByIdAndUpdate id (started now) ;;
  mapToEntityOrNull order.

Definition pauseProduction (id : string) (now : Date)
    : M S (option ManufacturingOrderEntity) :=
  order <- findByIdAndUpdate id
             (fun doc => with_status_tracker PAUSED
                           (set_tracker_paused now (timeTracker doc)) now doc) ;;
  mapToEntityOrNull order.

Definition resumeProduction (id : string) (now : Date)
    : M S (option ManufacturingOrderEntity) :=
  currentOrder <- findDocument id ;;
  match currentOrder with
  | None => ret None
  | Some currentOrder =>
      match timeTracker currentOrder with
      | None => ret None
      | Some tracker =>
          match pauseStartTime tracker with
          | None => ret None
          | Some pauseStart =>
              let pauseTime := now - pauseStart in
              let pauseMinutes := round_minutes pauseTime in
              let newTotalPauseMinutes := totalPauseMinutes tracker + pauseMinutes in
              order <- findByIdAndUpdate id
                         (fun doc => with_status_tracker IN_PROGRESS
                                       (set_tracker_resumed newTotalPauseMinutes
                                          (timeTracker doc)) now doc) ;;
              mapToEntityOrNull order
          end
      end
  end.

Definition getCurrentProductionTime (id : string) (now : Date) : M S Z :=
  order <- findDocument id ;;
  match order with
  | None => ret 0
  | Some order =>
      match timeTracker order with
      | None => ret 0
      | Some tracker =>
          match startTime tracker with
          | None => throw TypeError
          | Some start =>
              let totalTime := now - start in
              let totalTime :=
                match isPaused tracker, pauseStartTime tracker with
                | true, Some pauseStart =>
                    let currentPauseTime := now - pauseStart in
                    totalTime - currentPauseTime
                | _, _ => totalTime
                end in
              let totalTime := totalTime - totalPauseMinutes tracker * 60 * 1000 in
              ret (Z.max 0 (round_minutes totalTime))
          end
      end
  end.

Definition completeComponent (orderId componentId' : string) (now : Date)
    : M S (option ManufacturingOrderEntity) :=
  orderDoc <- findDocument orderId ;;
  match orderDoc with
  | None => ret None
  | Some orderDoc =>
      match findComponent componentId' (components orderDoc) with
      | None => ret None
      | Some component =>
          order <- findOneAndUpdate orderId componentId'
                     (ComponentProgress.set_completed now
                        (ComponentProgress.quantityRequired component)) now ;;
          mapToEntityOrNull order
      end
  end.

Definition completeOrder (id : string) (now : Date)
    : M S (option ManufacturingOrderEntity) :=
  order <- findByIdAndUpdate id (completed now) ;;
  mapToEntityOrNull order.

Definition cancelOrder (id : string) (now : Date)
    : M S (option ManufacturingOrderEntity) :=
  order <- findByIdAndUpdate id (cancelled now) ;;
  mapToEntityOrNull order.

Definition startComponentProduction (orderId componentId' : string) (now : Date)
    : M S (option ManufacturingOrderEntity) :=
  order <- findOneAndUpdate orderId componentId' (ComponentProgress.set_started now) now ;;
  mapToEntityOrNull order.

Definition pauseComponentProduction (orderId componentId' : string) (now : Date)
    : M S (option ManufacturingOrderEntity) :=
  order <- findOneAndUpdate orderId componentId'
             (fun c => ComponentProgress.set_timeTracker
                         (set_tracker_paused now (ComponentProgress.timeTracker c)) c)
             now ;;
  mapToEntityOrNull order.

Definition resumeComponentProduction (orderId componentId' : string) (now : Date)
    : M S (option ManufacturingOrderEntity) :=
  currentOrder <- findDocument orderId ;;
  match currentOrder with
  | None => ret None
  | Some currentOrder =>
      match findComponent componentId' (components currentOrder) with
      | None => ret None
      | Some component =>
          match ComponentProgress.timeTracker component with
          | None => ret None
          | Some tracker =>
              match pauseStartTime tracker with
              | None => ret None
              | Some pauseStart =>
                  let pauseTime := now - pauseStart in
                  let pauseMinutes := round_minutes pauseTime in
                  let newTotalPauseMinutes := totalPauseMinutes tracker + pauseMinutes in
                  order <- findOneAndUpdate orderId componentId'
                             (fun c => ComponentProgress.set_timeTracker
                                         (set_tracker_resumed newTotalPauseMinutes
                                            (ComponentProgress.timeTracker c)) c)
                             now ;;
                  mapToEntityOrNull order
              end
          end
      end
  end.

Definition getComponentProductionTime (orderId componentId' : string) (now : Date)
    : M S Z :=
  order <- findDocument orderId ;;
  match order with
  | None => ret 0
  | Some order =>
      match findComponent componentId' (components order) with
      | None => ret 0
      | Some component =>
          match ComponentProgress.timeTracker component with
          | None => ret 0
          | Some tracker =>
              match startTime tracker with
              | None => throw TypeError
              | Some start =>
                  let totalTime := now - start in
                  let totalTime :=
                    match isPaused tracker, pauseStartTime tracker with
                    | true, Some pauseStart =>
                        let currentPauseTime := now - pauseStart in
                        totalTime - currentPauseTime
                    | _, _ => totalTime
                    end in
                  let totalTime := totalTime - totalPauseMinutes tracker * 60 * 1000 in
                  ret (Z.max 0 (round_minutes totalTime))
              end
          end
      end
  end.

Definition updateComponentMaterials (orderId componentId' : string)
    (materials : list MaterialUsage.t) (now : Date)
    : M S (option ManufacturingOrderEntity) :=
  order <- findOneAndUpdate orderId componentId'
             (ComponentProgress.set_materialUsage materials) now ;;
  mapToEntityOrNull order.

(** [$push: { 'components.$.materialUsage': material }] *)
Definition addMaterialToComponent (orderId componentId' : string)
    (material : MaterialUsage.t) (now : Date)
    : M S (option ManufacturingOrderEntity) :=
  order <- findOneAndUpdate orderId componentId'
             (fun c => ComponentProgress.set_materialUsage
                         (ComponentProgress.materialUsage c ++ [material]) c)
             now ;;
  mapToEntityOrNull order.

(** [ManufacturingOrderModel.find(query)], in the order of the collection. *)
Definition findWhere (query : ManufacturingOrderDocument -> bool)
    : M S (list ManufacturingOrderDocument) :=
  fun w =>
    (Ok (filter (fun doc => query doc = true) (snd <$> map_to_list (orders w))), w).

(** [ManufacturingOrderModel.findByIdAndDelete(id)] and [result !== null] *)
Definition delete (id : string) : M S bool :=
  fun w =>
    match orders w !! id with
    | Some _ => (Ok true, set_orders (base.delete id (orders w)) w)
    | None => (Ok false, w)
    end.

Definition getOrdersByStatus (status' : ManufacturingOrderStatus)
    : M S (list ManufacturingOrderEntity) :=
  orders' <- findWhere (fun doc => bool_decide (status doc = status')) ;;
  forCollect (sortAscending dueDate orders') mapToEntity.

(** [{ dueDate: { $lt: new Date() }, status: { $nin: [COMPLETED, CANCELLED] } }] *)
Definition getOverdueOrders (now : Date) : M S (list ManufacturingOrderEntity) :=
  orders' <- findWhere (fun doc => (dueDate doc <? now)
                                   && negb (bool_decide (status doc = COMPLETED))
                                   && negb (bool_decide (status doc = CANCELLED))) ;;
  forCollect (sortAscending dueDate orders') mapToEntity.

(** [{ status: { $in: [PENDING, IN_PROGRESS, PAUSED] } }] *)
Definition getActiveOrders : M S (list ManufacturingOrderEntity) :=
  orders' <- findWhere (fun doc => bool_decide (status doc = PENDING)
                                   || bool_decide (status doc = IN_PROGRESS)
                                   || bool_decide (status doc = PAUSED)) ;;
  forCollect (sortAscending dueDate orders') mapToEntity.

End Repository.
End MongoManufacturingOrderRepository.

(** ** MongoProductionCardRepository *)

Module ProductionCardData.
Record t := mk {
  orderId : string;
  orderName : string;
  cardNumber : Z;
  totalCards : Z;
  modelId : string;
  modelName : string;
  modelSku : string;
  quantity : Z;
  dueDate : Date;
  status : ProductionCardStatus.t;
  priority : ProductionCardPriority;
  components : Ref;
  notes : option string;
  estimatedHours : Q
}.
End ProductionCardData.

(** [Partial<ProductionCard>], for the fields that a client edits. *)
Module ProductionCardUpdates.
Record t := mk {
  dueDate : option Date;
  status : option ProductionCardStatus.t;
  priority : option ProductionCardPriority;
  notes : option string;
  quantity : option Z
}.
End ProductionCardUpdates.

Module ProductionCardFilters.
Record t := mk {
  status : option ProductionCardStatus.t;
  priority : option ProductionCardPriority;
  orderId : option string;
  modelId : option string;
  overdue : option bool;
  startDate : option Date;
  endDate : option Date;
  search : option string
}.

(** [filters = {}] *)
Definition empty : t := mk None None None None None None None None.
End ProductionCardFilters.

Module MongoProductionCardRepository.
Import ProductionCard.
Section Repository.
Context {S : Type}.

(** The matching of [{ $regex: pattern, $options: 'i' }], left to the
    database. *)
Variable regexMatch : string -> string -> bool.

Definition findDocument (id : string) : M S (option ProductionCardDocument) :=
  fun w => (Ok (cards w !! id), w).

Definition findByIdAndUpdate (id : string)
    (update : ProductionCardDocument -> ProductionCardDocument)
    : M S (option ProductionCardDocument) :=
  fun w =>
    match cards w !! id with
    | Some doc =>
        let doc' := update doc in
        (Ok (Some doc'), set_cards (<[id := doc']> (cards w)) w)
    | None => (Ok None, w)
    end.

Definition findOneAndUpdate (cardId componentId' : string)
    (update : ComponentProgress.t -> ComponentProgress.t) (now : Date)
    : M S (option ProductionCardDocument) :=
  fun w =>
    match cards w !! cardId with
    | Some doc =>
        match updateFirst componentId' update (components doc) with
        | Some cs =>
            let doc' := with_components_at cs now doc in
            (Ok (Some doc'), set_cards (<[cardId := doc']> (cards w)) w)
        | None => (Ok None, w)
        end
    | None => (Ok None, w)
    end.

Definition mapToEntity (doc : ProductionCardDocument) : M S ProductionCardEntity :=
  r <- allocArray (components doc) ;;
  ret (with_components r doc).

Definition mapToEntityOrNull (doc : option ProductionCardDocument)
    : M S (option ProductionCardEntity) :=
  match doc with
  | Some doc => e <- mapToEntity doc ;; ret (Some e)
  | None => ret None
  end.

Definition validate (doc : ProductionCardDocument) : bool :=
  required (orderId doc) && required (orderName doc)
  && (1 <=? cardNumber doc) && (1 <=? totalCards doc)
  && required (modelId doc) && required (modelName doc) && required (modelSku doc)
  && (1 <=? quantity doc)
  && Qle_bool 0 (estimatedHours doc)
  && forallb (validComponent false) (components doc).

(** The unique index on [{ orderId: 1, cardNumber: 1 }]. *)
Definition duplicateKey (doc : ProductionCardDocument)
    (stored : gmap string ProductionCardDocument) : bool :=
  existsb (fun kd => bool_decide (orderId (snd kd) = orderId doc)
                     && (cardNumber (snd kd) =? cardNumber doc))
          (map_to_list stored).

Definition create (cardData : ProductionCardData.t) (now : Date)
    : M S ProductionCardEntity :=
  cs <- readArray (ProductionCardData.components cardData) ;;
  fun w =>
    let doc :=
      mk (fresh (dom (cards w)))
         (ProductionCardData.orderId cardData)
         (ProductionCardData.orderName cardData)
         (ProductionCardData.cardNumber cardData)
         (ProductionCardData.totalCards cardData)
         (ProductionCardData.modelId cardData)
         (ProductionCardData.modelName cardData)
         (ProductionCardData.modelSku cardData)
         (ProductionCardData.quantity cardData)
         (ProductionCardData.dueDate cardData)
         (ProductionCardData.status cardData)
         (Some (ProductionCardData.priority cardData))
         cs
         (ProductionCardData.notes cardData)
         (ProductionCardData.estimatedHours cardData)
         None None None now now in
    if negb (validate doc) then (Throw ValidationFailed, w)
    else if duplicateKey doc (cards w) then (Throw DuplicateKey, w)
    else mapToEntity doc (set_cards (<[id doc := doc]> (cards w)) w).

Definition findById (id : string) : M S (option ProductionCardEntity) :=
  card <- findDocument id ;;
  mapToEntityOrNull card.

(** The truthiness tests of [findAll] on its filters: an empty string and
    [false] count as absent. *)
Definition givenString (s : option string) : option string :=
  match s with
  | Some s => if bool_decide (s = "") then None else Some s
  | None => None
  end.

Definition givenFlag (b : option bool) : bool :=
  match b with Some true => true | _ => false end.

(** Whether a document matches the query that [findAll] builds. *)
Definition matchesQuery (filters : ProductionCardFilters.t) (now : Date)
    (doc : ProductionCardDocument) : bool :=
  (* query.status, overwritten by the [$nin] of the overdue filter *)
  (if givenFlag (ProductionCardFilters.overdue filters)
   then (dueDate doc <? now)
        && negb (bool_decide (status doc = ProductionCardStatus.COMPLETED))
        && negb (bool_decide (status doc = ProductionCardStatus.CANCELLED))
   else match ProductionCardFilters.status filters with
        | Some s => bool_decide (status doc = s)
        | None => true
        end)
  && match ProductionCardFilters.priority filters with
     | Some p => bool_decide (priority doc = Some p)
     | None => true
     end
  && match givenString (ProductionCardFilters.orderId filters) with
     | Some o => bool_decide (orderId doc = o)
     | None => true
     end
  && match givenString (ProductionCardFilters.modelId filters) with
     | Some m => bool_decide (modelId doc = m)
     | None => true
     end
  && match ProductionCardFilters.startDate filters with
     | Some d => d <=? createdAt doc
     | None => true
     end
  && match ProductionCardFilters.endDate filters with
     | Some d => createdAt doc <=? d
     | None => true
     end
  && match givenString (ProductionCardFilters.search filters) with
     | Some pattern =>
         regexMatch pattern (orderName doc)
         || regexMatch pattern (modelName doc)
         || regexMatch pattern (modelSku doc)
     | None => true
     end.

(** [ProductionCardModel.find(query)], in the order of the collection. *)
Definition find (filters : ProductionCardFilters.t) (now : Date)
    : M S (list ProductionCardDocument) :=
  fun w =>
    (Ok (filter (fun doc => matchesQuery filters now doc = true)
                (snd <$> map_to_list (cards w))), w).

Definition priorityOrder (p : ProductionCardPriority) : Z :=
  match p with
  | URGENT => 1
  | HIGH => 2
  | NORMAL => 3
  | LOW => 4
  end.

(** [priorityOrder[a.priority] || 3] *)
Definition priorityValue {C} (a : ProductionCard.t C) : Z :=
  match priority a with
  | Some p => priorityOrder p
  | None => 3
  end.

(** The comparator of [findAll]. *)
Definition compareCards {C} (a b : ProductionCard.t C) : Z :=
  let aPriorityValue := priorityValue a in
  let bPriorityValue := priorityValue b in
  if negb (aPriorityValue =? bPriorityValue)
  then aPriorityValue - bPriorityValue
  else dueDate a - dueDate b.

Definition findAll (filters : ProductionCardFilters.t) (now : Date)
    : M S (list ProductionCardEntity) :=
  cards <- find filters now ;;
  let sortedCards := sort compareCards cards in
  forCollect sortedCards mapToEntity.

(** [{ ...updates, updatedAt: new Date() }] *)
Definition applyUpdates (updates : ProductionCardUpdates.t) (now : Date)
    (doc : ProductionCardDocument) : ProductionCardDocument :=
  mk (id doc) (orderId doc) (orderName doc) (cardNumber doc) (totalCards doc)
     (modelId doc) (modelName doc) (modelSku doc)
     (default (quantity doc) (ProductionCardUpdates.quantity updates))
     (default (dueDate doc) (ProductionCardUpdates.dueDate updates))
     (default (status doc) (ProductionCardUpdates.status updates))
     (match ProductionCardUpdates.priority updates with
      | Some p => Some p
      | None => priority doc
      end)
     (components doc)
     (match ProductionCardUpdates.notes updates with
      | Some n => Some n
      | None => notes doc
      end)
     (estimatedHours doc) (startedAt doc) (completedAt doc) (timeTracker doc)
     (createdAt doc) now.

Definition update (id : string) (updates : ProductionCardUpdates.t) (now : Date)
    : M S (option ProductionCardEntity) :=
  card <- findByIdAndUpdate id (applyUpdates updates now) ;;
  mapToEntityOrNull card.

Definition startProduction (id : string) (now : Date)
    : M S (option ProductionCardEntity) :=
  card <- findByIdAndUpdate id (started now) ;;
  mapToEntityOrNull card.

Definition pauseProduction (id : string) (now : Date)
    : M S (option ProductionCardEntity) :=
  card <- findByIdAndUpdate id
            (fun doc => with_status_tracker ProductionCardStatus.PAUSED
                          (set_tracker_paused now (timeTracker doc)) now doc) ;;
  mapToEntityOrNull card.

Definition resumeProduction (id : string) (now : Date)
    : M S (option ProductionCardEntity) :=
  currentCard <- findDocument id ;;
  match currentCard with
  | None => ret None
  | Some currentCard =>
      match timeTracker currentCard with
      | None => ret None
      | Some tracker =>
          match pauseStartTime tracker with
          | None => ret None
          | Some pauseStart =>
              let pauseTime := now - pauseStart in
              let pauseMinutes := round_minutes pauseTime in
              let newTotalPauseMinutes := totalPauseMinutes tracker + pauseMinutes in
              card <- findByIdAndUpdate id
                        (fun doc => with_status_tracker ProductionCardStatus.IN_PROGRESS
                                      (set_tracker_resumed newTotalPauseMinutes
                                         (timeTracker doc)) now doc) ;;
              mapToEntityOrNull card
          end
      end
  end.

Definition getCurrentProductionTime (id : string) (now : Date) : M S Z :=
  card <- findDocument id ;;
  match card with
  | None => ret 0
  | Some card =>
      match timeTracker card with
      | None => ret 0
      | Some tracker =>
          match startTime tracker with
          | None => throw TypeError
          | Some start =>
              let totalTime := now - start in
              let totalTime :=
                match isPaused tracker, pauseStartTime tracker with
                | true, Some pauseStart =>
                    let currentPauseTime := now - pauseStart in
                    totalTime - currentPauseTime
                | _, _ => totalTime
                end in
              let totalTime := totalTime - totalPauseMinutes tracker * 60 * 1000 in
              ret (Z.max 0 (round_minutes totalTime))
          end
      end
  end.

Definition completeComponent (cardId componentId' : string) (now : Date)
    : M S (option ProductionCardEntity) :=
  cardDoc <- findDocument cardId ;;
  match cardDoc with
  | None => ret None
  | Some cardDoc =>
      match findComponent componentId' (components cardDoc) with
      | None => ret None
      | Some component =>
          card <- findOneAndUpdate cardId componentId'
                    (ComponentProgress.set_completed now
                       (ComponentProgress.quantityRequired component)) now ;;
          mapToEntityOrNull card
      end
  end.

Definition completeCard (id : string) (now : Date)
    : M S (option ProductionCardEntity) :=
  card <- findByIdAndUpdate id (completed now) ;;
  mapToEntityOrNull card.

Definition cancelCard (id : string) (now : Date)
    : M S (option ProductionCardEntity) :=
  card <- findByIdAndUpdate id (cancelled now) ;;
  mapToEntityOrNull card.

Definition startComponentProduction (cardId componentId' : string) (now : Date)
    : M S (option ProductionCardEntity) :=
  card <- findOneAndUpdate cardId componentId' (ComponentProgress.set_started now) now ;;
  mapToEntityOrNull card.

Definition pauseComponentProduction (cardId componentId' : string) (now : Date)
    : M S (option ProductionCardEntity) :=
  card <- findOneAndUpdate cardId componentId'
            (fun c => ComponentProgress.set_timeTracker
                        (set_tracker_paused now (ComponentProgress.timeTracker c)) c)
            now ;;
  mapToEntityOrNull card.

Definition resumeComponentProduction (cardId componentId' : string) (now : Date)
    : M S (option ProductionCardEntity) :=
  currentCard <- findDocument cardId ;;
  match currentCard with
  | None => ret None
  | Some currentCard =>
      match findComponent componentId' (components currentCard) with
      | None => ret None
      | Some component =>
          match ComponentProgress.timeTracker component with
          | None => ret None
          | Some tracker =>
              match pauseStartTime tracker with
              | None => ret None
              | Some pauseStart =>
                  let pauseTime := now - pauseStart in
                  let pauseMinutes := round_minutes pauseTime in
                  let newTotalPauseMinutes := totalPauseMinutes tracker + pauseMinutes in
                  card <- findOneAndUpdate cardId componentId'
                            (fun c => ComponentProgress.set_timeTracker
                                        (set_tracker_resumed newTotalPauseMinutes
                                           (ComponentProgress.timeTracker c)) c)
                            now ;;
                  mapToEntityOrNull card
              end
          end
      end
  end.

Definition getComponentProductionTime (cardId componentId' : string) (now : Date)
    : M S Z :=
  card <- findDocument cardId ;;
  match card with
  | None => ret 0
  | Some card =>
      match findComponent componentId' (components card) with
      | None => ret 0
      | Some component =>
          match ComponentProgress.timeTracker component with
          | None => ret 0
          | Some tracker =>
              match startTime tracker with
              | None => throw TypeError
              | Some start =>
                  let totalTime := now - start in
                  let totalTime :=
                    match isPaused tracker, pauseStartTime tracker with
                    | true, Some pauseStart =>
                        let currentPauseTime := now - pauseStart in
                        totalTime - currentPauseTime
                    | _, _ => totalTime
                    end in
                  let totalTime := totalTime - totalPauseMinutes tracker * 60 * 1000 in
                  ret (Z.max 0 (round_minutes totalTime))
              end
          end
      end
  end.

Definition updateComponentMaterials (cardId componentId' : string)
    (materials : list MaterialUsage.t) (now : Date)
    : M S (option ProductionCardEntity) :=
  card <- findOneAndUpdate cardId componentId'
            (ComponentProgress.set_materialUsage materials) now ;;
  mapToEntityOrNull card.

Definition addMaterialToComponent (cardId componentId' : string)
    (material : MaterialUsage.t) (now : Date)
    : M S (option ProductionCardEntity) :=
  card <- findOneAndUpdate cardId componentId'
            (fun c => ComponentProgress.set_materialUsage
                        (ComponentProgress.materialUsage c ++ [material]) c)
            now ;;
  mapToEntityOrNull card.

(** [ProductionCardModel.find(query)], in the order of the collection. *)
Definition findWhere (query : ProductionCardDocument -> bool)
    : M S (list ProductionCardDocument) :=
  fun w =>
    (Ok (filter (fun doc => query doc = true) (snd <$> map_to_list (cards w))), w).

(** [ProductionCardModel.find({ orderId }).sort({ cardNumber: 1 })] *)
Definition findByOrderId (orderId' : string) : M S (list ProductionCardEntity) :=
  cards' <- findWhere (fun doc => bool_decide (orderId doc = orderId')) ;;
  forCollect (sortAscending cardNumber cards') mapToEntity.

(** [ProductionCardModel.findByIdAndDelete(id)] and [result !== null] *)
Definition delete (id : string) : M S bool :=
  fun w =>
    match cards w !! id with
    | Some _ => (Ok true, set_cards (base.delete id (cards w)) w)
    | None => (Ok false, w)
    end.

Definition getCardsByStatus (status' : ProductionCardStatus.t)
    : M S (list ProductionCardEntity) :=
  cards' <- findWhere (fun doc => bool_decide (status doc = status')) ;;
  forCollect (sortAscending dueDate cards') mapToEntity.

Definition getCardsByPriority (priority' : ProductionCardPriority)
    : M S (list ProductionCardEntity) :=
  cards' <- findWhere (fun doc => bool_decide (priority doc = Some priority')) ;;
  forCollect (sortAscending dueDate cards') mapToEntity.

Definition getOverdueCards (now : Date) : M S (list ProductionCardEntity) :=
  cards' <- findWhere
              (fun doc => (dueDate doc <? now)
                          && negb (bool_decide (status doc = ProductionCardStatus.COMPLETED))
                          && negb (bool_decide (status doc = ProductionCardStatus.CANCELLED))) ;;
  forCollect (sortAscending dueDate cards') mapToEntity.

Definition getActiveCards : M S (list ProductionCardEntity) :=
  cards' <- findWhere
              (fun doc => bool_decide (status doc = ProductionCardStatus.PENDING)
                          || bool_decide (status doc = ProductionCardStatus.IN_PROGRESS)
                          || bool_decide (status doc = ProductionCardStatus.PAUSED)) ;;
  forCollect (sortAscending dueDate cards') mapToEntity.

End Repository.
End MongoProductionCardRepository.

(** ** ProductionCardUseCases

    The use cases receive their repositories by injection; the card and
    order repositories are the Mongo ones above, the inventory repository is
    any implementation of its interface. *)

Module CreateProductionCardRequest.
Record t := mk {
  orderId : string;
  orderName : string;
  cardNumber : Z;
  totalCards : Z;
  modelId : string;
  modelName : string;
  modelSku : string;
  dueDate : Date;
  components : Ref;
  notes : option string;
  estimatedHours : Q;
  priority : option ProductionCardPriority
}.
End CreateProductionCardRequest.

(** The result of [getCardsStats]; a [Record<K, number>] whose keys are the
    values of an enumeration is a function on the enumeration. *)
Module CardsStats.
Record t := mk {
  totalCards : Z;
  byStatus : ProductionCardStatus.t -> Z;
  byPriority : ProductionCardPriority -> Z;
  overdue : Z
}.
End CardsStats.

(** [counts[k]++] *)
Definition increment {K} `{EqDecision K} (k : K) (counts : K -> Z) : K -> Z :=
  fun k' => if decide (k' = k) then counts k' + 1 else counts k'.

Module ProductionCardUseCases.
Import ProductionCard.
Module Repo := MongoProductionCardRepository.
Section UseCases.
Context {S : Type} {inventoryRepository : IInventoryRepository S}.

Definition rejected {A} (why : Reason) : M S A := throw (Rejected ACard why).

Definition createProductionCard (request : CreateProductionCardRequest.t) (now : Date)
    : M S ProductionCardEntity :=
  clonedComponents <- jsonClone (CreateProductionCardRequest.components request) ;;
  let cardData :=
    ProductionCardData.mk
      (CreateProductionCardRequest.orderId request)
      (CreateProductionCardRequest.orderName request)
      (CreateProductionCardRequest.cardNumber request)
      (CreateProductionCardRequest.totalCards request)
      (CreateProductionCardRequest.modelId request)
      (CreateProductionCardRequest.modelName request)
      (CreateProductionCardRequest.modelSku request)
      1
      (CreateProductionCardRequest.dueDate request)
      ProductionCardStatus.PENDING
      (default NORMAL (CreateProductionCardRequest.priority request))
      clonedComponents
      (CreateProductionCardRequest.notes request)
      (CreateProductionCardRequest.estimatedHours request) in
  Repo.create cardData now.

Definition createMultipleProductionCards
    (requests : list CreateProductionCardRequest.t) (now : Date)
    : M S (list ProductionCardEntity) :=
  forCollect requests (fun request => createProductionCard request now).

Definition getAllCards (regexMatch : string -> string -> bool)
    (filters : ProductionCardFilters.t) (now : Date)
    : M S (list ProductionCardEntity) :=
  Repo.findAll regexMatch filters now.

(** 'Tarjeta de producción no encontrada' *)
Definition getCardById (id : string) : M S ProductionCardEntity :=
  card <- Repo.findById id ;;
  match card with
  | None => rejected EntityNotFound
  | Some card => ret card
  end.

Definition updateCard (id : string) (updates : ProductionCardUpdates.t) (now : Date)
    : M S ProductionCardEntity :=
  existingCard <- Repo.findById id ;;
  match existingCard with
  | None => rejected EntityNotFound
  | Some _ =>
      updatedCard <- Repo.update id updates now ;;
      match updatedCard with
      | None => rejected UpdateFailed
      | Some updatedCard => ret updatedCard
      end
  end.

Definition startProduction (id : string) (now : Date) : M S ProductionCardEntity :=
  card <- getCardById id ;;
  if negb (bool_decide (status card = ProductionCardStatus.PENDING))
  then rejected StartNotPending (* 'Solo se pueden iniciar tarjetas pendientes' *)
  else
    updatedCard <- Repo.startProduction id now ;;
    match updatedCard with
    | None => rejected StartFailed
    | Some updatedCard => ret updatedCard
    end.

Definition pauseProduction (id : string) (now : Date) : M S ProductionCardEntity :=
  card <- getCardById id ;;
  if negb (bool_decide (status card = ProductionCardStatus.IN_PROGRESS))
  then rejected PauseNotInProgress (* 'Solo se pueden pausar tarjetas en progreso' *)
  else
    updatedCard <- Repo.pauseProduction id now ;;
    match updatedCard with
    | None => rejected PauseFailed
    | Some updatedCard => ret updatedCard
    end.

Definition resumeProduction (id : string) (now : Date) : M S ProductionCardEntity :=
  card <- getCardById id ;;
  if negb (bool_decide (status card = ProductionCardStatus.PAUSED))
  then rejected ResumeNotPaused (* 'Solo se pueden reanudar tarjetas pausadas' *)
  else
    updatedCard <- Repo.resumeProduction id now ;;
    match updatedCard with
    | None => rejected ResumeFailed
    | Some updatedCard => ret updatedCard
    end.

Definition getCurrentProductionTime (id : string) (now : Date) : M S Z :=
  Repo.getCurrentProductionTime id now.

Definition completeComponent (cardId componentId' : string) (now : Date)
    : M S ProductionCardEntity :=
  card <- getCardById cardId ;;
  if negb (bool_decide (status card = ProductionCardStatus.IN_PROGRESS))
     && negb (bool_decide (status card = ProductionCardStatus.PAUSED))
  then rejected ComponentsNotActive
  else
    cs <- readArray (components card) ;;
    match findComponent componentId' cs with
    | None => rejected ComponentNotFound
    | Some component =>
        if ComponentProgress.isCompleted component
        then rejected ComponentAlreadyCompleted
        else
          updatedCard <- Repo.completeComponent cardId componentId' now ;;
          match updatedCard with
          | None => rejected CompleteComponentFailed
          | Some updatedCard => ret updatedCard
          end
    end.

Definition completeCard (id : string) (now : Date) : M S ProductionCardEntity :=
  card <- getCardById id ;;
  if negb (bool_decide (status card = ProductionCardStatus.IN_PROGRESS))
     && negb (bool_decide (status card = ProductionCardStatus.PAUSED))
  then rejected CompleteNotActive
       (* 'Solo se pueden completar tarjetas en progreso o pausadas' *)
  else
    cs <- readArray (components card) ;;
    let allComponentsComplete := forallb ComponentProgress.isCompleted cs in
    if negb allComponentsComplete
    then rejected ComponentsIncomplete
         (* 'No se puede completar la tarjeta: faltan componentes por fabricar' *)
    else
      updatedCard <- Repo.completeCard id now ;;
      match updatedCard with
      | None => rejected CompleteFailed
      | Some updatedCard =>
          try_catch_log
            (currentModel <- callInventory (findById (modelId card)) ;;
             match currentModel with
             | Some currentModel =>
                 callInventory
                   (updateQuantity (modelId card)
                      (InventoryItem.quantity currentModel + 1) now) ;;;
                 ret tt
             | None => ret tt
             end) ;;;
          ret updatedCard
      end.

Definition cancelCard (id : string) (now : Date) : M S ProductionCardEntity :=
  card <- getCardById id ;;
  if bool_decide (status card = ProductionCardStatus.COMPLETED)
  then rejected CancelCompleted (* 'No se puede cancelar una tarjeta completada' *)
  else
    updatedCard <- Repo.cancelCard id now ;;
    match updatedCard with
    | None => rejected CancelFailed
    | Some updatedCard => ret updatedCard
    end.

Definition startComponentProduction (cardId componentId' : string) (now : Date)
    : M S ProductionCardEntity :=
  card <- getCardById cardId ;;
  cs <- readArray (components card) ;;
  match findComponent componentId' cs with
  | None => rejected ComponentNotFound
  | Some component =>
      if ComponentProgress.isCompleted component
      then rejected ComponentAlreadyCompleted
      else
        updatedCard <- Repo.startComponentProduction cardId componentId' now ;;
        match updatedCard with
        | None => rejected StartComponentFailed
        | Some updatedCard => ret updatedCard
        end
  end.

Definition pauseComponentProduction (cardId componentId' : string) (now : Date)
    : M S ProductionCardEntity :=
  updatedCard <- Repo.pauseComponentProduction cardId componentId' now ;;
  match updatedCard with
  | None => rejected PauseComponentFailed
  | Some updatedCard => ret updatedCard
  end.

Definition resumeComponentProduction (cardId componentId' : string) (now : Date)
    : M S ProductionCardEntity :=
  updatedCard <- Repo.resumeComponentProduction cardId componentId' now ;;
  match updatedCard with
  | None => rejected ResumeComponentFailed
  | Some updatedCard => ret updatedCard
  end.

Definition getComponentProductionTime (cardId componentId' : string) (now : Date)
    : M S Z :=
  Repo.getComponentProductionTime cardId componentId' now.

Definition updateComponentMaterials (cardId componentId' : string)
    (materials : list MaterialUsage.t) (now : Date) : M S ProductionCardEntity :=
  updatedCard <- Repo.updateComponentMaterials cardId componentId' materials now ;;
  match updatedCard with
  | None => rejected UpdateMaterialsFailed
  | Some updatedCard => ret updatedCard
  end.

Definition addMaterialToComponent (cardId componentId' : string)
    (material : MaterialUsage.t) (now : Date) : M S ProductionCardEntity :=
  updatedCard <- Repo.addMaterialToComponent cardId componentId' material now ;;
  match updatedCard with
  | None => rejected AddMaterialFailed
  | Some updatedCard => ret updatedCard
  end.

Definition updateCardPriority (id : string) (priority' : ProductionCardPriority)
    (now : Date) : M S ProductionCardEntity :=
  existingCard <- Repo.findById id ;;
  match existingCard with
  | None => rejected EntityNotFound
  | Some existingCard =>
      if bool_decide (status existingCard = ProductionCardStatus.COMPLETED)
         || bool_decide (status existingCard = ProductionCardStatus.CANCELLED)
      then rejected PriorityTerminal
      else
        updatedCard <- Repo.update id
                         (ProductionCardUpdates.mk None None (Some priority') None None)
                         now ;;
        match updatedCard with
        | None => rejected PriorityFailed
        | Some updatedCard => ret updatedCard
        end
  end.

Definition getCardsByOrder (orderId' : string) : M S (list ProductionCardEntity) :=
  Repo.findByOrderId orderId'.

Definition deleteCard (id : string) : M S bool :=
  existingCard <- Repo.findById id ;;
  match existingCard with
  | None => rejected EntityNotFound (* 'Tarjeta de producción no encontrada' *)
  | Some _ => Repo.delete id
  end.

Definition deleteCardsByOrderId (orderId' : string) : M S bool :=
  cards' <- getCardsByOrder orderId' ;;
  forEach cards' (fun card => Repo.delete (id card) ;;; ret tt) ;;;
  ret true.

Definition getCardsByStatus (status' : ProductionCardStatus.t)
    : M S (list ProductionCardEntity) :=
  Repo.getCardsByStatus status'.

Definition getCardsByPriority (priority' : ProductionCardPriority)
    : M S (list ProductionCardEntity) :=
  Repo.getCardsByPriority priority'.

Definition getOverdueCards (now : Date) : M S (list ProductionCardEntity) :=
  Repo.getOverdueCards now.

Definition getActiveCards : M S (list ProductionCardEntity) :=
  Repo.getActiveCards.

Definition getCardsStats (regexMatch : string -> string -> bool) (now : Date)
    : M S CardsStats.t :=
  allCards <- Repo.findAll regexMatch ProductionCardFilters.empty now ;;
  overdueCards <- getOverdueCards now ;;
  let stats :=
    CardsStats.mk (Z.of_nat (length allCards)) (fun _ => 0) (fun _ => 0)
      (Z.of_nat (length overdueCards)) in
  ret (foldl
         (fun stats card =>
            CardsStats.mk
              (CardsStats.totalCards stats)
              (increment (status card) (CardsStats.byStatus stats))
              (increment (default NORMAL (priority card)) (CardsStats.byPriority stats))
              (CardsStats.overdue stats))
         stats allCards).

End UseCases.
End ProductionCardUseCases.

(** ** ManufacturingOrderUseCases *)

Module CreateManufacturingOrderRequest.
Record t := mk {
  modelId : string;
  quantity : Z;
  clientName : string;
  dueDate : Date;
  notes : option string;
  componentIds : list string   (* absent or empty: the components of the model *)
}.
End CreateManufacturingOrderRequest.

(** An element of the [materials] argument of [updateComponentMaterials]. *)
Module MaterialAdjustment.
Record t := mk {
  materialId : string;
  actualQuantity : Q;
  notes : option string;
  adjustedBy : option string
}.
End MaterialAdjustment.

Module CreateResult.
Record t := mk {
  order : ManufacturingOrderEntity;
  cards : list ProductionCardEntity
}.
End CreateResult.

(** What [deleteOrder] ends with: the answer of the repository, its own
    guard ('No se puede eliminar una orden en progreso'), or an error of an
    operation that it calls. *)
Inductive DeleteOrderOutcome :=
| Deleted (existed : bool)
| DeleteInProgress
| DeleteFailed (e : Error).

Module ManufacturingOrderUseCases.
Import ManufacturingOrder.
Module Repo := MongoManufacturingOrderRepository.
Section UseCases.
Context {S : Type} {inventoryRepository : IInventoryRepository S}.

Definition rejected {A} (why : Reason) : M S A := throw (Rejected AnOrder why).

(** [model.estimatedManufacturingTime || 1] *)
Definition estimatedTimeOrDefault (model : InventoryItem.t) : Q :=
  match InventoryItem.estimatedManufacturingTime model with
  | Some time => if Qeq_bool time 0 then 1%Q else time
  | None => 1%Q
  end.

(** The body of the two loops that resolve the components: an id that the
    inventory does not know is skipped. *)
Definition resolveComponent (components : Ref) (componentId : string) : M S unit :=
  component <- callInventory (findById componentId) ;;
  match component with
  | Some component =>
      pushArray components
        (ComponentProgress.mk
           (InventoryItem.id component)
           (InventoryItem.name component)
           (InventoryItem.sku component)
           1 0 false None None [] None)
  | None => ret tt
  end.

Definition createManufacturingOrder (request : CreateManufacturingOrderRequest.t)
    (now : Date) : M S CreateResult.t :=
  model <- callInventory (findById (CreateManufacturingOrderRequest.modelId request)) ;;
  match model with
  | None => rejected ModelNotFound (* 'Modelo no encontrado' *)
  | Some model =>
      if bool_decide (InventoryItem.canManufacture model = Some false)
      then rejected ModelNotManufacturable (* 'Este modelo no se puede fabricar' *)
      else if negb (bool_decide (InventoryItem.type model = MODEL))
      then rejected NotAModel
      else
        components <- allocArray [] ;;
        (match CreateManufacturingOrderRequest.componentIds request with
         | _ :: _ =>
             forEach (CreateManufacturingOrderRequest.componentIds request)
                     (resolveComponent components)
         | [] =>
             match InventoryItem.components model with
             | _ :: _ =>
                 forEach (InventoryItem.components model)
                         (resolveComponent components)
             | [] => ret tt
             end
         end) ;;;
        let orderData :=
          ManufacturingOrderData.mk
            (InventoryItem.id model)
            (InventoryItem.name model)
            (InventoryItem.sku model)
            (CreateManufacturingOrderRequest.quantity request)
            (trim (CreateManufacturingOrderRequest.clientName request))
            (CreateManufacturingOrderRequest.dueDate request)
            now
            PENDING
            components
            (trim <$> CreateManufacturingOrderRequest.notes request)
            (estimatedTimeOrDefault model
             * inject_Z (CreateManufacturingOrderRequest.quantity request))%Q in
        order <- Repo.create orderData now ;;
        cardRequests <-
          forCollect (seqZ 1 (CreateManufacturingOrderRequest.quantity request))
            (fun i =>
               clonedComponents <- jsonClone components ;;
               ret (CreateProductionCardRequest.mk
                      (id order)
                      (trim (CreateManufacturingOrderRequest.clientName request))
                      i
                      (CreateManufacturingOrderRequest.quantity request)
                      (InventoryItem.id model)
                      (InventoryItem.name model)
                      (InventoryItem.sku model)
                      (CreateManufacturingOrderRequest.dueDate request)
                      clonedComponents
                      (trim <$> CreateManufacturingOrderRequest.notes request)
                      (estimatedTimeOrDefault model)
                      None)) ;;
        productionCards <-
          ProductionCardUseCases.createMultipleProductionCards cardRequests now ;;
        ret (CreateResult.mk order productionCards)
  end.

(** 'Orden de fabricación no encontrada' *)
Definition getOrderById (id : string) : M S ManufacturingOrderEntity :=
  order <- Repo.findById id ;;
  match order with
  | None => rejected EntityNotFound
  | Some order => ret order
  end.

Definition updateOrder (id : string) (updates : UpdateManufacturingOrderRequest.t)
    (now : Date) : M S ManufacturingOrderEntity :=
  order <- getOrderById id ;;
  if bool_decide (status order = COMPLETED)
  then rejected UpdateCompleted (* 'No se puede actualizar una orden completada' *)
  else if bool_decide (status order = CANCELLED)
  then rejected UpdateCancelled (* 'No se puede actualizar una orden cancelada' *)
  else
    updatedOrder <- Repo.update id updates now ;;
    match updatedOrder with
    | None => rejected UpdateFailed
    | Some updatedOrder => ret updatedOrder
    end.

Definition startProduction (id : string) (now : Date) : M S ManufacturingOrderEntity :=
  order <- getOrderById id ;;
  if negb (bool_decide (status order = PENDING))
  then rejected StartNotPending (* 'Solo se pueden iniciar órdenes pendientes' *)
  else
    updatedOrder <- Repo.startProduction id now ;;
    match updatedOrder with
    | None => rejected StartFailed
    | Some updatedOrder => ret updatedOrder
    end.

Definition pauseProduction (id : string) (now : Date) : M S ManufacturingOrderEntity :=
  order <- getOrderById id ;;
  if negb (bool_decide (status order = IN_PROGRESS))
  then rejected PauseNotInProgress (* 'Solo se pueden pausar órdenes en progreso' *)
  else
    updatedOrder <- Repo.pauseProduction id now ;;
    match updatedOrder with
    | None => rejected PauseFailed
    | Some updatedOrder => ret updatedOrder
    end.

Definition resumeProduction (id : string) (now : Date) : M S ManufacturingOrderEntity :=
  order <- getOrderById id ;;
  if negb (bool_decide (status order = PAUSED))
  then rejected ResumeNotPaused (* 'Solo se pueden reanudar órdenes pausadas' *)
  else
    updatedOrder <- Repo.resumeProduction id now ;;
    match updatedOrder with
    | None => rejected ResumeFailed
    | Some updatedOrder => ret updatedOrder
    end.

Definition getCurrentProductionTime (id : string) (now : Date) : M S Z :=
  Repo.getCurrentProductionTime id now.

Definition completeComponent (orderId componentId' : string) (now : Date)
    : M S ManufacturingOrderEntity :=
  order <- getOrderById orderId ;;
  if negb (bool_decide (status order = IN_PROGRESS))
     && negb (bool_decide (status order = PAUSED))
  then rejected ComponentsNotActive
  else
    cs <- readArray (components order) ;;
    match findComponent componentId' cs with
    | None => rejected ComponentNotFound
    | Some component =>
        if ComponentProgress.isCompleted component
        then rejected ComponentAlreadyCompleted
        else
          updatedOrder <- Repo.completeComponent orderId componentId' now ;;
          match updatedOrder with
          | None => rejected CompleteComponentFailed
          | Some updatedOrder => ret updatedOrder
          end
    end.

Definition completeOrder (id : string) (now : Date) : M S ManufacturingOrderEntity :=
  order <- getOrderById id ;;
  if negb (bool_decide (status order = IN_PROGRESS))
     && negb (bool_decide (status order = PAUSED))
  then rejected CompleteNotActive
       (* 'Solo se pueden completar órdenes en progreso o pausadas' *)
  else
    cs <- readArray (components order) ;;
    let allComponentsComplete := forallb ComponentProgress.isCompleted cs in
    if negb allComponentsComplete
    then rejected ComponentsIncomplete
         (* 'No se puede completar la orden: faltan componentes por fabricar' *)
    else
      updatedOrder <- Repo.completeOrder id now ;;
      match updatedOrder with
      | None => rejected CompleteFailed
      | Some updatedOrder =>
          try_catch_log
            (currentModel <- callInventory (findById (modelId order)) ;;
             match currentModel with
             | Some currentModel =>
                 callInventory
                   (updateQuantity (modelId order)
                      (InventoryItem.quantity currentModel + quantity order) now) ;;;
                 ret tt
             | None => ret tt
             end) ;;;
          ret updatedOrder
      end.

Definition cancelOrder (id : string) (now : Date) : M S ManufacturingOrderEntity :=
  order <- getOrderById id ;;
  if bool_decide (status order = COMPLETED)
  then rejected CancelCompleted (* 'No se puede cancelar una orden completada' *)
  else if bool_decide (status order = CANCELLED)
  then rejected AlreadyCancelled (* 'Esta orden ya está cancelada' *)
  else
    updatedOrder <- Repo.cancelOrder id now ;;
    match updatedOrder with
    | None => rejected CancelFailed
    | Some updatedOrder => ret updatedOrder
    end.

Definition startComponentProduction (orderId componentId' : string) (now : Date)
    : M S ManufacturingOrderEntity :=
  order <- getOrderById orderId ;;
  if negb (bool_decide (status order = IN_PROGRESS))
     && negb (bool_decide (status order = PAUSED))
  then rejected StartComponentNotActive
  else
    cs <- readArray (components order) ;;
    match findComponent componentId' cs with
    | None => rejected ComponentNotFound
    | Some component =>
        if ComponentProgress.isCompleted component
        then rejected ComponentAlreadyCompleted
        else
          match ComponentProgress.timeTracker component with
          | Some tracker =>
              if negb (isPaused tracker)
              then rejected ComponentTimerActive
                   (* 'Este componente ya tiene un cronómetro activo' *)
              else
                updatedOrder <- Repo.startComponentProduction orderId componentId' now ;;
                match updatedOrder with
                | None => rejected StartComponentFailed
                | Some updatedOrder => ret updatedOrder
                end
          | None =>
              updatedOrder <- Repo.startComponentProduction orderId componentId' now ;;
              match updatedOrder with
              | None => rejected StartComponentFailed
              | Some updatedOrder => ret updatedOrder
              end
          end
    end.

Definition pauseComponentProduction (orderId componentId' : string) (now : Date)
    : M S ManufacturingOrderEntity :=
  order <- getOrderById orderId ;;
  cs <- readArray (components order) ;;
  match findComponent componentId' cs with
  | None => rejected ComponentOrTimerMissing
  | Some component =>
      match ComponentProgress.timeTracker component with
      | None => rejected ComponentOrTimerMissing
      | Some tracker =>
          if isPaused tracker
          then rejected ComponentTimerAlreadyPaused
          else
            updatedOrder <- Repo.pauseComponentProduction orderId componentId' now ;;
            match updatedOrder with
            | None => rejected PauseComponentFailed
            | Some updatedOrder => ret updatedOrder
            end
      end
  end.

Definition resumeComponentProduction (orderId componentId' : string) (now : Date)
    : M S ManufacturingOrderEntity :=
  order <- getOrderById orderId ;;
  cs <- readArray (components order) ;;
  match findComponent componentId' cs with
  | None => rejected ComponentOrTimerMissing
  | Some component =>
      match ComponentProgress.timeTracker component with
      | None => rejected ComponentOrTimerMissing
      | Some tracker =>
          if negb (isPaused tracker)
          then rejected ComponentTimerNotPaused
          else
            updatedOrder <- Repo.resumeComponentProduction orderId componentId' now ;;
            match updatedOrder with
            | None => rejected ResumeComponentFailed
            | Some updatedOrder => ret updatedOrder
            end
      end
  end.

Definition getComponentProductionTime (orderId componentId' : string) (now : Date)
    : M S Z :=
  Repo.getComponentProductionTime orderId componentId' now.

(** The body of the loop of [updateComponentMaterials]: the usage entry of
    one adjustment, or nothing when the inventory does not know the
    material. *)
Definition adjustedUsage (component : ComponentProgress.t)
    (materialData : MaterialAdjustment.t) (now : Date)
    : M S (list MaterialUsage.t) :=
  material <- callInventory (findById (MaterialAdjustment.materialId materialData)) ;;
  match material with
  | Some material =>
      let existingMaterial :=
        List.find (fun m => bool_decide (MaterialUsage.materialId m
                                         = MaterialAdjustment.materialId materialData))
                  (ComponentProgress.materialUsage component) in
      let plannedQuantity :=
        match existingMaterial with
        | Some m => if Qeq_bool (MaterialUsage.plannedQuantity m) 0 then 1%Q
                    else MaterialUsage.plannedQuantity m
        | None => 1%Q
        end in
      ret [MaterialUsage.mk
             (InventoryItem.id material)
             (InventoryItem.name material)
             (InventoryItem.sku material)
             plannedQuantity
             (MaterialAdjustment.actualQuantity materialData)
             (if bool_decide (InventoryItem.unit material = "") then "unidad"
              else InventoryItem.unit material)
             (MaterialAdjustment.notes materialData)
             (MaterialAdjustment.adjustedBy materialData)
             (Some now)]
  | None => ret []
  end.

Definition updateComponentMaterials (orderId componentId' : string)
    (materials : list MaterialAdjustment.t) (now : Date)
    : M S ManufacturingOrderEntity :=
  order <- getOrderById orderId ;;
  if negb (bool_decide (status order = IN_PROGRESS))
     && negb (bool_decide (status order = PAUSED))
  then rejected MaterialsNotActive
       (* 'Solo se pueden ajustar materiales en órdenes en progreso o pausadas' *)
  else
    cs <- readArray (components order) ;;
    match findComponent componentId' cs with
    | None => rejected ComponentNotFound
    | Some component =>
        if ComponentProgress.isCompleted component
        then rejected MaterialsComponentCompleted
        else
          materialUsage <-
            forCollect materials (fun m => adjustedUsage component m now) ;;
          updatedOrder <-
            Repo.updateComponentMaterials orderId componentId'
              (concat materialUsage) now ;;
          match updatedOrder with
          | None => rejected UpdateMaterialsFailed
          | Some updatedOrder => ret updatedOrder
          end
    end.

Definition addMaterialToComponent (orderId componentId' materialId : string)
    (plannedQuantity : Q) (actualQuantity : option Q) (now : Date)
    : M S ManufacturingOrderEntity :=
  order <- getOrderById orderId ;;
  cs <- readArray (components order) ;;
  match findComponent componentId' cs with
  | None => rejected ComponentNotFound (* 'Componente no encontrado en esta orden' *)
  | Some _ =>
      material <- callInventory (findById materialId) ;;
      match material with
      | None => rejected MaterialNotFound (* 'Material no encontrado en inventario' *)
      | Some material =>
          let newMaterial :=
            MaterialUsage.mk
              (InventoryItem.id material)
              (InventoryItem.name material)
              (InventoryItem.sku material)
              plannedQuantity
              (default 0%Q actualQuantity)
              (if bool_decide (InventoryItem.unit material = "") then "unidad"
               else InventoryItem.unit material)
              None None None in
          updatedOrder <- Repo.addMaterialToComponent orderId componentId' newMaterial now ;;
          match updatedOrder with
          | None => rejected AddMaterialFailed
          | Some updatedOrder => ret updatedOrder
          end
      end
  end.

Definition deleteOrder (id : string) : World S -> DeleteOrderOutcome * World S :=
  fun w =>
    match getOrderById id w with
    | (Throw e, w1) => (DeleteFailed e, w1)
    | (Ok order, w1) =>
        if bool_decide (status order = IN_PROGRESS)
        then (DeleteInProgress, w1)
        else
          match (ProductionCardUseCases.deleteCardsByOrderId id ;;; Repo.delete id) w1 with
          | (Throw e, w2) => (DeleteFailed e, w2)
          | (Ok deleted, w2) => (Deleted deleted, w2)
          end
    end.

Definition getActiveOrders : M S (list ManufacturingOrderEntity) :=
  Repo.getActiveOrders.

Definition getOrdersByStatus (status' : ManufacturingOrderStatus)
    : M S (list ManufacturingOrderEntity) :=
  Repo.getOrdersByStatus status'.

Definition getOverdueOrders (now : Date) : M S (list ManufacturingOrderEntity) :=
  Repo.getOverdueOrders now.

(** [activeOrders.sort((a, b) => a.dueDate.getTime() - b.dueDate.getTime())] *)
Definition getProductionQueue : M S (list ManufacturingOrderEntity) :=
  activeOrders <- getActiveOrders ;;
  ret (sort (fun a b => dueDate a - dueDate b) activeOrders).

End UseCases.
End ManufacturingOrderUseCases.

(** ** The domain classes (domain/entities)

    [ManufacturingOrderEntity] and [ProductionCardEntity] implement the
    interfaces of the orders and cards with methods of their own.  An object
    of a class is the record with its components by value; a method that
    assigns to [this] returns the new state of the object, a method that
    throws returns the message of its [Error].  The [new Date()] of one call
    are one instant, [now]. *)

Inductive Thrown (A : Type) :=
| Returns (a : A)
| Throws (message : string)
| ThrowsTypeError.        (* a property is read on [undefined] *)
Global Arguments Returns {A}.
Global Arguments Throws {A}.
Global Arguments ThrowsTypeError {A}.

(** [Math.ceil(x)] *)
Definition Math_ceil (x : Q) : Z := Qceiling x.

(** class ManufacturingOrderEntity *)
Module ManufacturingOrderEntityClass.
Import ManufacturingOrder.

Definition isOverdue (this : ManufacturingOrderDocument) (now : Date) : bool :=
  (dueDate this <? now) && negb (bool_decide (status this = COMPLETED)).

Definition canStart (this : ManufacturingOrderDocument) : bool :=
  bool_decide (status this = PENDING).

Definition canComplete (this : ManufacturingOrderDocument) : bool :=
  bool_decide (status this = IN_PROGRESS)
  && forallb ComponentProgress.isCompleted (components this).

Definition getProgress (this : ManufacturingOrderDocument) : Z :=
  if bool_decide (length (components this) = 0%nat) then 0
  else
    let completedComponents :=
      length (filter (fun c => ComponentProgress.isCompleted c = true)
                     (components this)) in
    Math_round (inject_Z (Z.of_nat completedComponents)
                / inject_Z (Z.of_nat (length (components this))) * 100).

Definition getRemainingTime (this : ManufacturingOrderDocument) (now : Date) : Z :=
  if bool_decide (status this = COMPLETED) then 0
  else
    let remaining := dueDate this - now in
    Z.max 0 (Math_ceil (inject_Z remaining / inject_Z (1000 * 60 * 60))).

Definition startProduction (this : ManufacturingOrderDocument) (now : Date)
    : Thrown ManufacturingOrderDocument :=
  if negb (canStart this) then Throws "Cannot start production for this order"
  else Returns (started now this).

Definition pauseProduction (this : ManufacturingOrderDocument) (now : Date)
    : Thrown ManufacturingOrderDocument :=
  match timeTracker this with
  | None => Throws "Cannot pause production for this order"
  | Some tracker =>
      if negb (bool_decide (status this = IN_PROGRESS))
      then Throws "Cannot pause production for this order"
      else if isPaused tracker then Throws "Production is already paused"
      else Returns (with_status_tracker PAUSED (Some (tt_set_paused now tracker)) now this)
  end.

Definition resumeProduction (this : ManufacturingOrderDocument) (now : Date)
    : Thrown ManufacturingOrderDocument :=
  match timeTracker this with
  | None => Throws "Cannot resume production for this order"
  | Some tracker =>
      if negb (bool_decide (status this = PAUSED))
      then Throws "Cannot resume production for this order"
      else
        match isPaused tracker, pauseStartTime tracker with
        | true, Some pauseStart =>
            let pauseTime := now - pauseStart in
            Returns (with_status_tracker IN_PROGRESS
                       (Some (tt_set_resumed
                                (totalPauseMinutes tracker + round_minutes pauseTime)
                                tracker))
                       now this)
        | _, _ => Throws "Production is not paused"
        end
  end.

Definition getCurrentProductionTime (this : ManufacturingOrderDocument) (now : Date)
    : Thrown Z :=
  match timeTracker this with
  | None => Returns 0
  | Some tracker =>
      match startTime tracker with
      | None => ThrowsTypeError
      | Some start =>
          let totalTime := now - start in
          let totalTime :=
            match isPaused tracker, pauseStartTime tracker with
            | true, Some pauseStart =>
                let currentPauseTime := now - pauseStart in
                totalTime - currentPauseTime
            | _, _ => totalTime
            end in
          let totalTime := totalTime - totalPauseMinutes tracker * 60 * 1000 in
          Returns (Z.max 0 (round_minutes totalTime))
      end
  end.

(** The component found is modified in place, only when it is not yet
    completed. *)
Definition completeComponent (this : ManufacturingOrderDocument)
    (componentId' : string) (now : Date) : Thrown ManufacturingOrderDocument :=
  match findComponent componentId' (components this) with
  | None => Throws "Component not found in this order"
  | Some component =>
      if negb (ComponentProgress.isCompleted component)
      then
        match updateFirst componentId'
                (fun c => ComponentProgress.set_completed now
                            (ComponentProgress.quantityRequired c) c)
                (components this) with
        | Some cs => Returns (with_components_at cs now this)
        | None => Returns this
        end
      else Returns this
  end.

Definition completeOrder (this : ManufacturingOrderDocument) (now : Date)
    : Thrown ManufacturingOrderDocument :=
  if negb (canComplete this)
  then Throws "Cannot complete order: not all components are finished"
  else Returns (completed now this).

Definition cancelOrder (this : ManufacturingOrderDocument) (now : Date)
    : Thrown ManufacturingOrderDocument :=
  if bool_decide (status this = COMPLETED)
  then Throws "Cannot cancel a completed order"
  else Returns (cancelled now this).

Definition updateStatus (this : ManufacturingOrderDocument) (now : Date)
    : ManufacturingOrderDocument :=
  if isOverdue this now && negb (bool_decide (status this = COMPLETED))
  then with_status_tracker OVERDUE (timeTracker this) now this
  else this.

End ManufacturingOrderEntityClass.

(** class ProductionCardEntity *)
Module ProductionCardEntityClass.
Import ProductionCard.

Definition isOverdue (this : ProductionCardDocument) (now : Date) : bool :=
  (dueDate this <? now)
  && negb (bool_decide (status this = ProductionCardStatus.COMPLETED)).

Definition canStart (this : ProductionCardDocument) : bool :=
  bool_decide (status this = ProductionCardStatus.PENDING).

Definition canComplete (this : ProductionCardDocument) : bool :=
  bool_decide (status this = ProductionCardStatus.IN_PROGRESS)
  && forallb ComponentProgress.isCompleted (components this).

Definition getProgress (this : ProductionCardDocument) : Z :=
  if bool_decide (length (components this) = 0%nat) then 0
  else
    let completedComponents :=
      length (filter (fun c => ComponentProgress.isCompleted c = true)
                     (components this)) in
    Math_round (inject_Z (Z.of_nat completedComponents)
                / inject_Z (Z.of_nat (length (components this))) * 100).

End ProductionCardEntityClass.

(** ** The virtuals of the order schema (ManufacturingOrderModel.ts) *)
Module ManufacturingOrderModel.
Import ManufacturingOrder.

Definition isOverdue (this : ManufacturingOrderDocument) (now : Date) : bool :=
  (dueDate this <? now) && negb (bool_decide (status this = COMPLETED)).


Definition remainingHours (this : ManufacturingOrderDocument) (now : Date) : Z :=
  if bool_decide (status this = COMPLETED) then 0
  else
    let remaining := dueDate this - now in
    Z.max 0 (Math_ceil (inject_Z remaining / inject_Z (1000 * 60 * 60))).

End ManufacturingOrderModel.

(** ** The presentation of times and priorities

    [formatMinutes] of the order controller, and the helpers of the
    production queue page of the client (pages/ProductionQueue.tsx).  A
    number of minutes is an integer; [`${n}`] is its decimal notation. *)

Module ManufacturingOrderController.

Definition formatMinutes (minutes : Z) : string :=
  let hours := minutes `div` 60 in
  let remainingMinutes := minutes `rem` 60 in
  if 0 <? hours
  then pretty hours +:+ "h " +:+ pretty remainingMinutes +:+ "m"
  else pretty remainingMinutes +:+ "m".

End ManufacturingOrderController.

Module ProductionQueue.
Import ProductionCard.

Definition formatTime (minutes : Z) : string :=
  if minutes <? 60 then pretty minutes +:+ "m"
  else
    let hours := minutes `div` 60 in
    let remainingMinutes := minutes `rem` 60 in
    pretty hours +:+ "h " +:+ pretty remainingMinutes +:+ "m".

Definition canCompleteCard (card : ProductionCardDocument) : bool :=
  (bool_decide (status card = ProductionCardStatus.IN_PROGRESS)
   || bool_decide (status card = ProductionCardStatus.PAUSED))
  && forallb ComponentProgress.isCompleted (components card).

(** The priority shown for a card, from its due date alone; the string
    given is taken as the date that [new Date] reads in it. *)
Definition calculateAutoPriority (dueDate' : Date) (now : Date) : ProductionCardPriority :=
  let diffDays := Math_ceil (inject_Z (dueDate' - now) / inject_Z (1000 * 3600 * 24)) in
  if diffDays <? 0 then URGENT
  else if diffDays <=? 3 then URGENT
  else if diffDays <=? 7 then HIGH
  else if diffDays <=? 14 then NORMAL
  else LOW.

End ProductionQueue.

(** * Specification

    The definitions below state the properties; they follow the words of
    the specification, not the code. *)

(** ** Looking up trackers *)

Definition orderTracker {S} (w : World S) (id : string) : option TimeTracker :=
  match orders w !! id with
  | Some doc => ManufacturingOrder.timeTracker doc
  | None => None
  end.

Definition cardTracker {S} (w : World S) (id : string) : option TimeTracker :=
  match cards w !! id with
  | Some doc => ProductionCard.timeTracker doc
  | None => None
  end.

Definition componentTracker (cs : list ComponentProgress.t) (componentId : string)
    : option TimeTracker :=
  match findComponent componentId cs with
  | Some c => ComponentProgress.timeTracker c
  | None => None
  end.

Definition orderComponentTracker {S} (w : World S) (id componentId : string)
    : option TimeTracker :=
  match orders w !! id with
  | Some doc => componentTracker (ManufacturingOrder.components doc) componentId
  | None => None
  end.

Definition cardComponentTracker {S} (w : World S) (id componentId : string)
    : option TimeTracker :=
  match cards w !! id with
  | Some doc => componentTracker (ProductionCard.components doc) componentId
  | None => None
  end.

(** ** Elapsed time (specification, section 4.3)

    The time since the start, less the accumulated pauses, less the current
    pause when the tracker is paused; in whole minutes, never negative. *)
Definition elapsedMinutes (t : TimeTracker) (start now : Date) : Z :=
  Z.max 0
    (round_minutes
       ((now - start) - totalPauseMinutes t * 60000
        - (match isPaused t, pauseStartTime t with
           | true, Some pauseStart => now - pauseStart
           | _, _ => 0
           end))).

(** ** States and outcomes *)

(** The three collections are what they were. *)
Definition sameDatabase {S} (w w' : World S) : Prop :=
  inventory w' = inventory w /\ orders w' = orders w /\ cards w' = cards w.

(** Only the inventory may differ. *)
Definition inventoryOnly {S} (w w' : World S) : Prop :=
  orders w' = orders w /\ cards w' = cards w /\ heap w' = heap w.

Definition activeOrder (s : ManufacturingOrderStatus) : Prop :=
  s = IN_PROGRESS \/ s = PAUSED.

Definition activeCard (s : ProductionCardStatus.t) : Prop :=
  s = ProductionCardStatus.IN_PROGRESS \/ s = ProductionCardStatus.PAUSED.

Definition allComponentsCompleted (cs : list ComponentProgress.t) : Prop :=
  Forall (fun c => ComponentProgress.isCompleted c = true) cs.

Definition isOk {A} (o : Outcome A) : bool :=
  match o with
  | Ok _ => true
  | Throw _ => false
  end.

Definition resultOf {A} (o : Outcome A) : option A :=
  match o with
  | Ok a => Some a
  | Throw _ => None
  end.

Definition terminalOrder (s : ManufacturingOrderStatus) : Prop :=
  s = COMPLETED \/ s = CANCELLED.

Definition terminalCard (s : ProductionCardStatus.t) : Prop :=
  s = ProductionCardStatus.COMPLETED \/ s = ProductionCardStatus.CANCELLED.

(** The call is rejected by the use case and the database is left as it
    was. *)
Definition rejectedUnchanged {S A} (who : Entity) (run : M S A) (w : World S) : Prop :=
  exists why w', run w = (Throw (Rejected who why), w')
                 /\ reason_kind why = InvalidState
                 /\ sameDatabase w w'.

(** ** Stock *)

(** The stock update of the two completions, as written in their [try]
    blocks: the stock of [modelId] raised by [count]. *)
Definition stockIncrement {S} {inventoryRepository : IInventoryRepository S}
    (modelId : string) (count : Z) (now : Date) : M S unit :=
  currentModel <- callInventory (findById modelId) ;;
  match currentModel with
  | Some currentModel =>
      callInventory
        (updateQuantity modelId (InventoryItem.quantity currentModel + count) now) ;;;
      ret tt
  | None => ret tt
  end.

(** What the Mongo inventory holds after a stock update: the quantity raised
    by [count], unless the item is missing or the validator rejects the new
    quantity. *)
Definition stockAfter (items : gmap string InventoryItem.t) (modelId : string)
    (count : Z) (now : Date) : gmap string InventoryItem.t :=
  match items !! modelId with
  | Some model =>
      if InventoryItem.quantity model + count <? 0 then items
      else <[modelId := InventoryItem.set_quantity
                          (InventoryItem.quantity model + count) now model]> items
  | None => items
  end.

(** ** Pause and resume cycles

    A sequence of cycles, each given by the time of the pause and the time
    of the resume. *)
Fixpoint orderPauseResume {S} (id : string) (cycles : list (Date * Date)) : M S unit :=
  match cycles with
  | [] => ret tt
  | (pausedAt, resumedAt) :: rest =>
      ManufacturingOrderUseCases.pauseProduction id pausedAt ;;;
      ManufacturingOrderUseCases.resumeProduction id resumedAt ;;;
      orderPauseResume id rest
  end.

Fixpoint cardPauseResume {S} (id : string) (cycles : list (Date * Date)) : M S unit :=
  match cycles with
  | [] => ret tt
  | (pausedAt, resumedAt) :: rest =>
      ProductionCardUseCases.pauseProduction id pausedAt ;;;
      ProductionCardUseCases.resumeProduction id resumedAt ;;;
      cardPauseResume id rest
  end.

(** The minutes that the cycles add up to, each interval rounded on its
    own, and their exact duration in milliseconds. *)
Fixpoint pausedMinutes (cycles : list (Date * Date)) : Z :=
  match cycles with
  | [] => 0
  | (pausedAt, resumedAt) :: rest =>
      round_minutes (resumedAt - pausedAt) + pausedMinutes rest
  end.

Fixpoint pausedMilliseconds (cycles : list (Date * Date)) : Z :=
  match cycles with
  | [] => 0
  | (pausedAt, resumedAt) :: rest => (resumedAt - pausedAt) + pausedMilliseconds rest
  end.

(** ** The listing order of the cards (specification, section 4.2)

    Urgent, high, normal, low, a card without priority ranking as normal;
    then the due date, soonest first. *)
Definition listingRank (p : option ProductionCardPriority) : nat :=
  match default NORMAL p with
  | URGENT => 0
  | HIGH => 1
  | NORMAL => 2
  | LOW => 3
  end.

Definition listedBefore {C} (a b : ProductionCard.t C) : Prop :=
  (listingRank (ProductionCard.priority a) < listingRank (ProductionCard.priority b))%nat
  \/ (listingRank (ProductionCard.priority a) = listingRank (ProductionCard.priority b)
      /\ ProductionCard.dueDate a <= ProductionCard.dueDate b).

(** The entity [e] is the document [d], its components apart. *)
Definition entityOf (e : ProductionCardEntity) (d : ProductionCardDocument) : Prop :=
  ProductionCard.with_components (ProductionCard.components d) e = d.

(** ** Creation *)

(** A component as an order is created with: nothing done, no timer, no
    material. *)
Definition unstarted (c : ComponentProgress.t) : Prop :=
  ComponentProgress.quantityRequired c = 1
  /\ ComponentProgress.quantityCompleted c = 0
  /\ ComponentProgress.isCompleted c = false
  /\ ComponentProgress.timeTracker c = None
  /\ ComponentProgress.materialUsage c = [].

(** The fields of a card that come from its request. *)
Definition cardOfRequest (request : CreateProductionCardRequest.t)
    (e : ProductionCardEntity) : Prop :=
  ProductionCard.orderId e = CreateProductionCardRequest.orderId request
  /\ ProductionCard.cardNumber e = CreateProductionCardRequest.cardNumber request
  /\ ProductionCard.totalCards e = CreateProductionCardRequest.totalCards request
  /\ ProductionCard.estimatedHours e = CreateProductionCardRequest.estimatedHours request
  /\ ProductionCard.status e = ProductionCardStatus.PENDING
  /\ ProductionCard.quantity e = 1.

(** ** A workshop used in the examples

    Two models (one with a stock of -7 and an estimated time of 0 hours),
    two components and a material; five orders and five cards in the various
    states. *)

Definition exampleItem (id name : string) (type : InventoryType) (quantity : Z)
    (time : option Q) (components : list string) : InventoryItem.t :=
  InventoryItem.mk id name type (String.app "SKU-" id) quantity "unidad" time
    components (Some true) 0.

Definition exampleInventory : gmap string InventoryItem.t :=
  <["m1" := exampleItem "m1" "Torso" MODEL 10 (Some (2 # 1)) ["c1"; "c2"]]>
  (<["m0" := exampleItem "m0" "Brazo" MODEL (-7) (Some 0%Q) ["c1"]]>
  (<["c1" := exampleItem "c1" "Piel" COMPONENT 0 None []]>
  (<["c2" := exampleItem "c2" "Valvula" COMPONENT 0 None []]>
  (<["x1" := exampleItem "x1" "Silicona" MATERIAL 40 None []]> ∅)))).

(** Started at time 0, running, two minutes of pauses so far. *)
Definition runningTracker : TimeTracker :=
  {| startTime := Some 0; endTime := None; totalTimeMinutes := 0;
     isPaused := false; pauseStartTime := None; totalPauseMinutes := 2 |}.

(** Started at time 0, paused since minute 2, one minute of pauses before. *)
Definition pausedTracker : TimeTracker :=
  {| startTime := Some 0; endTime := None; totalTimeMinutes := 0;
     isPaused := true; pauseStartTime := Some 120000; totalPauseMinutes := 1 |}.

Definition exampleComponent (id : string) (completed : bool)
    (tracker : option TimeTracker) : ComponentProgress.t :=
  ComponentProgress.mk id (String.app "Pieza " id) (String.app "SKU-" id) 1
    (if completed then 1 else 0) completed
    (if completed then Some 50 else None) tracker [] None.

Definition exampleOrder (id modelId : string) (quantity : Z)
    (status : ManufacturingOrderStatus) (components : list ComponentProgress.t)
    (tracker : option TimeTracker) : ManufacturingOrderDocument :=
  ManufacturingOrder.mk id modelId "Torso" "SKU-M1" quantity "ACME" 900000 0 status
    components None (2 * inject_Z quantity)%Q None None tracker 0 0.

Definition exampleCard (id orderId modelId : string) (cardNumber dueDate : Z)
    (status : ProductionCardStatus.t) (priority : option ProductionCardPriority)
    (components : list ComponentProgress.t) (tracker : option TimeTracker)
    : ProductionCardDocument :=
  ProductionCard.mk id orderId "ACME" cardNumber 2 modelId "Torso" "SKU-M1" 1 dueDate
    status priority components None (2 # 1) None None tracker 0 0.

Definition allDone : list ComponentProgress.t :=
  [exampleComponent "c1" true (Some runningTracker); exampleComponent "c2" true None].

Definition oneLeft : list ComponentProgress.t :=
  [exampleComponent "c1" true None; exampleComponent "c2" false (Some runningTracker)].

Definition exampleOrders : gmap string ManufacturingOrderDocument :=
  <["o1" := exampleOrder "o1" "m1" 5 IN_PROGRESS allDone (Some runningTracker)]>
  (<["o2" := exampleOrder "o2" "m1" 2 PAUSED oneLeft (Some pausedTracker)]>
  (<["o3" := exampleOrder "o3" "m1" 1 COMPLETED allDone (Some runningTracker)]>
  (<["o4" := exampleOrder "o4" "m0" 3 IN_PROGRESS allDone (Some runningTracker)]>
  (<["o5" := exampleOrder "o5" "zz" 1 CANCELLED oneLeft None]> ∅)))).

Definition exampleCards : gmap string ProductionCardDocument :=
  <["k1" := exampleCard "k1" "o1" "m1" 1 500000 ProductionCardStatus.IN_PROGRESS
              (Some LOW) allDone (Some runningTracker)]>
  (<["k2" := exampleCard "k2" "o1" "m1" 2 300000 ProductionCardStatus.PAUSED
              None oneLeft (Some pausedTracker)]>
  (<["k3" := exampleCard "k3" "o2" "m1" 1 700000 ProductionCardStatus.CANCELLED
              (Some URGENT) oneLeft None]>
  (<["k4" := exampleCard "k4" "o2" "zz" 2 100000 ProductionCardStatus.IN_PROGRESS
              (Some NORMAL) allDone (Some runningTracker)]>
  (<["k5" := exampleCard "k5" "o3" "zz" 1 200000 ProductionCardStatus.COMPLETED
              (Some URGENT) allDone (Some runningTracker)]> ∅)))).

Definition exampleWorld : World (gmap string InventoryItem.t) :=
  mkWorld exampleInventory exampleOrders exampleCards ∅.

(** A database on which no pattern matches. *)
Definition noRegex (pattern text : string) : bool := false.

Definition exampleRequest : CreateManufacturingOrderRequest.t :=
  CreateManufacturingOrderRequest.mk "m1" 3 " Hospital Norte " 900000 None [].


Definition examplePauses : list (Date * Date) :=
  [(60000, 180000); (200000, 200000); (300000, 389000)].

(** ** Further properties: statements *)

(** The four elapsed-time queries return [m] at time [now], for every order,
    card and component whose tracker is [tracker]. *)
Definition queriesReturn {S} (w : World S) (tracker : TimeTracker) (now : Date) (m : Z)
    : Prop :=
  (forall id, orderTracker w id = Some tracker ->
     ManufacturingOrderUseCases.getCurrentProductionTime id now w = (Ok m, w))
  /\ (forall id, cardTracker w id = Some tracker ->
     ProductionCardUseCases.getCurrentProductionTime id now w = (Ok m, w))
  /\ (forall id componentId, orderComponentTracker w id componentId = Some tracker ->
     ManufacturingOrderUseCases.getComponentProductionTime id componentId now w = (Ok m, w))
  /\ (forall id componentId, cardComponentTracker w id componentId = Some tracker ->
     ProductionCardUseCases.getComponentProductionTime id componentId now w = (Ok m, w)).

(** A second workshop: the first one with a pending order "o6" and its two
    pending cards "k6" and "k7". *)
Definition notStarted : list ComponentProgress.t :=
  [exampleComponent "c1" false None; exampleComponent "c2" false None].

Definition pendingWorld : World (gmap string InventoryItem.t) :=
  mkWorld exampleInventory
    (<["o6" := exampleOrder "o6" "m1" 2 PENDING notStarted None]> exampleOrders)
    (<["k6" := exampleCard "k6" "o6" "m1" 1 800000 ProductionCardStatus.PENDING
                 (Some NORMAL) notStarted None]>
     (<["k7" := exampleCard "k7" "o6" "m1" 2 800000 ProductionCardStatus.PENDING
                  (Some HIGH) notStarted None]> exampleCards))
    ∅.


(** The computation leaves the cards (the orders) as they are, whatever it
    returns or throws. *)
Definition keepsCards {S A} (m : M S A) : Prop :=
  forall w, cards (snd (m w)) = cards w.

Definition keepsOrders {S A} (m : M S A) : Prop :=
  forall w, orders (snd (m w)) = orders w.

(** No two stored cards have the same order and the same number. *)
Definition uniqueCardNumbers (stored : gmap string ProductionCardDocument) : Prop :=
  forall k1 k2 d1 d2,
    stored !! k1 = Some d1 -> stored !! k2 = Some d2 ->
    ProductionCard.orderId d1 = ProductionCard.orderId d2 ->
    ProductionCard.cardNumber d1 = ProductionCard.cardNumber d2 ->
    k1 = k2.

(** The entry that the creation of an order makes for an item of the
    inventory used as a component, and the identifiers that it resolves: those
    of the request or, when it gives none, those of the model. *)
Definition componentOf (item : InventoryItem.t) : ComponentProgress.t :=
  ComponentProgress.mk (InventoryItem.id item) (InventoryItem.name item)
    (InventoryItem.sku item) 1 0 false None None [] None.

Definition requestedComponents (request : CreateManufacturingOrderRequest.t)
    (model : InventoryItem.t) : list string :=
  match CreateManufacturingOrderRequest.componentIds request with
  | [] => InventoryItem.components model
  | ids => ids
  end.

Definition resolvedComponents (items : gmap string InventoryItem.t) (ids : list string)
    : list ComponentProgress.t :=
  omap (fun id => componentOf <$> items !! id) ids.

(** The entity [e] is the order document [d], its components apart. *)
Definition orderEntityOf (e : ManufacturingOrderEntity) (d : ManufacturingOrderDocument)
    : Prop :=
  ManufacturingOrder.with_components (ManufacturingOrder.components d) e = d.

(** The filters with another status asked for. *)
Definition withStatus (status : option ProductionCardStatus.t)
    (filters : ProductionCardFilters.t) : ProductionCardFilters.t :=
  ProductionCardFilters.mk status
    (ProductionCardFilters.priority filters)
    (ProductionCardFilters.orderId filters)
    (ProductionCardFilters.modelId filters)
    (ProductionCardFilters.overdue filters)
    (ProductionCardFilters.startDate filters)
    (ProductionCardFilters.endDate filters)
    (ProductionCardFilters.search filters).

(** An order in the production queue: pending, in progress or paused. *)
Definition queuedOrder (s : ManufacturingOrderStatus) : Prop :=
  s = PENDING \/ s = IN_PROGRESS \/ s = PAUSED.

(** Every card is stored under its own identifier, as MongoDB stores it. *)
Definition wellKeyed (stored : gmap string ProductionCardDocument) : Prop :=
  forall k d, stored !! k = Some d -> ProductionCard.id d = k.

(** Every stored card is a card of a stored order. *)
Definition cardsBelongToOrders {S} (w : World S) : Prop :=
  forall k card, cards w !! k = Some card ->
    is_Some (orders w !! ProductionCard.orderId card).



(** One hour and one day, in milliseconds. *)
Definition hour : Z := 1000 * 60 * 60.
Definition day : Z := 1000 * 3600 * 24.

(** The call lists the orders (the cards) that satisfy [P], by ascending due
    date, and leaves the collections as they were. *)
Definition listsOrders {S} (run : M S (list ManufacturingOrderEntity))
    (P : ManufacturingOrderDocument -> Prop) `{forall doc, Decision (P doc)}
    (w : World S) : Prop :=
  exists listed docs w',
    run w = (Ok listed, w')
    /\ Forall2 orderEntityOf listed docs
    /\ StronglySorted
         (fun a b => ManufacturingOrder.dueDate a <= ManufacturingOrder.dueDate b) listed
    /\ docs ≡ₚ filter P (snd <$> map_to_list (orders w))
    /\ sameDatabase w w'.

Definition listsCards {S} (run : M S (list ProductionCardEntity))
    (P : ProductionCardDocument -> Prop) `{forall doc, Decision (P doc)}
    (w : World S) : Prop :=
  exists listed docs w',
    run w = (Ok listed, w')
    /\ Forall2 entityOf listed docs
    /\ StronglySorted
         (fun a b => ProductionCard.dueDate a <= ProductionCard.dueDate b) listed
    /\ docs ≡ₚ filter P (snd <$> map_to_list (cards w))
    /\ sameDatabase w w'.

(** * Proofs *)

Lemma round_minutes_div t : round_minutes t = (t + 30000) `div` 60000.
Proof.
  unfold round_minutes, Math_round.
  transitivity (Qfloor (((t + 30000) * 2) # 120000)).
  - apply Qfloor_comp. unfold Qeq, Qdiv, Qinv, Qmult, Qplus, inject_Z. simpl. lia.
  - unfold Qfloor. change (Z.pos 120000) with (60000 * 2).
    by rewrite Z.div_mul_cancel_r by lia.
Qed.

Lemma round_minutes_nearest t :
  60000 * round_minutes t - 30000 <= t < 60000 * round_minutes t + 30000.
Proof.
  rewrite round_minutes_div.
  pose proof (Z.div_mod (t + 30000) 60000 ltac:(lia)).
  pose proof (Z.mod_pos_bound (t + 30000) 60000 ltac:(lia)).
  lia.
Qed.

Lemma round_minutes_unique t n :
  60000 * n - 30000 <= t < 60000 * n + 30000 -> round_minutes t = n.
Proof.
  intros H. rewrite round_minutes_div.
  symmetry. apply (Z.div_unique (t + 30000) 60000 n (t + 30000 - 60000 * n)); lia.
Qed.

Lemma elapsed_code_spec t start now :
  Z.max 0 (round_minutes
    ((match isPaused t, pauseStartTime t with
      | true, Some pauseStart => now - start - (now - pauseStart)
      | _, _ => now - start
      end) - totalPauseMinutes t * 60 * 1000)) = elapsedMinutes t start now.
Proof.
  unfold elapsedMinutes. f_equal. f_equal.
  destruct (isPaused t), (pauseStartTime t); lia.
Qed.

(** C5: for a tracker started at [start] and a query at [now >= start], the
    elapsed-time query of an order, of a card and of a component of either
    returns [max(0, round(((now - start) - totalPauseMinutes * 60000
    - (now - pauseStartTime if paused, else 0)) / 60000))]: never negative,
    and the same value at the three levels. *)
Theorem elapsed_time_formula {S} (w : World S) (tracker : TimeTracker) (start now : Date) :
  startTime tracker = Some start ->
  start <= now ->
  (forall id, orderTracker w id = Some tracker ->
     ManufacturingOrderUseCases.getCurrentProductionTime id now w
     = (Ok (elapsedMinutes tracker start now), w))
  /\ (forall id, cardTracker w id = Some tracker ->
     ProductionCardUseCases.getCurrentProductionTime id now w
     = (Ok (elapsedMinutes tracker start now), w))
  /\ (forall id componentId, orderComponentTracker w id componentId = Some tracker ->
     ManufacturingOrderUseCases.getComponentProductionTime id componentId now w
     = (Ok (elapsedMinutes tracker start now), w))
  /\ (forall id componentId, cardComponentTracker w id componentId = Some tracker ->
     ProductionCardUseCases.getComponentProductionTime id componentId now w
     = (Ok (elapsedMinutes tracker start now), w))
  /\ 0 <= elapsedMinutes tracker start now.
Proof.
  intros Hstart _. repeat split.
  - intros id. unfold orderTracker,
      ManufacturingOrderUseCases.getCurrentProductionTime,
      MongoManufacturingOrderRepository.getCurrentProductionTime,
      MongoManufacturingOrderRepository.findDocument, bind, ret.
    destruct (orders w !! id) as [doc|]; [|discriminate].
    intros ->. rewrite Hstart. by rewrite elapsed_code_spec.
  - intros id. unfold cardTracker,
      ProductionCardUseCases.getCurrentProductionTime,
      MongoProductionCardRepository.getCurrentProductionTime,
      MongoProductionCardRepository.findDocument, bind, ret.
    destruct (cards w !! id) as [doc|]; [|discriminate].
    intros ->. rewrite Hstart. by rewrite elapsed_code_spec.
  - intros id cid. unfold orderComponentTracker, componentTracker,
      ManufacturingOrderUseCases.getComponentProductionTime,
      MongoManufacturingOrderRepository.getComponentProductionTime,
      MongoManufacturingOrderRepository.findDocument, bind, ret.
    destruct (orders w !! id) as [doc|]; [|discriminate].
    destruct (findComponent cid _) as [c|]; [|discriminate].
    intros ->. rewrite Hstart. by rewrite elapsed_code_spec.
  - intros id cid. unfold cardComponentTracker, componentTracker,
      ProductionCardUseCases.getComponentProductionTime,
      MongoProductionCardRepository.getComponentProductionTime,
      MongoProductionCardRepository.findDocument, bind, ret.
    destruct (cards w !! id) as [doc|]; [|discriminate].
    destruct (findComponent cid _) as [c|]; [|discriminate].
    intros ->. rewrite Hstart. by rewrite elapsed_code_spec.
  - unfold elapsedMinutes. lia.
Qed.

Lemma allComponentsCompleted_forallb cs :
  forallb ComponentProgress.isCompleted cs = true <-> allComponentsCompleted cs.
Proof.
  unfold allComponentsCompleted. rewrite forallb_forall, Forall_forall.
  split; intros H x Hx; apply H; by apply list_elem_of_In.
Qed.

Section Exec.
Context {S : Type}.
Implicit Type w : World S.

Lemma run_bind_Ok {A B} (m : M S A) (k : A -> M S B) w a w1 :
  m w = (Ok a, w1) -> bind m k w = k a w1.
Proof. intros H. unfold bind. by rewrite H. Qed.

Lemma run_bind_Throw {A B} (m : M S A) (k : A -> M S B) w e w1 :
  m w = (Throw e, w1) -> bind m k w = (Throw e, w1).
Proof. intros H. unfold bind. by rewrite H. Qed.

Lemma bind_Ok_inv {A B} (m : M S A) (k : A -> M S B) w b w' :
  bind m k w = (Ok b, w') ->
  exists a w1, m w = (Ok a, w1) /\ k a w1 = (Ok b, w').
Proof.
  unfold bind. destruct (m w) as [[a|e] w1]; [eauto | discriminate].
Qed.

Lemma readArray_lookup w r cs :
  heap w !! r = Some cs -> readArray r w = (Ok cs, w).
Proof. intros H. unfold readArray. by rewrite H. Qed.

Lemma readArray_allocated w r cs :
  readArray r (set_heap (<[r := cs]> (heap w)) w)
  = (Ok cs, set_heap (<[r := cs]> (heap w)) w).
Proof. apply readArray_lookup. simpl. apply lookup_insert_eq. Qed.

Lemma inventoryOnly_refl w : inventoryOnly w w.
Proof. done. Qed.

Lemma inventoryOnly_trans w1 w2 w3 :
  inventoryOnly w1 w2 -> inventoryOnly w2 w3 -> inventoryOnly w1 w3.
Proof. unfold inventoryOnly. intros (?&?&?) (?&?&?). repeat split; congruence. Qed.

Lemma callInventory_frame {A} (f : S -> Outcome A * S) w r w' :
  callInventory f w = (r, w') -> inventoryOnly w w'.
Proof.
  unfold callInventory. destruct (f (inventory w)) as [r' s'].
  intros [= <- <-]. done.
Qed.

Lemma try_catch_log_Ok (body : M S unit) w :
  try_catch_log body w = (Ok tt, snd (body w)).
Proof. unfold try_catch_log. by destruct (body w) as [[[]|?] ?]. Qed.

End Exec.

Section StockSync.
Context {S : Type} {inventoryRepository : IInventoryRepository S}.
Implicit Type w : World S.

Lemma stockIncrement_frame modelId count now w :
  inventoryOnly w (snd (stockIncrement modelId count now w)).
Proof.
  unfold stockIncrement, bind.
  destruct (callInventory (findById modelId) w) as [[[m|]|e] w1] eqn:H1;
    apply callInventory_frame in H1; simpl; try done.
  destruct (callInventory _ w1) as [[?|?] w2] eqn:H2;
    apply callInventory_frame in H2; simpl;
    by eapply inventoryOnly_trans.
Qed.

Lemma getOrderById_found w id doc :
  orders w !! id = Some doc ->
  ManufacturingOrderUseCases.getOrderById id w
  = (Ok (ManufacturingOrder.with_components (fresh (dom (heap w))) doc),
     set_heap (<[fresh (dom (heap w)) := ManufacturingOrder.components doc]> (heap w)) w).
Proof.
  intros H. unfold ManufacturingOrderUseCases.getOrderById,
    MongoManufacturingOrderRepository.findById,
    MongoManufacturingOrderRepository.findDocument,
    MongoManufacturingOrderRepository.mapToEntityOrNull,
    MongoManufacturingOrderRepository.mapToEntity, allocArray, bind, ret.
  by rewrite H.
Qed.

Lemma getCardById_found w id doc :
  cards w !! id = Some doc ->
  ProductionCardUseCases.getCardById id w
  = (Ok (ProductionCard.with_components (fresh (dom (heap w))) doc),
     set_heap (<[fresh (dom (heap w)) := ProductionCard.components doc]> (heap w)) w).
Proof.
  intros H. unfold ProductionCardUseCases.getCardById,
    MongoProductionCardRepository.findById,
    MongoProductionCardRepository.findDocument,
    MongoProductionCardRepository.mapToEntityOrNull,
    MongoProductionCardRepository.mapToEntity, allocArray, bind, ret.
  by rewrite H.
Qed.

Lemma activeOrder_guard s :
  activeOrder s ->
  negb (bool_decide (s = IN_PROGRESS)) && negb (bool_decide (s = PAUSED)) = false.
Proof. by intros [-> | ->]. Qed.

Lemma activeCard_guard s :
  activeCard s ->
  negb (bool_decide (s = ProductionCardStatus.IN_PROGRESS))
  && negb (bool_decide (s = ProductionCardStatus.PAUSED)) = false.
Proof. by intros [-> | ->]. Qed.

Lemma completeOrder_incomplete w id doc now :
  orders w !! id = Some doc ->
  activeOrder (ManufacturingOrder.status doc) ->
  ~ allComponentsCompleted (ManufacturingOrder.components doc) ->
  exists w', ManufacturingOrderUseCases.completeOrder id now w
             = (Throw (Rejected AnOrder ComponentsIncomplete), w')
             /\ sameDatabase w w'.
Proof.
  intros Hdoc Hst Hinc.
  rewrite <- allComponentsCompleted_forallb in Hinc.
  apply not_true_is_false in Hinc.
  unfold ManufacturingOrderUseCases.completeOrder.
  rewrite (run_bind_Ok _ _ _ _ _ (getOrderById_found _ _ _ Hdoc)).
  simpl. rewrite (activeOrder_guard _ Hst).
  rewrite (run_bind_Ok _ _ _ _ _ (readArray_allocated _ _ _)).
  rewrite Hinc. simpl.
  eexists; split; [reflexivity | done].
Qed.

(** The world after a successful [completeOrder]: the order is stored as
    completed, the stock update has run, and the two arrays of the entities
    read and returned are allocated. *)
Lemma completeOrder_complete w id doc now :
  orders w !! id = Some doc ->
  activeOrder (ManufacturingOrder.status doc) ->
  allComponentsCompleted (ManufacturingOrder.components doc) ->
  exists e w1 w',
    ManufacturingOrderUseCases.completeOrder id now w = (Ok e, w')
    /\ w' = snd (stockIncrement (ManufacturingOrder.modelId doc)
                   (ManufacturingOrder.quantity doc) now w1)
    /\ ManufacturingOrder.status e = COMPLETED
    /\ ManufacturingOrder.completedAt e = Some now
    /\ orders w1 = <[id := ManufacturingOrder.completed now doc]> (orders w)
    /\ cards w1 = cards w
    /\ inventory w1 = inventory w.
Proof.
  intros Hdoc Hst Hall.
  rewrite <- allComponentsCompleted_forallb in Hall.
  unfold ManufacturingOrderUseCases.completeOrder.
  rewrite (run_bind_Ok _ _ _ _ _ (getOrderById_found _ _ _ Hdoc)).
  simpl. rewrite (activeOrder_guard _ Hst).
  rewrite (run_bind_Ok _ _ _ _ _ (readArray_allocated _ _ _)).
  rewrite Hall. simpl.
  unfold bind at 1.
  unfold MongoManufacturingOrderRepository.completeOrder,
    MongoManufacturingOrderRepository.findByIdAndUpdate,
    MongoManufacturingOrderRepository.mapToEntityOrNull,
    MongoManufacturingOrderRepository.mapToEntity, allocArray, bind at 1, ret.
  simpl. rewrite Hdoc. simpl.
  unfold bind at 1.
  change (bind (callInventory (findById (ManufacturingOrder.modelId doc))) _)
    with (stockIncrement (ManufacturingOrder.modelId doc)
            (ManufacturingOrder.quantity doc) now).
  rewrite try_catch_log_Ok.
  eexists _, _, _. split; [reflexivity|]. split; [reflexivity|]. done.
Qed.

Lemma completeCard_incomplete w id doc now :
  cards w !! id = Some doc ->
  activeCard (ProductionCard.status doc) ->
  ~ allComponentsCompleted (ProductionCard.components doc) ->
  exists w', ProductionCardUseCases.completeCard id now w
             = (Throw (Rejected ACard ComponentsIncomplete), w')
             /\ sameDatabase w w'.
Proof.
  intros Hdoc Hst Hinc.
  rewrite <- allComponentsCompleted_forallb in Hinc.
  apply not_true_is_false in Hinc.
  unfold ProductionCardUseCases.completeCard.
  rewrite (run_bind_Ok _ _ _ _ _ (getCardById_found _ _ _ Hdoc)).
  simpl. rewrite (activeCard_guard _ Hst).
  rewrite (run_bind_Ok _ _ _ _ _ (readArray_allocated _ _ _)).
  rewrite Hinc. simpl.
  eexists; split; [reflexivity | done].
Qed.

Lemma completeCard_complete w id doc now :
  cards w !! id = Some doc ->
  activeCard (ProductionCard.status doc) ->
  allComponentsCompleted (ProductionCard.components doc) ->
  exists e w1 w',
    ProductionCardUseCases.completeCard id now w = (Ok e, w')
    /\ w' = snd (stockIncrement (ProductionCard.modelId doc) 1 now w1)
    /\ ProductionCard.status e = ProductionCardStatus.COMPLETED
    /\ ProductionCard.completedAt e = Some now
    /\ cards w1 = <[id := ProductionCard.completed now doc]> (cards w)
    /\ orders w1 = orders w
    /\ inventory w1 = inventory w.
Proof.
  intros Hdoc Hst Hall.
  rewrite <- allComponentsCompleted_forallb in Hall.
  unfold ProductionCardUseCases.completeCard.
  rewrite (run_bind_Ok _ _ _ _ _ (getCardById_found _ _ _ Hdoc)).
  simpl. rewrite (activeCard_guard _ Hst).
  rewrite (run_bind_Ok _ _ _ _ _ (readArray_allocated _ _ _)).
  rewrite Hall. simpl.
  unfold bind at 1.
  unfold MongoProductionCardRepository.completeCard,
    MongoProductionCardRepository.findByIdAndUpdate,
    MongoProductionCardRepository.mapToEntityOrNull,
    MongoProductionCardRepository.mapToEntity, allocArray, bind at 1, ret.
  simpl. rewrite Hdoc. simpl.
  unfold bind at 1.
  change (bind (callInventory (findById (ProductionCard.modelId doc))) _)
    with (stockIncrement (ProductionCard.modelId doc) 1 now).
  rewrite try_catch_log_Ok.
  eexists _, _, _. split; [reflexivity|]. split; [reflexivity|]. done.
Qed.

(** C3: an order (a card) that is in progress or paused is completed by
    [completeOrder] ([completeCard]) if and only if every one of its
    components is completed; with a component left, the call is rejected with
    the invalid-state error "faltan componentes por fabricar" and the
    inventory, the orders and the cards are what they were. *)
Theorem complete_iff_all_components_completed
    (w : World S) (now : Date) (id : string) :
  (forall order : ManufacturingOrderDocument,
      orders w !! id = Some order ->
      activeOrder (ManufacturingOrder.status order) ->
      ((exists e w', ManufacturingOrderUseCases.completeOrder id now w = (Ok e, w'))
       <-> allComponentsCompleted (ManufacturingOrder.components order))
      /\ (forall e w',
            ManufacturingOrderUseCases.completeOrder id now w = (Ok e, w') ->
            ManufacturingOrder.status e = COMPLETED)
      /\ (~ allComponentsCompleted (ManufacturingOrder.components order) ->
          exists w', ManufacturingOrderUseCases.completeOrder id now w
                     = (Throw (Rejected AnOrder ComponentsIncomplete), w')
                     /\ error_kind (Rejected AnOrder ComponentsIncomplete) = InvalidState
                     /\ sameDatabase w w'))
  /\ (forall card : ProductionCardDocument,
      cards w !! id = Some card ->
      activeCard (ProductionCard.status card) ->
      ((exists e w', ProductionCardUseCases.completeCard id now w = (Ok e, w'))
       <-> allComponentsCompleted (ProductionCard.components card))
      /\ (forall e w',
            ProductionCardUseCases.completeCard id now w = (Ok e, w') ->
            ProductionCard.status e = ProductionCardStatus.COMPLETED)
      /\ (~ allComponentsCompleted (ProductionCard.components card) ->
          exists w', ProductionCardUseCases.completeCard id now w
                     = (Throw (Rejected ACard ComponentsIncomplete), w')
                     /\ error_kind (Rejected ACard ComponentsIncomplete) = InvalidState
                     /\ sameDatabase w w')).
Proof.
  split.
  - intros order Ho Hso.
    assert (Hdec : Decision (allComponentsCompleted (ManufacturingOrder.components order)))
      by (unfold allComponentsCompleted; apply _).
    split; [split|split].
    + intros (e & w' & Hrun). destruct Hdec as [|Hn]; [done|].
      destruct (completeOrder_incomplete w id order now Ho Hso Hn) as (w'' & Hthrow & _).
      congruence.
    + intros Hall.
      destruct (completeOrder_complete w id order now Ho Hso Hall)
        as (e & w1 & w' & Hrun & _).
      eauto.
    + intros e w' Hrun. destruct Hdec as [Hall|Hn].
      * destruct (completeOrder_complete w id order now Ho Hso Hall)
          as (e0 & w1 & w0 & Hrun0 & _ & Hst & _).
        congruence.
      * destruct (completeOrder_incomplete w id order now Ho Hso Hn) as (w'' & Hthrow & _).
        congruence.
    + intros Hn.
      destruct (completeOrder_incomplete w id order now Ho Hso Hn) as (w' & Hthrow & Hdb).
      eauto.
  - intros card Hc Hsc.
    assert (Hdec : Decision (allComponentsCompleted (ProductionCard.components card)))
      by (unfold allComponentsCompleted; apply _).
    split; [split|split].
    + intros (e & w' & Hrun). destruct Hdec as [|Hn]; [done|].
      destruct (completeCard_incomplete w id card now Hc Hsc Hn) as (w'' & Hthrow & _).
      congruence.
    + intros Hall.
      destruct (completeCard_complete w id card now Hc Hsc Hall)
        as (e & w1 & w' & Hrun & _).
      eauto.
    + intros e w' Hrun. destruct Hdec as [Hall|Hn].
      * destruct (completeCard_complete w id card now Hc Hsc Hall)
          as (e0 & w1 & w0 & Hrun0 & _ & Hst & _).
        congruence.
      * destruct (completeCard_incomplete w id card now Hc Hsc Hn) as (w'' & Hthrow & _).
        congruence.
    + intros Hn.
      destruct (completeCard_incomplete w id card now Hc Hsc Hn) as (w' & Hthrow & Hdb).
      eauto.
Qed.

Lemma completeOrder_swallows w id doc now :
  orders w !! id = Some doc ->
  activeOrder (ManufacturingOrder.status doc) ->
  allComponentsCompleted (ManufacturingOrder.components doc) ->
  exists e w',
    ManufacturingOrderUseCases.completeOrder id now w = (Ok e, w')
    /\ ManufacturingOrder.status e = COMPLETED
    /\ orders w' !! id = Some (ManufacturingOrder.completed now doc).
Proof.
  intros Hdoc Hst Hall.
  destruct (completeOrder_complete w id doc now Hdoc Hst Hall)
    as (e & w1 & w' & Hrun & -> & He & _ & Ho & _).
  exists e, (snd (stockIncrement (ManufacturingOrder.modelId doc)
                    (ManufacturingOrder.quantity doc) now w1)).
  split; [done|]. split; [done|].
  destruct (stockIncrement_frame (ManufacturingOrder.modelId doc)
              (ManufacturingOrder.quantity doc) now w1) as (-> & _).
  rewrite Ho. apply lookup_insert_eq.
Qed.

Lemma completeCard_swallows w id doc now :
  cards w !! id = Some doc ->
  activeCard (ProductionCard.status doc) ->
  allComponentsCompleted (ProductionCard.components doc) ->
  exists e w',
    ProductionCardUseCases.completeCard id now w = (Ok e, w')
    /\ ProductionCard.status e = ProductionCardStatus.COMPLETED
    /\ cards w' !! id = Some (ProductionCard.completed now doc).
Proof.
  intros Hdoc Hst Hall.
  destruct (completeCard_complete w id doc now Hdoc Hst Hall)
    as (e & w1 & w' & Hrun & -> & He & _ & Hc & _).
  exists e, (snd (stockIncrement (ProductionCard.modelId doc) 1 now w1)).
  split; [done|]. split; [done|].
  destruct (stockIncrement_frame (ProductionCard.modelId doc) 1 now w1) as (_ & -> & _).
  rewrite Hc. apply lookup_insert_eq.
Qed.

End StockSync.

Section MongoStock.

Lemma mongo_stockIncrement modelId count now (w : World (gmap string InventoryItem.t)) :
  inventory (snd (stockIncrement modelId count now w))
  = stockAfter (inventory w) modelId count now.
Proof.
  unfold stockIncrement, stockAfter, bind, callInventory. simpl.
  destruct (inventory w !! modelId) as [model|] eqn:Hm; simpl; [|done].
  destruct (InventoryItem.quantity model + count <? 0); simpl; [done|].
  by rewrite Hm.
Qed.

(** C4: completing an order succeeds whatever the inventory repository
    does, and so does completing a card: the completion is stored even when
    the stock update throws.  With the Mongo inventory, the stock of the model
    is raised by the quantity of the order, and by 1 for a card, whatever
    the quantity of its order; when the update is rejected or the model is
    missing, the inventory is unchanged and the completion stands. *)
Theorem completion_increments_stock :
  (forall (S : Type) (inventoryRepository : IInventoryRepository S)
          (w : World S) (now : Date) (id : string) (order : ManufacturingOrderDocument),
      orders w !! id = Some order ->
      activeOrder (ManufacturingOrder.status order) ->
      allComponentsCompleted (ManufacturingOrder.components order) ->
      exists e w',
        ManufacturingOrderUseCases.completeOrder id now w = (Ok e, w')
        /\ ManufacturingOrder.status e = COMPLETED
        /\ orders w' !! id = Some (ManufacturingOrder.completed now order))
  /\ (forall (S : Type) (inventoryRepository : IInventoryRepository S)
          (w : World S) (now : Date) (id : string) (card : ProductionCardDocument),
      cards w !! id = Some card ->
      activeCard (ProductionCard.status card) ->
      allComponentsCompleted (ProductionCard.components card) ->
      exists e w',
        ProductionCardUseCases.completeCard id now w = (Ok e, w')
        /\ ProductionCard.status e = ProductionCardStatus.COMPLETED
        /\ cards w' !! id = Some (ProductionCard.completed now card))
  /\ (forall (w : World (gmap string InventoryItem.t)) (now : Date) (id : string)
             (order : ManufacturingOrderDocument),
      orders w !! id = Some order ->
      activeOrder (ManufacturingOrder.status order) ->
      allComponentsCompleted (ManufacturingOrder.components order) ->
      exists e w',
        ManufacturingOrderUseCases.completeOrder id now w = (Ok e, w')
        /\ (forall model,
              inventory w !! ManufacturingOrder.modelId order = Some model ->
              0 <= InventoryItem.quantity model + ManufacturingOrder.quantity order ->
              InventoryItem.quantity
                <$> inventory w' !! ManufacturingOrder.modelId order
              = Some (InventoryItem.quantity model + ManufacturingOrder.quantity order))
        /\ (forall model,
              inventory w !! ManufacturingOrder.modelId order = Some model ->
              InventoryItem.quantity model + ManufacturingOrder.quantity order < 0 ->
              inventory w' = inventory w)
        /\ (inventory w !! ManufacturingOrder.modelId order = None ->
            inventory w' = inventory w))
  /\ (forall (w : World (gmap string InventoryItem.t)) (now : Date) (id : string)
             (card : ProductionCardDocument),
      cards w !! id = Some card ->
      activeCard (ProductionCard.status card) ->
      allComponentsCompleted (ProductionCard.components card) ->
      exists e w',
        ProductionCardUseCases.completeCard id now w = (Ok e, w')
        /\ (forall model,
              inventory w !! ProductionCard.modelId card = Some model ->
              0 <= InventoryItem.quantity model + 1 ->
              InventoryItem.quantity
                <$> inventory w' !! ProductionCard.modelId card
              = Some (InventoryItem.quantity model + 1))
        /\ (forall model,
              inventory w !! ProductionCard.modelId card = Some model ->
              InventoryItem.quantity model + 1 < 0 ->
              inventory w' = inventory w)
        /\ (inventory w !! ProductionCard.modelId card = None ->
            inventory w' = inventory w)).
Proof.
  split; [|split; [|split]].
  - intros S inv w now id order Ho Hso Hao. by apply completeOrder_swallows.
  - intros S inv w now id card Hc Hsc Hac. by apply completeCard_swallows.
  - intros w now id order Ho Hso Hao.
    destruct (completeOrder_complete w id order now Ho Hso Hao)
      as (e & w1 & w' & Hrun & -> & _ & _ & _ & _ & Hinv).
    exists e, (snd (stockIncrement (ManufacturingOrder.modelId order)
                      (ManufacturingOrder.quantity order) now w1)).
    split; [done|]. rewrite mongo_stockIncrement, Hinv. unfold stockAfter.
    repeat split.
    + intros model -> Hq. destruct (Z.ltb_spec (InventoryItem.quantity model
                                       + ManufacturingOrder.quantity order) 0); [lia|].
      by rewrite lookup_insert_eq.
    + intros model -> Hq. destruct (Z.ltb_spec (InventoryItem.quantity model
                                       + ManufacturingOrder.quantity order) 0); [done|lia].
    + by intros ->.
  - intros w now id card Hc Hsc Hac.
    destruct (completeCard_complete w id card now Hc Hsc Hac)
      as (e & w1 & w' & Hrun & -> & _ & _ & _ & _ & Hinv).
    exists e, (snd (stockIncrement (ProductionCard.modelId card) 1 now w1)).
    split; [done|]. rewrite mongo_stockIncrement, Hinv. unfold stockAfter.
    repeat split.
    + intros model -> Hq.
      destruct (Z.ltb_spec (InventoryItem.quantity model + 1) 0); [lia|].
      by rewrite lookup_insert_eq.
    + intros model -> Hq.
      destruct (Z.ltb_spec (InventoryItem.quantity model + 1) 0); [done|lia].
    + by intros ->.
Qed.
End MongoStock.

Section CycleProofs.
Context {S : Type}.
Implicit Type w : World S.

Lemma order_pauseProduction_run w id doc now :
  orders w !! id = Some doc ->
  ManufacturingOrder.status doc = IN_PROGRESS ->
  exists e w',
    ManufacturingOrderUseCases.pauseProduction id now w = (Ok e, w')
    /\ orders w' = <[id := ManufacturingOrder.with_status_tracker PAUSED
                            (set_tracker_paused now (ManufacturingOrder.timeTracker doc))
                            now doc]> (orders w)
    /\ cards w' = cards w /\ inventory w' = inventory w.
Proof.
  intros Hdoc Hst.
  unfold ManufacturingOrderUseCases.pauseProduction.
  rewrite (run_bind_Ok _ _ _ _ _ (getOrderById_found _ _ _ Hdoc)).
  simpl. rewrite Hst. simpl.
  unfold MongoManufacturingOrderRepository.pauseProduction,
    MongoManufacturingOrderRepository.findByIdAndUpdate,
    MongoManufacturingOrderRepository.mapToEntityOrNull,
    MongoManufacturingOrderRepository.mapToEntity, allocArray, bind, ret.
  simpl. rewrite Hdoc. simpl.
  eexists _, _. split; [reflexivity|]. done.
Qed.

Lemma order_resumeProduction_run w id doc tracker pausedAt now :
  orders w !! id = Some doc ->
  ManufacturingOrder.status doc = PAUSED ->
  ManufacturingOrder.timeTracker doc = Some tracker ->
  pauseStartTime tracker = Some pausedAt ->
  let tracker' :=
    tt_set_resumed (totalPauseMinutes tracker + round_minutes (now - pausedAt)) tracker in
  exists e w',
    ManufacturingOrderUseCases.resumeProduction id now w = (Ok e, w')
    /\ ManufacturingOrder.timeTracker e = Some tracker'
    /\ ManufacturingOrder.status e = IN_PROGRESS
    /\ orders w' = <[id := ManufacturingOrder.with_status_tracker IN_PROGRESS
                            (Some tracker') now doc]> (orders w)
    /\ cards w' = cards w /\ inventory w' = inventory w.
Proof.
  intros Hdoc Hst Htr Hps tracker'.
  unfold ManufacturingOrderUseCases.resumeProduction.
  rewrite (run_bind_Ok _ _ _ _ _ (getOrderById_found _ _ _ Hdoc)).
  simpl. rewrite Hst. simpl.
  unfold MongoManufacturingOrderRepository.resumeProduction,
    MongoManufacturingOrderRepository.findDocument,
    MongoManufacturingOrderRepository.findByIdAndUpdate,
    MongoManufacturingOrderRepository.mapToEntityOrNull,
    MongoManufacturingOrderRepository.mapToEntity, allocArray, bind, ret.
  simpl. rewrite Hdoc. simpl. rewrite Htr, Hps. simpl. rewrite Hdoc. simpl.
  rewrite Htr. simpl.
  eexists _, _. split; [reflexivity|]. done.
Qed.

Lemma card_pauseProduction_run w id doc now :
  cards w !! id = Some doc ->
  ProductionCard.status doc = ProductionCardStatus.IN_PROGRESS ->
  exists e w',
    ProductionCardUseCases.pauseProduction id now w = (Ok e, w')
    /\ cards w' = <[id := ProductionCard.with_status_tracker ProductionCardStatus.PAUSED
                            (set_tracker_paused now (ProductionCard.timeTracker doc))
                            now doc]> (cards w)
    /\ orders w' = orders w /\ inventory w' = inventory w.
Proof.
  intros Hdoc Hst.
  unfold ProductionCardUseCases.pauseProduction.
  rewrite (run_bind_Ok _ _ _ _ _ (getCardById_found _ _ _ Hdoc)).
  simpl. rewrite Hst. simpl.
  unfold MongoProductionCardRepository.pauseProduction,
    MongoProductionCardRepository.findByIdAndUpdate,
    MongoProductionCardRepository.mapToEntityOrNull,
    MongoProductionCardRepository.mapToEntity, allocArray, bind, ret.
  simpl. rewrite Hdoc. simpl.
  eexists _, _. split; [reflexivity|]. done.
Qed.

Lemma card_resumeProduction_run w id doc tracker pausedAt now :
  cards w !! id = Some doc ->
  ProductionCard.status doc = ProductionCardStatus.PAUSED ->
  ProductionCard.timeTracker doc = Some tracker ->
  pauseStartTime tracker = Some pausedAt ->
  let tracker' :=
    tt_set_resumed (totalPauseMinutes tracker + round_minutes (now - pausedAt)) tracker in
  exists e w',
    ProductionCardUseCases.resumeProduction id now w = (Ok e, w')
    /\ ProductionCard.timeTracker e = Some tracker'
    /\ ProductionCard.status e = ProductionCardStatus.IN_PROGRESS
    /\ cards w' = <[id := ProductionCard.with_status_tracker ProductionCardStatus.IN_PROGRESS
                            (Some tracker') now doc]> (cards w)
    /\ orders w' = orders w /\ inventory w' = inventory w.
Proof.
  intros Hdoc Hst Htr Hps tracker'.
  unfold ProductionCardUseCases.resumeProduction.
  rewrite (run_bind_Ok _ _ _ _ _ (getCardById_found _ _ _ Hdoc)).
  simpl. rewrite Hst. simpl.
  unfold MongoProductionCardRepository.resumeProduction,
    MongoProductionCardRepository.findDocument,
    MongoProductionCardRepository.findByIdAndUpdate,
    MongoProductionCardRepository.mapToEntityOrNull,
    MongoProductionCardRepository.mapToEntity, allocArray, bind, ret.
  simpl. rewrite Hdoc. simpl. rewrite Htr, Hps. simpl. rewrite Hdoc. simpl.
  rewrite Htr. simpl.
  eexists _, _. split; [reflexivity|]. done.
Qed.

Lemma orderPauseResume_total cycles : forall w id doc tracker,
  orders w !! id = Some doc ->
  ManufacturingOrder.status doc = IN_PROGRESS ->
  ManufacturingOrder.timeTracker doc = Some tracker ->
  exists w' tracker',
    orderPauseResume id cycles w = (Ok tt, w')
    /\ orderTracker w' id = Some tracker'
    /\ totalPauseMinutes tracker' = totalPauseMinutes tracker + pausedMinutes cycles
    /\ startTime tracker' = startTime tracker.
Proof.
  induction cycles as [|[pausedAt resumedAt] rest IH]; intros w id doc tracker Hdoc Hst Htr.
  - exists w, tracker. simpl. unfold ret, orderTracker. rewrite Hdoc.
    repeat split; [done | lia].
  - simpl.
    destruct (order_pauseProduction_run w id doc pausedAt Hdoc Hst)
      as (e1 & w1 & Hrun1 & Ho1 & _).
    rewrite (run_bind_Ok _ _ _ _ _ Hrun1).
    assert (Hdoc1 : orders w1 !! id = Some (ManufacturingOrder.with_status_tracker PAUSED
                      (set_tracker_paused pausedAt (ManufacturingOrder.timeTracker doc))
                      pausedAt doc))
      by (rewrite Ho1; apply lookup_insert_eq).
    rewrite Htr in Hdoc1. simpl in Hdoc1.
    destruct (order_resumeProduction_run w1 id _ (tt_set_paused pausedAt tracker)
                pausedAt resumedAt Hdoc1 eq_refl eq_refl eq_refl)
      as (e2 & w2 & Hrun2 & _ & _ & Ho2 & _).
    rewrite (run_bind_Ok _ _ _ _ _ Hrun2).
    match type of Ho2 with _ = <[_ := ?d]> _ =>
      assert (Hdoc2 : orders w2 !! id = Some d) by (rewrite Ho2; apply lookup_insert_eq)
    end.
    destruct (IH w2 id _ _ Hdoc2 eq_refl eq_refl) as (w' & tracker' & Hrun & Hlook & Htot & Hstart).
    exists w', tracker'. repeat split; [done | done | | done].
    rewrite Htot. simpl. lia.
Qed.

Lemma cardPauseResume_total cycles : forall w id doc tracker,
  cards w !! id = Some doc ->
  ProductionCard.status doc = ProductionCardStatus.IN_PROGRESS ->
  ProductionCard.timeTracker doc = Some tracker ->
  exists w' tracker',
    cardPauseResume id cycles w = (Ok tt, w')
    /\ cardTracker w' id = Some tracker'
    /\ totalPauseMinutes tracker' = totalPauseMinutes tracker + pausedMinutes cycles
    /\ startTime tracker' = startTime tracker.
Proof.
  induction cycles as [|[pausedAt resumedAt] rest IH]; intros w id doc tracker Hdoc Hst Htr.
  - exists w, tracker. simpl. unfold ret, cardTracker. rewrite Hdoc.
    repeat split; [done | lia].
  - simpl.
    destruct (card_pauseProduction_run w id doc pausedAt Hdoc Hst)
      as (e1 & w1 & Hrun1 & Ho1 & _).
    rewrite (run_bind_Ok _ _ _ _ _ Hrun1).
    assert (Hdoc1 : cards w1 !! id = Some (ProductionCard.with_status_tracker
                      ProductionCardStatus.PAUSED
                      (set_tracker_paused pausedAt (ProductionCard.timeTracker doc))
                      pausedAt doc))
      by (rewrite Ho1; apply lookup_insert_eq).
    rewrite Htr in Hdoc1. simpl in Hdoc1.
    destruct (card_resumeProduction_run w1 id _ (tt_set_paused pausedAt tracker)
                pausedAt resumedAt Hdoc1 eq_refl eq_refl eq_refl)
      as (e2 & w2 & Hrun2 & _ & _ & Ho2 & _).
    rewrite (run_bind_Ok _ _ _ _ _ Hrun2).
    match type of Ho2 with _ = <[_ := ?d]> _ =>
      assert (Hdoc2 : cards w2 !! id = Some d) by (rewrite Ho2; apply lookup_insert_eq)
    end.
    destruct (IH w2 id _ _ Hdoc2 eq_refl eq_refl) as (w' & tracker' & Hrun & Hlook & Htot & Hstart).
    exists w', tracker'. repeat split; [done | done | | done].
    rewrite Htot. simpl. lia.
Qed.

Lemma pausedMinutes_accuracy cycles :
  Z.abs (60000 * pausedMinutes cycles - pausedMilliseconds cycles)
  <= 30000 * Z.of_nat (length cycles).
Proof.
  induction cycles as [|[p r] rest IH]; simpl length; simpl pausedMinutes;
    simpl pausedMilliseconds; [lia|].
  pose proof (round_minutes_div (r - p)) as Hr.
  pose proof (Z.div_mod (r - p + 30000) 60000 ltac:(lia)).
  pose proof (Z.mod_pos_bound (r - p + 30000) 60000 ltac:(lia)).
  lia.
Qed.

End CycleProofs.

(** C6: resuming a paused order or card whose tracker has a pause start
    adds [round((now - pauseStartTime) / 60000)] to [totalPauseMinutes],
    clears [pauseStartTime] and resets [isPaused]; over any sequence of
    pause/resume cycles the minutes add up, each interval counted once, and
    the total is within half a minute per cycle of the exact duration. *)
Theorem resume_accumulates_pause_minutes {S : Type} :
  (forall (w : World S) (now : Date) (id : string) (order : ManufacturingOrderDocument)
          (tracker : TimeTracker) (pausedAt : Date),
      orders w !! id = Some order ->
      ManufacturingOrder.status order = PAUSED ->
      ManufacturingOrder.timeTracker order = Some tracker ->
      pauseStartTime tracker = Some pausedAt ->
      exists e w' tracker',
        ManufacturingOrderUseCases.resumeProduction id now w = (Ok e, w')
        /\ orderTracker w' id = Some tracker'
        /\ ManufacturingOrder.timeTracker e = Some tracker'
        /\ totalPauseMinutes tracker'
           = totalPauseMinutes tracker + round_minutes (now - pausedAt)
        /\ pauseStartTime tracker' = None
        /\ isPaused tracker' = false)
  /\ (forall (w : World S) (now : Date) (id : string) (card : ProductionCardDocument)
          (tracker : TimeTracker) (pausedAt : Date),
      cards w !! id = Some card ->
      ProductionCard.status card = ProductionCardStatus.PAUSED ->
      ProductionCard.timeTracker card = Some tracker ->
      pauseStartTime tracker = Some pausedAt ->
      exists e w' tracker',
        ProductionCardUseCases.resumeProduction id now w = (Ok e, w')
        /\ cardTracker w' id = Some tracker'
        /\ ProductionCard.timeTracker e = Some tracker'
        /\ totalPauseMinutes tracker'
           = totalPauseMinutes tracker + round_minutes (now - pausedAt)
        /\ pauseStartTime tracker' = None
        /\ isPaused tracker' = false)
  /\ (forall (w : World S) (id : string) (order : ManufacturingOrderDocument)
          (tracker : TimeTracker) (cycles : list (Date * Date)),
      orders w !! id = Some order ->
      ManufacturingOrder.status order = IN_PROGRESS ->
      ManufacturingOrder.timeTracker order = Some tracker ->
      exists w' tracker',
        orderPauseResume id cycles w = (Ok tt, w')
        /\ orderTracker w' id = Some tracker'
        /\ totalPauseMinutes tracker'
           = totalPauseMinutes tracker + pausedMinutes cycles)
  /\ (forall (w : World S) (id : string) (card : ProductionCardDocument)
          (tracker : TimeTracker) (cycles : list (Date * Date)),
      cards w !! id = Some card ->
      ProductionCard.status card = ProductionCardStatus.IN_PROGRESS ->
      ProductionCard.timeTracker card = Some tracker ->
      exists w' tracker',
        cardPauseResume id cycles w = (Ok tt, w')
        /\ cardTracker w' id = Some tracker'
        /\ totalPauseMinutes tracker'
           = totalPauseMinutes tracker + pausedMinutes cycles)
  /\ (forall cycles : list (Date * Date),
      Z.abs (60000 * pausedMinutes cycles - pausedMilliseconds cycles)
      <= 30000 * Z.of_nat (length cycles)).
Proof.
  split; [|split; [|split; [|split]]].
  - intros w now id order tracker pausedAt Hdoc Hst Htr Hps.
    destruct (order_resumeProduction_run w id order tracker pausedAt now Hdoc Hst Htr Hps)
      as (e & w' & Hrun & He & _ & Ho & _).
    eexists e, w', _. split; [exact Hrun|].
    split; [unfold orderTracker; rewrite Ho, lookup_insert_eq; reflexivity|].
    split; [exact He|]. done.
  - intros w now id card tracker pausedAt Hdoc Hst Htr Hps.
    destruct (card_resumeProduction_run w id card tracker pausedAt now Hdoc Hst Htr Hps)
      as (e & w' & Hrun & He & _ & Ho & _).
    eexists e, w', _. split; [exact Hrun|].
    split; [unfold cardTracker; rewrite Ho, lookup_insert_eq; reflexivity|].
    split; [exact He|]. done.
  - intros w id order tracker cycles Hdoc Hst Htr.
    destruct (orderPauseResume_total cycles w id order tracker Hdoc Hst Htr)
      as (w' & tracker' & ? & ? & ? & _). eauto.
  - intros w id card tracker cycles Hdoc Hst Htr.
    destruct (cardPauseResume_total cycles w id card tracker Hdoc Hst Htr)
      as (w' & tracker' & ? & ? & ? & _). eauto.
  - apply pausedMinutes_accuracy.
Qed.


Section SortProofs.
Context {A : Type} (compareFn : A -> A -> Z).
Let le (x y : A) : Prop := compareFn x y <= 0.
Hypothesis le_total : forall x y, le x y \/ le y x.
Hypothesis le_trans : forall x y z, le x y -> le y z -> le x z.

Lemma insertSorted_Permutation x l : insertSorted compareFn x l ≡ₚ x :: l.
Proof.
  induction l as [|y l IH]; simpl; [done|].
  destruct (compareFn x y <=? 0); [done|].
  rewrite IH. apply Permutation_swap.
Qed.

Lemma sort_Permutation l : sort compareFn l ≡ₚ l.
Proof.
  induction l as [|x l IH]; simpl; [done|].
  unfold sort in *. simpl. rewrite insertSorted_Permutation. by rewrite IH.
Qed.

Lemma insertSorted_StronglySorted x l :
  StronglySorted le l -> StronglySorted le (insertSorted compareFn x l).
Proof.
  induction l as [|y l IH]; intros Hl; simpl.
  - repeat constructor.
  - apply StronglySorted_inv in Hl as [Hl Hy].
    destruct (Z.leb_spec (compareFn x y) 0) as [Hxy|Hxy].
    + constructor; [by constructor|].
      constructor; [done|].
      eapply Forall_impl; [exact Hy|]. intros z Hz. by eapply le_trans.
    + constructor; [by apply IH|].
      rewrite insertSorted_Permutation. constructor; [|done].
      destruct (le_total x y) as [H|H]; [unfold le in H; lia | done].
Qed.

Lemma sort_StronglySorted l : StronglySorted le (sort compareFn l).
Proof.
  induction l as [|x l IH]; unfold sort in *; simpl.
  - constructor.
  - by apply insertSorted_StronglySorted.
Qed.
End SortProofs.

Lemma StronglySorted_weaken {A} (R R' : A -> A -> Prop) l :
  (forall a b, R a b -> R' a b) -> StronglySorted R l -> StronglySorted R' l.
Proof.
  intros HR. induction 1 as [|x l Hl IH Hx]; constructor; [done|].
  eapply Forall_impl; [exact Hx|]. auto.
Qed.

Lemma priorityValue_rank {C} (a : ProductionCard.t C) :
  MongoProductionCardRepository.priorityValue a
  = Z.of_nat (listingRank (ProductionCard.priority a)) + 1.
Proof.
  unfold MongoProductionCardRepository.priorityValue, listingRank.
  by destruct (ProductionCard.priority a) as [[]|].
Qed.

Lemma compareCards_listedBefore {C} (a b : ProductionCard.t C) :
  MongoProductionCardRepository.compareCards a b <= 0 <-> listedBefore a b.
Proof.
  unfold MongoProductionCardRepository.compareCards, listedBefore.
  rewrite !priorityValue_rank.
  destruct (Z.eqb_spec (Z.of_nat (listingRank (ProductionCard.priority a)) + 1)
              (Z.of_nat (listingRank (ProductionCard.priority b)) + 1)); simpl; lia.
Qed.

Lemma listedBefore_entity e1 e2 d1 d2 :
  entityOf e1 d1 -> entityOf e2 d2 -> listedBefore d1 d2 -> listedBefore e1 e2.
Proof. unfold entityOf. intros <- <-. by destruct e1, e2. Qed.

Section FindAll.
Context {S : Type}.
Implicit Type w : World S.

Lemma forCollect_mapToEntity (docs : list ProductionCardDocument) : forall w,
  exists es w',
    forCollect docs MongoProductionCardRepository.mapToEntity w = (Ok es, w')
    /\ Forall2 entityOf es docs
    /\ sameDatabase w w'.
Proof.
  induction docs as [|d docs IH]; intros w; simpl.
  - exists [], w. by repeat constructor.
  - unfold bind at 1. unfold MongoProductionCardRepository.mapToEntity at 1.
    unfold allocArray, bind at 1, ret at 1.
    set (w1 := set_heap _ w).
    destruct (IH w1) as (es & w' & Hrun & Hall & Hdb).
    rewrite (run_bind_Ok _ _ _ _ _ Hrun). unfold ret.
    eexists _, _. split; [reflexivity|]. split.
    + constructor; [|done]. unfold entityOf. by destruct d.
    + destruct Hdb as (? & ? & ?). done.
Qed.

(** C9: the listing of the cards returns the cards that match the filters,
    sorted by priority in the order urgent, high, normal, low (a card
    without priority ranking as normal) and, within a priority, by ascending
    due date. *)
Theorem card_listing_sorted_by_priority_then_due_date
    (regexMatch : string -> string -> bool) (filters : ProductionCardFilters.t)
    (now : Date) (w : World S) :
  exists (listed : list ProductionCardEntity) (docs : list ProductionCardDocument) w',
    ProductionCardUseCases.getAllCards regexMatch filters now w = (Ok listed, w')
    /\ StronglySorted listedBefore listed
    /\ Forall2 entityOf listed docs
    /\ docs ≡ₚ filter (fun doc => MongoProductionCardRepository.matchesQuery
                                    regexMatch filters now doc = true)
                      (snd <$> map_to_list (cards w))
    /\ sameDatabase w w'.
Proof.
  unfold ProductionCardUseCases.getAllCards, MongoProductionCardRepository.findAll.
  unfold bind at 1. unfold MongoProductionCardRepository.find at 1.
  set (found := filter _ _).
  assert (Hsorted : StronglySorted listedBefore
                      (sort MongoProductionCardRepository.compareCards found)).
  { eapply StronglySorted_weaken;
      [|apply (sort_StronglySorted MongoProductionCardRepository.compareCards)].
    - intros a b. by apply compareCards_listedBefore.
    - intros a b. rewrite !compareCards_listedBefore. unfold listedBefore. lia.
    - intros a b c. rewrite !compareCards_listedBefore. unfold listedBefore. lia. }
  destruct (forCollect_mapToEntity
              (sort MongoProductionCardRepository.compareCards found) w)
    as (es & w' & Hrun & Hall & Hdb).
  exists es, (sort MongoProductionCardRepository.compareCards found), w'.
  split; [exact Hrun|]. split; [|split; [done|split; [apply sort_Permutation|done]]].
  clear Hrun. revert Hsorted.
  induction Hall as [|e d es ds Hed Hall IH]; intros Hs; [constructor|].
  apply StronglySorted_inv in Hs as [Hs Hd].
  constructor; [by apply IH|].
  clear IH Hs. induction Hall as [|e' d' es ds He'd' Hall IH]; [constructor|].
  apply Forall_cons in Hd as [Hdd' Hd].
  constructor; [by eapply listedBefore_entity | by apply IH].
Qed.
End FindAll.

Section Creation.
Context {S : Type} {inventoryRepository : IInventoryRepository S}.
Implicit Type w : World S.

Lemma allocArray_inv cs w r w' :
  allocArray cs w = (Ok r, w') ->
  heap w !! r = None /\ w' = set_heap (<[r := cs]> (heap w)) w.
Proof.
  unfold allocArray. intros [= <- <-]. split; [|done].
  apply not_elem_of_dom, is_fresh.
Qed.

Lemma readArray_inv r w cs w' :
  readArray r w = (Ok cs, w') -> heap w !! r = Some cs /\ w' = w.
Proof.
  unfold readArray. destruct (heap w !! r); [|discriminate].
  by intros [= <- <-].
Qed.

Lemma jsonClone_inv r w r' w' :
  jsonClone r w = (Ok r', w') ->
  exists cs, heap w !! r = Some cs /\ heap w !! r' = None
             /\ w' = set_heap (<[r' := cs]> (heap w)) w.
Proof.
  unfold jsonClone. intros H.
  apply bind_Ok_inv in H as (cs & w1 & Hread & Halloc).
  apply readArray_inv in Hread as [Hcs ->].
  apply allocArray_inv in Halloc as [Hfresh ->]. eauto.
Qed.

Lemma resolveComponent_inv r componentId w w' cs :
  ManufacturingOrderUseCases.resolveComponent r componentId w = (Ok tt, w') ->
  heap w !! r = Some cs ->
  exists added,
    heap w' = <[r := cs ++ added]> (heap w)
    /\ Forall unstarted added
    /\ orders w' = orders w /\ cards w' = cards w.
Proof.
  unfold ManufacturingOrderUseCases.resolveComponent. intros H Hcs.
  apply bind_Ok_inv in H as (found & w1 & Hfind & H).
  apply callInventory_frame in Hfind as (Ho & Hc & Hh).
  destruct found as [component|].
  - unfold pushArray in H. rewrite Hh, Hcs in H. injection H as <-.
    eexists [_]. simpl. split; [done|].
    split; [by repeat constructor | done].
  - injection H as <-. exists []. rewrite app_nil_r, Hh.
    split; [by rewrite insert_id | done].
Qed.

Lemma forEach_resolve_inv r ids : forall w w' cs,
  forEach ids (ManufacturingOrderUseCases.resolveComponent r) w = (Ok tt, w') ->
  heap w !! r = Some cs ->
  exists added,
    heap w' = <[r := cs ++ added]> (heap w)
    /\ Forall unstarted added
    /\ orders w' = orders w /\ cards w' = cards w.
Proof.
  induction ids as [|i ids IH]; intros w w' cs H Hcs; simpl in H.
  - injection H as <-. exists []. rewrite app_nil_r.
    split; [by rewrite insert_id | done].
  - apply bind_Ok_inv in H as ([] & w1 & H1 & H2).
    destruct (resolveComponent_inv _ _ _ _ _ H1 Hcs) as (a1 & Hh1 & Hu1 & Ho1 & Hc1).
    assert (Hcs1 : heap w1 !! r = Some (cs ++ a1))
      by (rewrite Hh1; apply lookup_insert_eq).
    destruct (IH _ _ _ H2 Hcs1) as (a2 & Hh2 & Hu2 & Ho2 & Hc2).
    exists (a1 ++ a2). rewrite Hh2, Hh1, insert_insert_eq, app_assoc.
    split; [done|]. split; [by apply Forall_app|]. split; congruence.
Qed.

Lemma order_create_inv data now w e w' :
  MongoManufacturingOrderRepository.create data now w = (Ok e, w') ->
  exists cs,
    heap w !! ManufacturingOrderData.components data = Some cs
    /\ heap w !! ManufacturingOrder.components e = None
    /\ heap w' = <[ManufacturingOrder.components e := cs]> (heap w)
    /\ orders w !! ManufacturingOrder.id e = None
    /\ orders w' = <[ManufacturingOrder.id e := ManufacturingOrder.with_components cs e]>
                     (orders w)
    /\ cards w' = cards w
    /\ ManufacturingOrder.status e = ManufacturingOrderData.status data
    /\ ManufacturingOrder.quantity e = ManufacturingOrderData.quantity data
    /\ ManufacturingOrder.estimatedHours e = ManufacturingOrderData.estimatedHours data
    /\ 1 <= ManufacturingOrder.quantity e.
Proof.
  unfold MongoManufacturingOrderRepository.create. intros H.
  apply bind_Ok_inv in H as (cs & w1 & Hread & H).
  apply readArray_inv in Hread as [Hcs ->].
  destruct (MongoManufacturingOrderRepository.validate _) eqn:Hvalid; [|discriminate].
  unfold MongoManufacturingOrderRepository.mapToEntity in H.
  apply bind_Ok_inv in H as (r & w2 & Halloc & H).
  apply allocArray_inv in Halloc as [Hfresh ->].
  injection H as <- <-. simpl in *.
  exists cs. repeat split; try done.
  - apply not_elem_of_dom, is_fresh.
  - unfold MongoManufacturingOrderRepository.validate in Hvalid. simpl in Hvalid.
    repeat (apply andb_prop in Hvalid as [Hvalid ?]). lia.
Qed.

Lemma createProductionCard_inv request now w e w' cs :
  ProductionCardUseCases.createProductionCard request now w = (Ok e, w') ->
  heap w !! CreateProductionCardRequest.components request = Some cs ->
  cardOfRequest request e
  /\ heap w !! ProductionCard.components e = None
  /\ heap w' !! ProductionCard.components e = Some cs
  /\ heap w ⊆ heap w'
  /\ cards w !! ProductionCard.id e = None
  /\ cards w' = <[ProductionCard.id e := ProductionCard.with_components cs e]> (cards w)
  /\ orders w' = orders w.
Proof.
  unfold ProductionCardUseCases.createProductionCard. intros H Hcs.
  apply bind_Ok_inv in H as (r1 & w1 & Hclone & H).
  apply jsonClone_inv in Hclone as (cs' & Hcs' & Hr1 & ->).
  rewrite Hcs in Hcs'. injection Hcs' as <-.
  unfold MongoProductionCardRepository.create in H.
  apply bind_Ok_inv in H as (cs' & w2 & Hread & H).
  apply readArray_inv in Hread as [Hcs' ->]. simpl in Hcs'.
  rewrite lookup_insert_eq in Hcs'. injection Hcs' as <-.
  destruct (negb (MongoProductionCardRepository.validate _)); [discriminate|].
  destruct (MongoProductionCardRepository.duplicateKey _ _); [discriminate|].
  unfold MongoProductionCardRepository.mapToEntity in H.
  apply bind_Ok_inv in H as (r2 & w3 & Halloc & H).
  apply allocArray_inv in Halloc as [Hr2 ->].
  injection H as <- <-. simpl in *.
  split; [done|].
  assert (r2 <> r1) by (intros ->; by rewrite lookup_insert_eq in Hr2).
  rewrite lookup_insert_ne in Hr2 by done.
  split; [done|]. split; [apply lookup_insert_eq|].
  split; [|split; [apply not_elem_of_dom, is_fresh | done]].
  etrans; [apply (insert_subseteq _ r1 cs); done|].
  apply insert_subseteq. by rewrite lookup_insert_ne.
Qed.

Lemma createMultipleProductionCards_inv now cs requests : forall w es w',
  ProductionCardUseCases.createMultipleProductionCards requests now w = (Ok es, w') ->
  Forall (fun request =>
            heap w !! CreateProductionCardRequest.components request = Some cs)
         requests ->
  Forall2 cardOfRequest requests es
  /\ Forall (fun e => heap w !! ProductionCard.components e = None
                      /\ heap w' !! ProductionCard.components e = Some cs
                      /\ cards w' !! ProductionCard.id e
                         = Some (ProductionCard.with_components cs e)) es
  /\ NoDup (ProductionCard.components <$> es)
  /\ heap w ⊆ heap w' /\ cards w ⊆ cards w' /\ orders w' = orders w.
Proof.
  unfold ProductionCardUseCases.createMultipleProductionCards.
  induction requests as [|request requests IH]; intros w es w' H Hall; simpl in H.
  - injection H as <- <-. repeat split; try done; constructor.
  - apply Forall_cons in Hall as [Hreq Hall].
    apply bind_Ok_inv in H as (e & w1 & Hone & H).
    apply bind_Ok_inv in H as (es' & w2 & Hrest & H).
    injection H as <- <-.
    destruct (createProductionCard_inv _ _ _ _ _ _ Hone Hreq)
      as (Hfields & Hnew & Hval & Hheap & Hid & Hcards & Horders).
    assert (Hall1 : Forall (fun request =>
                heap w1 !! CreateProductionCardRequest.components request = Some cs)
              requests).
    { eapply Forall_impl; [exact Hall|]. intros r Hr. simpl in Hr.
      by eapply lookup_weaken. }
    destruct (IH _ _ _ Hrest Hall1) as (Hf2 & Hes & Hnd & Hheap2 & Hcards2 & Horders2).
    split; [by constructor|].
    split; [constructor|].
    + split; [done|]. split; [by eapply lookup_weaken|].
      eapply lookup_weaken; [|exact Hcards2]. rewrite Hcards. apply lookup_insert_eq.
    + eapply Forall_impl; [exact Hes|]. intros e' (Hn' & Hv' & Hc'). simpl.
      split; [|done].
      destruct (heap w !! ProductionCard.components e') eqn:E; [|done].
      eapply lookup_weaken in E; [|exact Hheap]. congruence.
    + split; [|split; [by etrans|split; [|congruence]]].
      * simpl. constructor; [|done].
        intros Hin. apply list_elem_of_fmap in Hin as (e' & Heq & Hin).
        rewrite Forall_forall in Hes. destruct (Hes _ Hin) as (Hn' & _).
        rewrite <- Heq in Hn'. congruence.
      * etrans; [|exact Hcards2]. rewrite Hcards. by apply insert_subseteq.
Qed.

Lemma cardRequests_inv (components : Ref)
    (mkRequest : Z -> Ref -> CreateProductionCardRequest.t) (cs : list ComponentProgress.t)
    (numbers : list Z) : forall w requests w',
  forCollect numbers
    (fun i => clonedComponents <- jsonClone components ;;
              ret (mkRequest i clonedComponents)) w = (Ok requests, w') ->
  heap w !! components = Some cs ->
  Forall2 (fun i request =>
             exists r, request = mkRequest i r /\ heap w' !! r = Some cs)
          numbers requests
  /\ heap w ⊆ heap w' /\ orders w' = orders w /\ cards w' = cards w.
Proof.
  induction numbers as [|i numbers IH]; intros w requests w' H Hcs; simpl in H.
  - injection H as <- <-. repeat split; try done; constructor.
  - apply bind_Ok_inv in H as (request & w1 & Hone & H).
    apply bind_Ok_inv in H as (requests' & w2 & Hrest & H).
    injection H as <- <-.
    apply bind_Ok_inv in Hone as (r & w0 & Hclone & Hret).
    injection Hret as <- <-.
    apply jsonClone_inv in Hclone as (cs' & Hcs' & Hr & ->).
    rewrite Hcs in Hcs'. injection Hcs' as <-.
    assert (Hsub : heap w ⊆ <[r := cs]> (heap w)) by by apply insert_subseteq.
    assert (Hcs1 : heap (set_heap (<[r := cs]> (heap w)) w) !! components = Some cs)
      by (simpl; by eapply lookup_weaken).
    destruct (IH _ _ _ Hrest Hcs1) as (Hall & Hheap & Ho & Hc). simpl in *.
    split; [|split; [by etrans | done]].
    constructor; [|done]. exists r. split; [done|].
    eapply lookup_weaken; [|exact Hheap]. apply lookup_insert_eq.
Qed.



End Creation.

(** ** The guards on the lifecycle state *)

Section Guards.
Context {S : Type} {inventoryRepository : IInventoryRepository S}.
Implicit Type w : World S.

(** The operations of the order use cases that check the status reject a
    completed or cancelled order. *)
Lemma terminal_order_guarded w id doc now componentId updates materials :
  orders w !! id = Some doc ->
  terminalOrder (ManufacturingOrder.status doc) ->
  rejectedUnchanged AnOrder (ManufacturingOrderUseCases.updateOrder id updates now) w
  /\ rejectedUnchanged AnOrder (ManufacturingOrderUseCases.startProduction id now) w
  /\ rejectedUnchanged AnOrder (ManufacturingOrderUseCases.pauseProduction id now) w
  /\ rejectedUnchanged AnOrder (ManufacturingOrderUseCases.resumeProduction id now) w
  /\ rejectedUnchanged AnOrder
       (ManufacturingOrderUseCases.completeComponent id componentId now) w
  /\ rejectedUnchanged AnOrder (ManufacturingOrderUseCases.completeOrder id now) w
  /\ rejectedUnchanged AnOrder (ManufacturingOrderUseCases.cancelOrder id now) w
  /\ rejectedUnchanged AnOrder
       (ManufacturingOrderUseCases.startComponentProduction id componentId now) w
  /\ rejectedUnchanged AnOrder
       (ManufacturingOrderUseCases.updateComponentMaterials id componentId materials now) w.
Proof.
  intros Hdoc Hst.
  unfold ManufacturingOrderUseCases.updateOrder,
    ManufacturingOrderUseCases.startProduction,
    ManufacturingOrderUseCases.pauseProduction,
    ManufacturingOrderUseCases.resumeProduction,
    ManufacturingOrderUseCases.completeComponent,
    ManufacturingOrderUseCases.completeOrder,
    ManufacturingOrderUseCases.cancelOrder,
    ManufacturingOrderUseCases.startComponentProduction,
    ManufacturingOrderUseCases.updateComponentMaterials.
  unfold rejectedUnchanged.
  rewrite !(run_bind_Ok _ _ _ _ _ (getOrderById_found _ _ _ Hdoc)). simpl.
  destruct Hst as [-> | ->]; simpl;
    repeat split; eexists _, _; (split; [reflexivity | split; [reflexivity | done]]).
Qed.

(** The operations of the card use cases that check the status reject a
    completed or cancelled card. *)
Lemma terminal_card_guarded w id doc now componentId priority :
  cards w !! id = Some doc ->
  terminalCard (ProductionCard.status doc) ->
  rejectedUnchanged ACard (ProductionCardUseCases.startProduction id now) w
  /\ rejectedUnchanged ACard (ProductionCardUseCases.pauseProduction id now) w
  /\ rejectedUnchanged ACard (ProductionCardUseCases.resumeProduction id now) w
  /\ rejectedUnchanged ACard (ProductionCardUseCases.completeComponent id componentId now) w
  /\ rejectedUnchanged ACard (ProductionCardUseCases.completeCard id now) w
  /\ rejectedUnchanged ACard (ProductionCardUseCases.updateCardPriority id priority now) w.
Proof.
  intros Hdoc Hst.
  unfold ProductionCardUseCases.startProduction,
    ProductionCardUseCases.pauseProduction,
    ProductionCardUseCases.resumeProduction,
    ProductionCardUseCases.completeComponent,
    ProductionCardUseCases.completeCard,
    ProductionCardUseCases.updateCardPriority.
  unfold rejectedUnchanged.
  rewrite !(run_bind_Ok _ _ _ _ _ (getCardById_found _ _ _ Hdoc)).
  assert (Hfind : MongoProductionCardRepository.findById id w
                  = (Ok (Some (ProductionCard.with_components (fresh (dom (heap w))) doc)),
                     set_heap (<[fresh (dom (heap w)) := ProductionCard.components doc]>
                                 (heap w)) w)).
  { unfold MongoProductionCardRepository.findById,
      MongoProductionCardRepository.findDocument,
      MongoProductionCardRepository.mapToEntityOrNull,
      MongoProductionCardRepository.mapToEntity, allocArray, bind, ret.
    by rewrite Hdoc. }
  rewrite (run_bind_Ok _ _ _ _ _ Hfind). simpl.
  destruct Hst as [-> | ->]; simpl;
    repeat split; eexists _, _; (split; [reflexivity | split; [reflexivity | done]]).
Qed.

(** Cancelling: the guards of the two use cases. *)
Lemma cancelOrder_guard w id doc now :
  orders w !! id = Some doc ->
  match ManufacturingOrder.status doc with
  | COMPLETED =>
      exists w', ManufacturingOrderUseCases.cancelOrder id now w
                 = (Throw (Rejected AnOrder CancelCompleted), w')
  | CANCELLED =>
      exists w', ManufacturingOrderUseCases.cancelOrder id now w
                 = (Throw (Rejected AnOrder AlreadyCancelled), w')
  | _ =>
      exists e w', ManufacturingOrderUseCases.cancelOrder id now w = (Ok e, w')
                   /\ ManufacturingOrder.status e = CANCELLED
                   /\ orders w' = <[id := ManufacturingOrder.cancelled now doc]> (orders w)
  end.
Proof.
  intros Hdoc. unfold ManufacturingOrderUseCases.cancelOrder.
  rewrite (run_bind_Ok _ _ _ _ _ (getOrderById_found _ _ _ Hdoc)). simpl.
  destruct (ManufacturingOrder.status doc) eqn:Hst; simpl; eauto.
  all: unfold MongoManufacturingOrderRepository.cancelOrder,
         MongoManufacturingOrderRepository.findByIdAndUpdate,
         MongoManufacturingOrderRepository.mapToEntityOrNull,
         MongoManufacturingOrderRepository.mapToEntity, allocArray, bind, ret;
       simpl; rewrite Hdoc; simpl; eauto.
Qed.

Lemma cancelCard_guard w id doc now :
  cards w !! id = Some doc ->
  match ProductionCard.status doc with
  | ProductionCardStatus.COMPLETED =>
      exists w', ProductionCardUseCases.cancelCard id now w
                 = (Throw (Rejected ACard CancelCompleted), w')
  | _ =>
      exists e w', ProductionCardUseCases.cancelCard id now w = (Ok e, w')
                   /\ ProductionCard.status e = ProductionCardStatus.CANCELLED
                   /\ cards w' = <[id := ProductionCard.cancelled now doc]> (cards w)
  end.
Proof.
  intros Hdoc. unfold ProductionCardUseCases.cancelCard.
  rewrite (run_bind_Ok _ _ _ _ _ (getCardById_found _ _ _ Hdoc)). simpl.
  destruct (ProductionCard.status doc) eqn:Hst; simpl; eauto.
  all: unfold MongoProductionCardRepository.cancelCard,
         MongoProductionCardRepository.findByIdAndUpdate,
         MongoProductionCardRepository.mapToEntityOrNull,
         MongoProductionCardRepository.mapToEntity, allocArray, bind, ret;
       simpl; rewrite Hdoc; simpl; eauto.
Qed.

(** X30: starting.  Only a pending order or card is started: in any other
    status the start is rejected with an invalid-state error and changes
    nothing; and the order use case does not restart a component whose timer
    runs. *)
Lemma start_guards w id now :
  (forall doc, orders w !! id = Some doc ->
     ManufacturingOrder.status doc <> PENDING ->
     rejectedUnchanged AnOrder (ManufacturingOrderUseCases.startProduction id now) w)
  /\ (forall doc, cards w !! id = Some doc ->
     ProductionCard.status doc <> ProductionCardStatus.PENDING ->
     rejectedUnchanged ACard (ProductionCardUseCases.startProduction id now) w)
  /\ (forall doc componentId tracker, orders w !! id = Some doc ->
     orderComponentTracker w id componentId = Some tracker ->
     isPaused tracker = false ->
     exists why w',
       ManufacturingOrderUseCases.startComponentProduction id componentId now w
       = (Throw (Rejected AnOrder why), w')
       /\ sameDatabase w w').
Proof.
  split; [|split].
  - intros doc Hdoc Hst. unfold ManufacturingOrderUseCases.startProduction, rejectedUnchanged.
    rewrite (run_bind_Ok _ _ _ _ _ (getOrderById_found _ _ _ Hdoc)). simpl.
    destruct (ManufacturingOrder.status doc); try done; simpl;
      eexists _, _; (split; [reflexivity | split; [reflexivity | done]]).
  - intros doc Hdoc Hst. unfold ProductionCardUseCases.startProduction, rejectedUnchanged.
    rewrite (run_bind_Ok _ _ _ _ _ (getCardById_found _ _ _ Hdoc)). simpl.
    destruct (ProductionCard.status doc); try done; simpl;
      eexists _, _; (split; [reflexivity | split; [reflexivity | done]]).
  - intros doc componentId tracker Hdoc Htr Hp.
    unfold orderComponentTracker, componentTracker in Htr. rewrite Hdoc in Htr.
    unfold ManufacturingOrderUseCases.startComponentProduction.
    rewrite (run_bind_Ok _ _ _ _ _ (getOrderById_found _ _ _ Hdoc)). simpl.
    destruct (negb (bool_decide (ManufacturingOrder.status doc = IN_PROGRESS))
              && negb (bool_decide (ManufacturingOrder.status doc = PAUSED)));
      [eexists _, _; split; [reflexivity | done]|].
    rewrite (run_bind_Ok _ _ _ _ _ (readArray_allocated _ _ _)).
    destruct (findComponent componentId (ManufacturingOrder.components doc)) as [c|];
      [|discriminate].
    destruct (ComponentProgress.isCompleted c);
      [eexists _, _; split; [reflexivity | done]|].
    rewrite Htr, Hp. simpl. eexists _, _; split; [reflexivity | done].
Qed.
End Guards.

(** * Further properties of the lifecycle *)

Lemma round_minutes_mono t t' : t <= t' -> round_minutes t <= round_minutes t'.
Proof.
  intros H. rewrite !round_minutes_div. apply Z.div_le_mono; lia.
Qed.

Lemma round_minutes_nonneg t : 0 <= t -> 0 <= round_minutes t.
Proof.
  intros H. rewrite round_minutes_div. apply Z.div_pos; lia.
Qed.

Lemma queriesReturn_elapsed {S} (w : World S) tracker start now :
  startTime tracker = Some start ->
  queriesReturn w tracker now (elapsedMinutes tracker start now).
Proof.
  intros Hstart. repeat split.
  - intros id. unfold orderTracker,
      ManufacturingOrderUseCases.getCurrentProductionTime,
      MongoManufacturingOrderRepository.getCurrentProductionTime,
      MongoManufacturingOrderRepository.findDocument, bind, ret.
    destruct (orders w !! id) as [doc|]; [|discriminate].
    intros ->. rewrite Hstart. by rewrite elapsed_code_spec.
  - intros id. unfold cardTracker,
      ProductionCardUseCases.getCurrentProductionTime,
      MongoProductionCardRepository.getCurrentProductionTime,
      MongoProductionCardRepository.findDocument, bind, ret.
    destruct (cards w !! id) as [doc|]; [|discriminate].
    intros ->. rewrite Hstart. by rewrite elapsed_code_spec.
  - intros id cid. unfold orderComponentTracker, componentTracker,
      ManufacturingOrderUseCases.getComponentProductionTime,
      MongoManufacturingOrderRepository.getComponentProductionTime,
      MongoManufacturingOrderRepository.findDocument, bind, ret.
    destruct (orders w !! id) as [doc|]; [|discriminate].
    destruct (findComponent cid _) as [c|]; [|discriminate].
    intros ->. rewrite Hstart. by rewrite elapsed_code_spec.
  - intros id cid. unfold cardComponentTracker, componentTracker,
      ProductionCardUseCases.getComponentProductionTime,
      MongoProductionCardRepository.getComponentProductionTime,
      MongoProductionCardRepository.findDocument, bind, ret.
    destruct (cards w !! id) as [doc|]; [|discriminate].
    destruct (findComponent cid _) as [c|]; [|discriminate].
    intros ->. rewrite Hstart. by rewrite elapsed_code_spec.
Qed.

(** X1: the elapsed time of a tracker never goes back as the clock advances,
    and it stands still while the tracker is paused: for [now <= now'], the
    four queries return [m] at [now] and [m'] at [now'] with [m <= m'], and
    [m = m'] when the tracker is paused since a known time. *)
Theorem elapsed_time_advances_unless_paused {S} (w : World S) (tracker : TimeTracker)
    (start now now' : Date) :
  startTime tracker = Some start ->
  now <= now' ->
  exists m m',
    queriesReturn w tracker now m
    /\ queriesReturn w tracker now' m'
    /\ m <= m'
    /\ (isPaused tracker = true -> pauseStartTime tracker <> None -> m = m').
Proof.
  intros Hstart Hle.
  exists (elapsedMinutes tracker start now), (elapsedMinutes tracker start now').
  split; [by apply queriesReturn_elapsed|].
  split; [by apply queriesReturn_elapsed|].
  unfold elapsedMinutes.
  destruct (isPaused tracker), (pauseStartTime tracker) as [p|]; split;
    try (intros; congruence);
    try (apply Z.max_le_compat_l, round_minutes_mono; lia).
  intros _ _. f_equal. f_equal. lia.
Qed.

Section Lifecycle.
Context {S : Type} {inventoryRepository : IInventoryRepository S}.
Implicit Type w : World S.

Lemma order_startProduction_run w id doc now :
  orders w !! id = Some doc ->
  ManufacturingOrder.status doc = PENDING ->
  exists e w',
    ManufacturingOrderUseCases.startProduction id now w = (Ok e, w')
    /\ e = ManufacturingOrder.with_components (ManufacturingOrder.components e)
             (ManufacturingOrder.started now doc)
    /\ orders w' = <[id := ManufacturingOrder.started now doc]> (orders w)
    /\ cards w' = cards w /\ inventory w' = inventory w.
Proof.
  intros Hdoc Hst. unfold ManufacturingOrderUseCases.startProduction.
  rewrite (run_bind_Ok _ _ _ _ _ (getOrderById_found _ _ _ Hdoc)). simpl.
  rewrite Hst. simpl.
  unfold MongoManufacturingOrderRepository.startProduction,
    MongoManufacturingOrderRepository.findByIdAndUpdate,
    MongoManufacturingOrderRepository.mapToEntityOrNull,
    MongoManufacturingOrderRepository.mapToEntity, allocArray, bind, ret.
  simpl. rewrite Hdoc. simpl. eexists _, _. split; [reflexivity|]. done.
Qed.

Lemma card_startProduction_run w id doc now :
  cards w !! id = Some doc ->
  ProductionCard.status doc = ProductionCardStatus.PENDING ->
  exists e w',
    ProductionCardUseCases.startProduction id now w = (Ok e, w')
    /\ e = ProductionCard.with_components (ProductionCard.components e)
             (ProductionCard.started now doc)
    /\ cards w' = <[id := ProductionCard.started now doc]> (cards w)
    /\ orders w' = orders w /\ inventory w' = inventory w.
Proof.
  intros Hdoc Hst. unfold ProductionCardUseCases.startProduction.
  rewrite (run_bind_Ok _ _ _ _ _ (getCardById_found _ _ _ Hdoc)). simpl.
  rewrite Hst. simpl.
  unfold MongoProductionCardRepository.startProduction,
    MongoProductionCardRepository.findByIdAndUpdate,
    MongoProductionCardRepository.mapToEntityOrNull,
    MongoProductionCardRepository.mapToEntity, allocArray, bind, ret.
  simpl. rewrite Hdoc. simpl. eexists _, _. split; [reflexivity|]. done.
Qed.

Lemma fresh_tracker_elapsed now later :
  now <= later -> elapsedMinutes (fresh_tracker now) now later = round_minutes (later - now).
Proof.
  intros H. unfold elapsedMinutes. simpl.
  rewrite Z.max_r by (apply round_minutes_nonneg; lia). f_equal. lia.
Qed.

(** X2: starting a pending order, or a pending card, puts it in progress
    with a clock that starts at this instant: the document is stored as in
    progress, started now, nothing else of it changes, the other
    collections are untouched, and the elapsed time asked at a later time
    [later] is [round((later - now) / 60000)] minutes, 0 at the start. *)
Theorem startProduction_starts_the_clock (w : World S) (id : string) (now : Date) :
  (forall order : ManufacturingOrderDocument,
      orders w !! id = Some order ->
      ManufacturingOrder.status order = PENDING ->
      exists e w',
        ManufacturingOrderUseCases.startProduction id now w = (Ok e, w')
        /\ ManufacturingOrder.status e = IN_PROGRESS
        /\ ManufacturingOrder.startedAt e = Some now
        /\ orders w' = <[id := ManufacturingOrder.started now order]> (orders w)
        /\ cards w' = cards w /\ inventory w' = inventory w
        /\ ManufacturingOrderUseCases.getCurrentProductionTime id now w' = (Ok 0, w')
        /\ forall later, now <= later ->
             ManufacturingOrderUseCases.getCurrentProductionTime id later w'
             = (Ok (round_minutes (later - now)), w'))
  /\ (forall card : ProductionCardDocument,
      cards w !! id = Some card ->
      ProductionCard.status card = ProductionCardStatus.PENDING ->
      exists e w',
        ProductionCardUseCases.startProduction id now w = (Ok e, w')
        /\ ProductionCard.status e = ProductionCardStatus.IN_PROGRESS
        /\ ProductionCard.startedAt e = Some now
        /\ cards w' = <[id := ProductionCard.started now card]> (cards w)
        /\ orders w' = orders w /\ inventory w' = inventory w
        /\ ProductionCardUseCases.getCurrentProductionTime id now w' = (Ok 0, w')
        /\ forall later, now <= later ->
             ProductionCardUseCases.getCurrentProductionTime id later w'
             = (Ok (round_minutes (later - now)), w')).
Proof.
  split.
  - intros order Hdoc Hst.
    destruct (order_startProduction_run w id order now Hdoc Hst)
      as (e & w' & Hrun & He & Ho & Hc & Hi).
    exists e, w'. split; [done|]. rewrite He. do 2 (split; [done|]).
    do 3 (split; [done|]).
    assert (Htr : orderTracker w' id = Some (fresh_tracker now)).
    { unfold orderTracker. rewrite Ho, lookup_insert_eq. done. }
    assert (Hq : forall later, now <= later ->
               ManufacturingOrderUseCases.getCurrentProductionTime id later w'
               = (Ok (round_minutes (later - now)), w')).
    { intros later Hl.
      destruct (queriesReturn_elapsed w' (fresh_tracker now) now later eq_refl)
        as (Hq & _).
      rewrite (Hq id Htr). by rewrite fresh_tracker_elapsed. }
    split; [|done]. rewrite (Hq now) by lia. by rewrite Z.sub_diag.
  - intros card Hdoc Hst.
    destruct (card_startProduction_run w id card now Hdoc Hst)
      as (e & w' & Hrun & He & Ho & Hc & Hi).
    exists e, w'. split; [done|]. rewrite He. do 2 (split; [done|]).
    do 3 (split; [done|]).
    assert (Htr : cardTracker w' id = Some (fresh_tracker now)).
    { unfold cardTracker. rewrite Ho, lookup_insert_eq. done. }
    assert (Hq : forall later, now <= later ->
               ProductionCardUseCases.getCurrentProductionTime id later w'
               = (Ok (round_minutes (later - now)), w')).
    { intros later Hl.
      destruct (queriesReturn_elapsed w' (fresh_tracker now) now later eq_refl)
        as (_ & Hq & _).
      rewrite (Hq id Htr). by rewrite fresh_tracker_elapsed. }
    split; [|done]. rewrite (Hq now) by lia. by rewrite Z.sub_diag.
Qed.

End Lifecycle.

(** ** Orders and cards are separate collections *)

Section Frames.
Context {S : Type} {inventoryRepository : IInventoryRepository S}.

Lemma keepsCards_bind {A B} (m : M S A) (k : A -> M S B) :
  keepsCards m -> (forall a, keepsCards (k a)) -> keepsCards (bind m k).
Proof.
  intros Hm Hk w. unfold bind. specialize (Hm w).
  destruct (m w) as [[a|e] w1]; simpl in *; [|done].
  by rewrite Hk.
Qed.

Lemma keepsOrders_bind {A B} (m : M S A) (k : A -> M S B) :
  keepsOrders m -> (forall a, keepsOrders (k a)) -> keepsOrders (bind m k).
Proof.
  intros Hm Hk w. unfold bind. specialize (Hm w).
  destruct (m w) as [[a|e] w1]; simpl in *; [|done].
  by rewrite Hk.
Qed.

Lemma keepsCards_try_catch_log (body : M S unit) :
  keepsCards body -> keepsCards (try_catch_log body).
Proof.
  intros Hm w. unfold try_catch_log. specialize (Hm w).
  by destruct (body w) as [[[]|e] w1].
Qed.

Lemma keepsOrders_try_catch_log (body : M S unit) :
  keepsOrders body -> keepsOrders (try_catch_log body).
Proof.
  intros Hm w. unfold try_catch_log. specialize (Hm w).
  by destruct (body w) as [[[]|e] w1].
Qed.

Lemma keepsCards_callInventory {A} (f : S -> Outcome A * S) : keepsCards (callInventory f).
Proof. intros w. unfold callInventory. by destruct (f (inventory w)). Qed.

Lemma keepsOrders_callInventory {A} (f : S -> Outcome A * S) : keepsOrders (callInventory f).
Proof. intros w. unfold callInventory. by destruct (f (inventory w)). Qed.

Lemma keepsCards_forCollect {A B} (xs : list A) (body : A -> M S B) :
  (forall x, keepsCards (body x)) -> keepsCards (forCollect xs body).
Proof.
  intros H. induction xs as [|x xs IH]; simpl; [done|].
  apply keepsCards_bind; [done|]. intros y.
  apply keepsCards_bind; [done|]. by intros ys w.
Qed.

Lemma keepsOrders_forCollect {A B} (xs : list A) (body : A -> M S B) :
  (forall x, keepsOrders (body x)) -> keepsOrders (forCollect xs body).
Proof.
  intros H. induction xs as [|x xs IH]; simpl; [done|].
  apply keepsOrders_bind; [done|]. intros y.
  apply keepsOrders_bind; [done|]. by intros ys w.
Qed.

Lemma keepsCards_order_findByIdAndUpdate id update :
  keepsCards (S := S) (MongoManufacturingOrderRepository.findByIdAndUpdate id update).
Proof.
  intros w. unfold MongoManufacturingOrderRepository.findByIdAndUpdate.
  by destruct (orders w !! id).
Qed.

Lemma keepsCards_order_findOneAndUpdate id cid update now :
  keepsCards (S := S) (MongoManufacturingOrderRepository.findOneAndUpdate id cid update now).
Proof.
  intros w. unfold MongoManufacturingOrderRepository.findOneAndUpdate.
  destruct (orders w !! id); [|done]. by destruct (updateFirst _ _ _).
Qed.

Lemma keepsOrders_card_findByIdAndUpdate id update :
  keepsOrders (S := S) (MongoProductionCardRepository.findByIdAndUpdate id update).
Proof.
  intros w. unfold MongoProductionCardRepository.findByIdAndUpdate.
  by destruct (cards w !! id).
Qed.

Lemma keepsOrders_card_findOneAndUpdate id cid update now :
  keepsOrders (S := S) (MongoProductionCardRepository.findOneAndUpdate id cid update now).
Proof.
  intros w. unfold MongoProductionCardRepository.findOneAndUpdate.
  destruct (cards w !! id); [|done]. by destruct (updateFirst _ _ _).
Qed.

Lemma keepsCards_readArray r : keepsCards (S := S) (readArray r).
Proof. intros w. unfold readArray. by destruct (heap w !! r). Qed.

Lemma keepsOrders_readArray r : keepsOrders (S := S) (readArray r).
Proof. intros w. unfold readArray. by destruct (heap w !! r). Qed.

Lemma keepsOrders_card_delete id :
  keepsOrders (S := S) (MongoProductionCardRepository.delete id).
Proof. intros w. unfold MongoProductionCardRepository.delete. by destruct (cards w !! id). Qed.

Lemma keepsOrders_card_create cardData now :
  keepsOrders (S := S) (MongoProductionCardRepository.create cardData now).
Proof.
  unfold MongoProductionCardRepository.create.
  apply keepsOrders_bind; [apply keepsOrders_readArray|]. intros cs w.
  destruct (negb _); [done|]. by destruct (MongoProductionCardRepository.duplicateKey _ _).
Qed.

Ltac keeps_step :=
  first
    [ apply keepsOrders_card_delete
    | apply keepsOrders_card_create
    | apply keepsCards_bind; [|intros ?]
    | apply keepsOrders_bind; [|intros ?]
    | apply keepsCards_try_catch_log
    | apply keepsOrders_try_catch_log
    | apply keepsCards_callInventory
    | apply keepsOrders_callInventory
    | apply keepsCards_order_findByIdAndUpdate
    | apply keepsCards_order_findOneAndUpdate
    | apply keepsOrders_card_findByIdAndUpdate
    | apply keepsOrders_card_findOneAndUpdate
    | apply keepsCards_readArray
    | apply keepsOrders_readArray
    | apply keepsCards_forCollect; intros ?
    | apply keepsOrders_forCollect; intros ?
    | match goal with
      | |- keepsCards (match ?x with _ => _ end) => destruct x
      | |- keepsOrders (match ?x with _ => _ end) => destruct x
      | |- keepsCards (if ?b then _ else _) => destruct b
      | |- keepsOrders (if ?b then _ else _) => destruct b
      end
    | (intros ?; reflexivity) ].

Ltac keeps :=
  unfold
    ManufacturingOrderUseCases.getOrderById, ManufacturingOrderUseCases.rejected,
    ProductionCardUseCases.getCardById, ProductionCardUseCases.rejected,
    ManufacturingOrderUseCases.adjustedUsage,
    MongoManufacturingOrderRepository.findById, MongoManufacturingOrderRepository.update,
    MongoManufacturingOrderRepository.startProduction,
    MongoManufacturingOrderRepository.pauseProduction,
    MongoManufacturingOrderRepository.resumeProduction,
    MongoManufacturingOrderRepository.getCurrentProductionTime,
    MongoManufacturingOrderRepository.completeComponent,
    MongoManufacturingOrderRepository.completeOrder,
    MongoManufacturingOrderRepository.cancelOrder,
    MongoManufacturingOrderRepository.startComponentProduction,
    MongoManufacturingOrderRepository.pauseComponentProduction,
    MongoManufacturingOrderRepository.resumeComponentProduction,
    MongoManufacturingOrderRepository.getComponentProductionTime,
    MongoManufacturingOrderRepository.updateComponentMaterials,
    MongoManufacturingOrderRepository.addMaterialToComponent,
    MongoManufacturingOrderRepository.mapToEntityOrNull,
    MongoManufacturingOrderRepository.mapToEntity,
    MongoManufacturingOrderRepository.findDocument,
    MongoProductionCardRepository.findById, MongoProductionCardRepository.update,
    MongoProductionCardRepository.startProduction,
    MongoProductionCardRepository.pauseProduction,
    MongoProductionCardRepository.resumeProduction,
    MongoProductionCardRepository.getCurrentProductionTime,
    MongoProductionCardRepository.completeComponent,
    MongoProductionCardRepository.completeCard,
    MongoProductionCardRepository.cancelCard,
    MongoProductionCardRepository.startComponentProduction,
    MongoProductionCardRepository.pauseComponentProduction,
    MongoProductionCardRepository.resumeComponentProduction,
    MongoProductionCardRepository.getComponentProductionTime,
    MongoProductionCardRepository.updateComponentMaterials,
    MongoProductionCardRepository.addMaterialToComponent,
    MongoProductionCardRepository.mapToEntityOrNull,
    MongoProductionCardRepository.mapToEntity,
    MongoProductionCardRepository.findDocument,
    jsonClone, allocArray, ret, throw;
  repeat keeps_step.

(** X3: after their creation the orders and the cards evolve apart.  No
    operation on an order changes a card, whatever the operation returns:
    cancelling or completing an order leaves its cards in the state they
    are in; and no operation on a card changes an order: completing the
    cards of an order does not complete it. *)
Theorem orders_and_cards_evolve_apart
    (id componentId materialId : string) (now : Date)
    (updates : UpdateManufacturingOrderRequest.t)
    (cardUpdates : ProductionCardUpdates.t)
    (adjustments : list MaterialAdjustment.t)
    (materials : list MaterialUsage.t) (material : MaterialUsage.t)
    (plannedQuantity : Q) (actualQuantity : option Q)
    (priority : ProductionCardPriority)
    (request : CreateProductionCardRequest.t) :
  (keepsCards (S := S) (ManufacturingOrderUseCases.getOrderById id)
   /\ keepsCards (S := S) (ManufacturingOrderUseCases.updateOrder id updates now)
   /\ keepsCards (S := S) (ManufacturingOrderUseCases.startProduction id now)
   /\ keepsCards (S := S) (ManufacturingOrderUseCases.pauseProduction id now)
   /\ keepsCards (S := S) (ManufacturingOrderUseCases.resumeProduction id now)
   /\ keepsCards (S := S) (ManufacturingOrderUseCases.getCurrentProductionTime id now)
   /\ keepsCards (S := S) (ManufacturingOrderUseCases.completeComponent id componentId now)
   /\ keepsCards (S := S) (ManufacturingOrderUseCases.completeOrder id now)
   /\ keepsCards (S := S) (ManufacturingOrderUseCases.cancelOrder id now)
   /\ keepsCards (S := S) (ManufacturingOrderUseCases.startComponentProduction id componentId now)
   /\ keepsCards (S := S) (ManufacturingOrderUseCases.pauseComponentProduction id componentId now)
   /\ keepsCards (S := S) (ManufacturingOrderUseCases.resumeComponentProduction id componentId now)
   /\ keepsCards (S := S) (ManufacturingOrderUseCases.getComponentProductionTime id componentId now)
   /\ keepsCards (S := S) (ManufacturingOrderUseCases.updateComponentMaterials
                    id componentId adjustments now)
   /\ keepsCards (S := S) (ManufacturingOrderUseCases.addMaterialToComponent
                    id componentId materialId plannedQuantity actualQuantity now))
  /\ (keepsOrders (S := S) (ProductionCardUseCases.createProductionCard request now)
      /\ keepsOrders (S := S) (ProductionCardUseCases.getCardById id)
      /\ keepsOrders (S := S) (ProductionCardUseCases.updateCard id cardUpdates now)
      /\ keepsOrders (S := S) (ProductionCardUseCases.deleteCard id)
      /\ keepsOrders (S := S) (ProductionCardUseCases.startProduction id now)
      /\ keepsOrders (S := S) (ProductionCardUseCases.pauseProduction id now)
      /\ keepsOrders (S := S) (ProductionCardUseCases.resumeProduction id now)
      /\ keepsOrders (S := S) (ProductionCardUseCases.getCurrentProductionTime id now)
      /\ keepsOrders (S := S) (ProductionCardUseCases.completeComponent id componentId now)
      /\ keepsOrders (S := S) (ProductionCardUseCases.completeCard id now)
      /\ keepsOrders (S := S) (ProductionCardUseCases.cancelCard id now)
      /\ keepsOrders (S := S) (ProductionCardUseCases.startComponentProduction id componentId now)
      /\ keepsOrders (S := S) (ProductionCardUseCases.pauseComponentProduction id componentId now)
      /\ keepsOrders (S := S) (ProductionCardUseCases.resumeComponentProduction id componentId now)
      /\ keepsOrders (S := S) (ProductionCardUseCases.getComponentProductionTime id componentId now)
      /\ keepsOrders (S := S) (ProductionCardUseCases.updateComponentMaterials
                        id componentId materials now)
      /\ keepsOrders (S := S) (ProductionCardUseCases.addMaterialToComponent
                        id componentId material now)
      /\ keepsOrders (S := S) (ProductionCardUseCases.updateCardPriority id priority now)).
Proof.
  split.
  - unfold ManufacturingOrderUseCases.updateOrder,
      ManufacturingOrderUseCases.startProduction,
      ManufacturingOrderUseCases.pauseProduction,
      ManufacturingOrderUseCases.resumeProduction,
      ManufacturingOrderUseCases.getCurrentProductionTime,
      ManufacturingOrderUseCases.completeComponent,
      ManufacturingOrderUseCases.completeOrder,
      ManufacturingOrderUseCases.cancelOrder,
      ManufacturingOrderUseCases.startComponentProduction,
      ManufacturingOrderUseCases.pauseComponentProduction,
      ManufacturingOrderUseCases.resumeComponentProduction,
      ManufacturingOrderUseCases.getComponentProductionTime,
      ManufacturingOrderUseCases.updateComponentMaterials,
      ManufacturingOrderUseCases.addMaterialToComponent.
    repeat split; keeps.
  - unfold ProductionCardUseCases.createProductionCard,
      ProductionCardUseCases.updateCard,
      ProductionCardUseCases.deleteCard,
      ProductionCardUseCases.startProduction,
      ProductionCardUseCases.pauseProduction,
      ProductionCardUseCases.resumeProduction,
      ProductionCardUseCases.getCurrentProductionTime,
      ProductionCardUseCases.completeComponent,
      ProductionCardUseCases.completeCard,
      ProductionCardUseCases.cancelCard,
      ProductionCardUseCases.startComponentProduction,
      ProductionCardUseCases.pauseComponentProduction,
      ProductionCardUseCases.resumeComponentProduction,
      ProductionCardUseCases.getComponentProductionTime,
      ProductionCardUseCases.updateComponentMaterials,
      ProductionCardUseCases.addMaterialToComponent,
      ProductionCardUseCases.updateCardPriority.
    repeat split; keeps.
Qed.

End Frames.

(** ** Components *)

Lemma findComponent_cons cid c cs :
  findComponent cid (c :: cs)
  = if bool_decide (ComponentProgress.componentId c = cid) then Some c
    else findComponent cid cs.
Proof. done. Qed.

Lemma updateFirst_found cid f cs c :
  (forall c, ComponentProgress.componentId (f c) = ComponentProgress.componentId c) ->
  findComponent cid cs = Some c ->
  exists cs',
    updateFirst cid f cs = Some cs'
    /\ length cs' = length cs
    /\ findComponent cid cs' = Some (f c)
    /\ (forall other, other <> cid -> findComponent other cs' = findComponent other cs).
Proof.
  intros Hid. induction cs as [|c0 cs IH]; [done|].
  rewrite findComponent_cons. cbn [updateFirst].
  destruct (bool_decide (ComponentProgress.componentId c0 = cid)) eqn:Hc0.
  - intros [= ->]. eexists. split; [done|]. split; [done|].
    apply bool_decide_eq_true in Hc0.
    split.
    + rewrite findComponent_cons, Hid, bool_decide_true by done. done.
    + intros other Hne. rewrite !findComponent_cons, Hid.
      rewrite !bool_decide_false by congruence. done.
  - intros Hfind. destruct (IH Hfind) as (cs' & -> & Hlen & Hf & Hother).
    eexists. split; [done|]. split; [by rewrite !length_cons, Hlen|].
    split.
    + by rewrite findComponent_cons, Hc0.
    + intros other Hne. rewrite !findComponent_cons.
      destruct (bool_decide (ComponentProgress.componentId c0 = other)); [done|].
      by apply Hother.
Qed.

Lemma findComponent_Some cid cs c :
  findComponent cid cs = Some c -> ComponentProgress.componentId c = cid /\ c ∈ cs.
Proof.
  induction cs as [|c0 cs IH]; [done|]. rewrite findComponent_cons.
  destruct (bool_decide _) eqn:H.
  - intros [= ->]. apply bool_decide_eq_true in H. split; [done|]. by left.
  - intros Hf. destruct (IH Hf). split; [done|]. by right.
Qed.

Section Components.
Context {S : Type} {inventoryRepository : IInventoryRepository S}.
Implicit Type w : World S.

Lemma order_completeComponent_run w id doc c cid now :
  orders w !! id = Some doc ->
  activeOrder (ManufacturingOrder.status doc) ->
  findComponent cid (ManufacturingOrder.components doc) = Some c ->
  ComponentProgress.isCompleted c = false ->
  exists e w' cs',
    ManufacturingOrderUseCases.completeComponent id cid now w = (Ok e, w')
    /\ updateFirst cid (ComponentProgress.set_completed now
                          (ComponentProgress.quantityRequired c))
         (ManufacturingOrder.components doc) = Some cs'
    /\ orders w' = <[id := ManufacturingOrder.with_components_at cs' now doc]> (orders w)
    /\ cards w' = cards w /\ inventory w' = inventory w.
Proof.
  intros Hdoc Hst Hfind Hc.
  destruct (updateFirst_found cid
              (ComponentProgress.set_completed now (ComponentProgress.quantityRequired c))
              _ c ltac:(done) Hfind) as (cs' & Hup & _).
  unfold ManufacturingOrderUseCases.completeComponent.
  rewrite (run_bind_Ok _ _ _ _ _ (getOrderById_found _ _ _ Hdoc)). simpl.
  rewrite (activeOrder_guard _ Hst).
  rewrite (run_bind_Ok _ _ _ _ _ (readArray_allocated _ _ _)).
  rewrite Hfind, Hc.
  unfold MongoManufacturingOrderRepository.completeComponent,
    MongoManufacturingOrderRepository.findDocument,
    MongoManufacturingOrderRepository.findOneAndUpdate,
    MongoManufacturingOrderRepository.mapToEntityOrNull,
    MongoManufacturingOrderRepository.mapToEntity, allocArray, bind, ret.
  simpl. rewrite Hdoc, Hfind. simpl. rewrite Hdoc, Hup. simpl.
  eexists _, _, _. split; [reflexivity|]. done.
Qed.

Lemma card_completeComponent_run w id doc c cid now :
  cards w !! id = Some doc ->
  activeCard (ProductionCard.status doc) ->
  findComponent cid (ProductionCard.components doc) = Some c ->
  ComponentProgress.isCompleted c = false ->
  exists e w' cs',
    ProductionCardUseCases.completeComponent id cid now w = (Ok e, w')
    /\ updateFirst cid (ComponentProgress.set_completed now
                          (ComponentProgress.quantityRequired c))
         (ProductionCard.components doc) = Some cs'
    /\ cards w' = <[id := ProductionCard.with_components_at cs' now doc]> (cards w)
    /\ orders w' = orders w /\ inventory w' = inventory w.
Proof.
  intros Hdoc Hst Hfind Hc.
  destruct (updateFirst_found cid
              (ComponentProgress.set_completed now (ComponentProgress.quantityRequired c))
              _ c ltac:(done) Hfind) as (cs' & Hup & _).
  unfold ProductionCardUseCases.completeComponent.
  rewrite (run_bind_Ok _ _ _ _ _ (getCardById_found _ _ _ Hdoc)). simpl.
  rewrite (activeCard_guard _ Hst).
  rewrite (run_bind_Ok _ _ _ _ _ (readArray_allocated _ _ _)).
  rewrite Hfind, Hc.
  unfold MongoProductionCardRepository.completeComponent,
    MongoProductionCardRepository.findDocument,
    MongoProductionCardRepository.findOneAndUpdate,
    MongoProductionCardRepository.mapToEntityOrNull,
    MongoProductionCardRepository.mapToEntity, allocArray, bind, ret.
  simpl. rewrite Hdoc, Hfind. simpl. rewrite Hdoc, Hup. simpl.
  eexists _, _, _. split; [reflexivity|]. done.
Qed.

Lemma order_completeComponent_again w id doc c cid now :
  orders w !! id = Some doc ->
  activeOrder (ManufacturingOrder.status doc) ->
  findComponent cid (ManufacturingOrder.components doc) = Some c ->
  ComponentProgress.isCompleted c = true ->
  exists w',
    ManufacturingOrderUseCases.completeComponent id cid now w
    = (Throw (Rejected AnOrder ComponentAlreadyCompleted), w')
    /\ sameDatabase w w'.
Proof.
  intros Hdoc Hst Hfind Hc.
  unfold ManufacturingOrderUseCases.completeComponent.
  rewrite (run_bind_Ok _ _ _ _ _ (getOrderById_found _ _ _ Hdoc)). simpl.
  rewrite (activeOrder_guard _ Hst).
  rewrite (run_bind_Ok _ _ _ _ _ (readArray_allocated _ _ _)).
  rewrite Hfind, Hc. eexists. split; [reflexivity|done].
Qed.

Lemma card_completeComponent_again w id doc c cid now :
  cards w !! id = Some doc ->
  activeCard (ProductionCard.status doc) ->
  findComponent cid (ProductionCard.components doc) = Some c ->
  ComponentProgress.isCompleted c = true ->
  exists w',
    ProductionCardUseCases.completeComponent id cid now w
    = (Throw (Rejected ACard ComponentAlreadyCompleted), w')
    /\ sameDatabase w w'.
Proof.
  intros Hdoc Hst Hfind Hc.
  unfold ProductionCardUseCases.completeComponent.
  rewrite (run_bind_Ok _ _ _ _ _ (getCardById_found _ _ _ Hdoc)). simpl.
  rewrite (activeCard_guard _ Hst).
  rewrite (run_bind_Ok _ _ _ _ _ (readArray_allocated _ _ _)).
  rewrite Hfind, Hc. eexists. split; [reflexivity|done].
Qed.


(** X4: completing a component of an order, or of a card, that is in
    progress or paused marks that component alone: it is completed now with
    the quantity required, its timer and materials are left as they are, the
    other components, the status and the other collections do not change;
    and the same component cannot be completed a second time. *)
Theorem completeComponent_marks_one_component
    (w : World S) (id componentId : string) (now later : Date) :
  (forall (order : ManufacturingOrderDocument) (c : ComponentProgress.t),
      orders w !! id = Some order ->
      activeOrder (ManufacturingOrder.status order) ->
      findComponent componentId (ManufacturingOrder.components order) = Some c ->
      ComponentProgress.isCompleted c = false ->
      exists e w' order' c',
        ManufacturingOrderUseCases.completeComponent id componentId now w = (Ok e, w')
        /\ orders w' = <[id := order']> (orders w)
        /\ cards w' = cards w /\ inventory w' = inventory w
        /\ ManufacturingOrder.status order' = ManufacturingOrder.status order
        /\ length (ManufacturingOrder.components order')
           = length (ManufacturingOrder.components order)
        /\ findComponent componentId (ManufacturingOrder.components order') = Some c'
        /\ ComponentProgress.isCompleted c' = true
        /\ ComponentProgress.quantityCompleted c' = ComponentProgress.quantityRequired c
        /\ ComponentProgress.completedAt c' = Some now
        /\ ComponentProgress.timeTracker c' = ComponentProgress.timeTracker c
        /\ ComponentProgress.materialUsage c' = ComponentProgress.materialUsage c
        /\ (forall other, other <> componentId ->
              findComponent other (ManufacturingOrder.components order')
              = findComponent other (ManufacturingOrder.components order))
        /\ exists w'',
             ManufacturingOrderUseCases.completeComponent id componentId later w'
             = (Throw (Rejected AnOrder ComponentAlreadyCompleted), w'')
             /\ sameDatabase w' w'')
  /\ (forall (card : ProductionCardDocument) (c : ComponentProgress.t),
      cards w !! id = Some card ->
      activeCard (ProductionCard.status card) ->
      findComponent componentId (ProductionCard.components card) = Some c ->
      ComponentProgress.isCompleted c = false ->
      exists e w' card' c',
        ProductionCardUseCases.completeComponent id componentId now w = (Ok e, w')
        /\ cards w' = <[id := card']> (cards w)
        /\ orders w' = orders w /\ inventory w' = inventory w
        /\ ProductionCard.status card' = ProductionCard.status card
        /\ length (ProductionCard.components card')
           = length (ProductionCard.components card)
        /\ findComponent componentId (ProductionCard.components card') = Some c'
        /\ ComponentProgress.isCompleted c' = true
        /\ ComponentProgress.quantityCompleted c' = ComponentProgress.quantityRequired c
        /\ ComponentProgress.completedAt c' = Some now
        /\ ComponentProgress.timeTracker c' = ComponentProgress.timeTracker c
        /\ ComponentProgress.materialUsage c' = ComponentProgress.materialUsage c
        /\ (forall other, other <> componentId ->
              findComponent other (ProductionCard.components card')
              = findComponent other (ProductionCard.components card))
        /\ exists w'',
             ProductionCardUseCases.completeComponent id componentId later w'
             = (Throw (Rejected ACard ComponentAlreadyCompleted), w'')
             /\ sameDatabase w' w'').
Proof.
  split.
  - intros order c Hdoc Hst Hfind Hc.
    destruct (order_completeComponent_run w id order c componentId now Hdoc Hst Hfind Hc)
      as (e & w' & cs' & Hrun & Hup & Ho & Hcards & Hinv).
    destruct (updateFirst_found componentId
                (ComponentProgress.set_completed now (ComponentProgress.quantityRequired c))
                _ c ltac:(done) Hfind) as (cs'' & Hup' & Hlen & Hf & Hother).
    rewrite Hup in Hup'. injection Hup' as <-.
    exists e, w', (ManufacturingOrder.with_components_at cs' now order),
      (ComponentProgress.set_completed now (ComponentProgress.quantityRequired c) c).
    do 12 (split; [done|]). split; [done|].
    eapply order_completeComponent_again; [by rewrite Ho, lookup_insert_eq|done|done|done].
  - intros card c Hdoc Hst Hfind Hc.
    destruct (card_completeComponent_run w id card c componentId now Hdoc Hst Hfind Hc)
      as (e & w' & cs' & Hrun & Hup & Ho & Hcards & Hinv).
    destruct (updateFirst_found componentId
                (ComponentProgress.set_completed now (ComponentProgress.quantityRequired c))
                _ c ltac:(done) Hfind) as (cs'' & Hup' & Hlen & Hf & Hother).
    rewrite Hup in Hup'. injection Hup' as <-.
    exists e, w', (ProductionCard.with_components_at cs' now card),
      (ComponentProgress.set_completed now (ComponentProgress.quantityRequired c) c).
    do 12 (split; [done|]). split; [done|].
    eapply card_completeComponent_again; [by rewrite Ho, lookup_insert_eq|done|done|done].
Qed.

(** *** The timers of the components *)

Lemma order_componentUpdate_run w id doc cid f c now :
  orders w !! id = Some doc ->
  findComponent cid (ManufacturingOrder.components doc) = Some c ->
  (forall c, ComponentProgress.componentId (f c) = ComponentProgress.componentId c) ->
  exists e w' cs',
    (order <- MongoManufacturingOrderRepository.findOneAndUpdate id cid f now ;;
     MongoManufacturingOrderRepository.mapToEntityOrNull order) w = (Ok (Some e), w')
    /\ updateFirst cid f (ManufacturingOrder.components doc) = Some cs'
    /\ findComponent cid cs' = Some (f c)
    /\ orders w' = <[id := ManufacturingOrder.with_components_at cs' now doc]> (orders w)
    /\ cards w' = cards w /\ inventory w' = inventory w.
Proof.
  intros Hdoc Hfind Hid.
  destruct (updateFirst_found cid f _ c Hid Hfind) as (cs' & Hup & _ & Hf & _).
  unfold MongoManufacturingOrderRepository.findOneAndUpdate,
    MongoManufacturingOrderRepository.mapToEntityOrNull,
    MongoManufacturingOrderRepository.mapToEntity, allocArray, bind, ret.
  rewrite Hdoc, Hup. simpl. eexists _, _, _. split; [reflexivity|]. done.
Qed.

Lemma card_componentUpdate_run w id doc cid f c now :
  cards w !! id = Some doc ->
  findComponent cid (ProductionCard.components doc) = Some c ->
  (forall c, ComponentProgress.componentId (f c) = ComponentProgress.componentId c) ->
  exists e w' cs',
    (card <- MongoProductionCardRepository.findOneAndUpdate id cid f now ;;
     MongoProductionCardRepository.mapToEntityOrNull card) w = (Ok (Some e), w')
    /\ updateFirst cid f (ProductionCard.components doc) = Some cs'
    /\ findComponent cid cs' = Some (f c)
    /\ cards w' = <[id := ProductionCard.with_components_at cs' now doc]> (cards w)
    /\ orders w' = orders w /\ inventory w' = inventory w.
Proof.
  intros Hdoc Hfind Hid.
  destruct (updateFirst_found cid f _ c Hid Hfind) as (cs' & Hup & _ & Hf & _).
  unfold MongoProductionCardRepository.findOneAndUpdate,
    MongoProductionCardRepository.mapToEntityOrNull,
    MongoProductionCardRepository.mapToEntity, allocArray, bind, ret.
  rewrite Hdoc, Hup. simpl. eexists _, _, _. split; [reflexivity|]. done.
Qed.

Lemma order_pauseComponent_run w id doc cid c tracker now :
  orders w !! id = Some doc ->
  findComponent cid (ManufacturingOrder.components doc) = Some c ->
  ComponentProgress.timeTracker c = Some tracker ->
  isPaused tracker = false ->
  exists e w',
    ManufacturingOrderUseCases.pauseComponentProduction id cid now w = (Ok e, w')
    /\ orderComponentTracker w' id cid = Some (tt_set_paused now tracker)
    /\ ManufacturingOrder.status <$> orders w' !! id = Some (ManufacturingOrder.status doc)
    /\ cards w' = cards w /\ inventory w' = inventory w.
Proof.
  intros Hdoc Hfind Htr Hp.
  unfold ManufacturingOrderUseCases.pauseComponentProduction.
  rewrite (run_bind_Ok _ _ _ _ _ (getOrderById_found _ _ _ Hdoc)). simpl.
  rewrite (run_bind_Ok _ _ _ _ _ (readArray_allocated _ _ _)).
  rewrite Hfind, Htr, Hp.
  unfold MongoManufacturingOrderRepository.pauseComponentProduction.
  match goal with |- context [bind (bind ?m ?k) _ ?w1] =>
    destruct (order_componentUpdate_run w1 id doc cid
                (fun c => ComponentProgress.set_timeTracker
                            (set_tracker_paused now (ComponentProgress.timeTracker c)) c)
                c now Hdoc Hfind ltac:(done))
      as (e & w' & cs' & Hrun & Hup & Hf & Ho & Hc & Hi)
  end.
  rewrite (run_bind_Ok _ _ _ _ _ Hrun). exists e, w'. split; [done|].
  unfold orderComponentTracker, componentTracker.
  rewrite Ho, lookup_insert_eq. simpl. rewrite Hf. simpl. rewrite Htr. done.
Qed.

Lemma order_repo_resumeComponent w id doc cid c tracker pausedAt now :
  orders w !! id = Some doc ->
  findComponent cid (ManufacturingOrder.components doc) = Some c ->
  ComponentProgress.timeTracker c = Some tracker ->
  pauseStartTime tracker = Some pausedAt ->
  exists e w',
    MongoManufacturingOrderRepository.resumeComponentProduction id cid now w
    = (Ok (Some e), w')
    /\ orderComponentTracker w' id cid
       = Some (tt_set_resumed (totalPauseMinutes tracker + round_minutes (now - pausedAt))
                 tracker)
    /\ ManufacturingOrder.status <$> orders w' !! id = Some (ManufacturingOrder.status doc)
    /\ cards w' = cards w /\ inventory w' = inventory w.
Proof.
  intros Hdoc Hfind Htr Hps.
  unfold MongoManufacturingOrderRepository.resumeComponentProduction,
    MongoManufacturingOrderRepository.findDocument.
  unfold bind at 1. cbv beta. rewrite Hdoc. cbv beta iota. rewrite Hfind, Htr, Hps.
  destruct (order_componentUpdate_run w id doc cid
              (fun c => ComponentProgress.set_timeTracker
                          (set_tracker_resumed
                             (totalPauseMinutes tracker + round_minutes (now - pausedAt))
                             (ComponentProgress.timeTracker c)) c)
              c now Hdoc Hfind ltac:(done))
    as (e & w' & cs' & Hrun & Hup & Hf & Ho & Hc & Hi).
  exists e, w'. split; [exact Hrun|].
  unfold orderComponentTracker, componentTracker.
  rewrite Ho, lookup_insert_eq. simpl. rewrite Hf. simpl. rewrite Htr. done.
Qed.

Lemma order_resumeComponent_run w id doc cid c tracker pausedAt now :
  orders w !! id = Some doc ->
  findComponent cid (ManufacturingOrder.components doc) = Some c ->
  ComponentProgress.timeTracker c = Some tracker ->
  isPaused tracker = true ->
  pauseStartTime tracker = Some pausedAt ->
  exists e w',
    ManufacturingOrderUseCases.resumeComponentProduction id cid now w = (Ok e, w')
    /\ orderComponentTracker w' id cid
       = Some (tt_set_resumed (totalPauseMinutes tracker + round_minutes (now - pausedAt))
                 tracker)
    /\ ManufacturingOrder.status <$> orders w' !! id = Some (ManufacturingOrder.status doc)
    /\ cards w' = cards w /\ inventory w' = inventory w.
Proof.
  intros Hdoc Hfind Htr Hp Hps.
  unfold ManufacturingOrderUseCases.resumeComponentProduction.
  rewrite (run_bind_Ok _ _ _ _ _ (getOrderById_found _ _ _ Hdoc)). simpl.
  rewrite (run_bind_Ok _ _ _ _ _ (readArray_allocated _ _ _)).
  rewrite Hfind, Htr, Hp. simpl.
  match goal with |- context [bind _ _ ?w1] =>
    destruct (order_repo_resumeComponent w1 id doc cid c tracker pausedAt now
                Hdoc Hfind Htr Hps) as (e & w' & Hrun & Ht & Hs & Hc & Hi)
  end.
  rewrite (run_bind_Ok _ _ _ _ _ Hrun). exists e, w'. done.
Qed.

Lemma card_pauseComponent_run w id doc cid c tracker now :
  cards w !! id = Some doc ->
  findComponent cid (ProductionCard.components doc) = Some c ->
  ComponentProgress.timeTracker c = Some tracker ->
  exists e w',
    ProductionCardUseCases.pauseComponentProduction id cid now w = (Ok e, w')
    /\ cardComponentTracker w' id cid = Some (tt_set_paused now tracker)
    /\ ProductionCard.status <$> cards w' !! id = Some (ProductionCard.status doc)
    /\ orders w' = orders w /\ inventory w' = inventory w.
Proof.
  intros Hdoc Hfind Htr.
  unfold ProductionCardUseCases.pauseComponentProduction.
  unfold MongoProductionCardRepository.pauseComponentProduction.
  destruct (card_componentUpdate_run w id doc cid
              (fun c => ComponentProgress.set_timeTracker
                          (set_tracker_paused now (ComponentProgress.timeTracker c)) c)
              c now Hdoc Hfind ltac:(done))
    as (e & w' & cs' & Hrun & Hup & Hf & Ho & Hc & Hi).
  rewrite (run_bind_Ok _ _ _ _ _ Hrun). exists e, w'. split; [done|].
  unfold cardComponentTracker, componentTracker.
  rewrite Ho, lookup_insert_eq. simpl. rewrite Hf. simpl. rewrite Htr. done.
Qed.

Lemma card_resumeComponent_run w id doc cid c tracker pausedAt now :
  cards w !! id = Some doc ->
  findComponent cid (ProductionCard.components doc) = Some c ->
  ComponentProgress.timeTracker c = Some tracker ->
  pauseStartTime tracker = Some pausedAt ->
  exists e w',
    ProductionCardUseCases.resumeComponentProduction id cid now w = (Ok e, w')
    /\ cardComponentTracker w' id cid
       = Some (tt_set_resumed (totalPauseMinutes tracker + round_minutes (now - pausedAt))
                 tracker)
    /\ ProductionCard.status <$> cards w' !! id = Some (ProductionCard.status doc)
    /\ orders w' = orders w /\ inventory w' = inventory w.
Proof.
  intros Hdoc Hfind Htr Hps.
  unfold ProductionCardUseCases.resumeComponentProduction.
  assert (Hrepo : exists e w',
             MongoProductionCardRepository.resumeComponentProduction id cid now w
             = (Ok (Some e), w')
             /\ cardComponentTracker w' id cid
                = Some (tt_set_resumed
                          (totalPauseMinutes tracker + round_minutes (now - pausedAt))
                          tracker)
             /\ ProductionCard.status <$> cards w' !! id = Some (ProductionCard.status doc)
             /\ orders w' = orders w /\ inventory w' = inventory w).
  { unfold MongoProductionCardRepository.resumeComponentProduction,
      MongoProductionCardRepository.findDocument.
    unfold bind at 1. cbv beta. rewrite Hdoc. cbv beta iota. rewrite Hfind, Htr, Hps.
    destruct (card_componentUpdate_run w id doc cid
                (fun c => ComponentProgress.set_timeTracker
                            (set_tracker_resumed
                               (totalPauseMinutes tracker + round_minutes (now - pausedAt))
                               (ComponentProgress.timeTracker c)) c)
                c now Hdoc Hfind ltac:(done))
      as (e & w' & cs' & Hrun & Hup & Hf & Ho & Hc & Hi).
    exists e, w'. split; [exact Hrun|].
    unfold cardComponentTracker, componentTracker.
    rewrite Ho, lookup_insert_eq. simpl. rewrite Hf. simpl. rewrite Htr. done. }
  destruct Hrepo as (e & w' & Hrun & Hrest).
  rewrite (run_bind_Ok _ _ _ _ _ Hrun). exists e, w'. done.
Qed.

End Components.

Section Components2.
Context {S : Type} {inventoryRepository : IInventoryRepository S}.
Implicit Type w : World S.

Lemma orderComponentTracker_inv w id cid tracker :
  orderComponentTracker w id cid = Some tracker ->
  exists doc c,
    orders w !! id = Some doc
    /\ findComponent cid (ManufacturingOrder.components doc) = Some c
    /\ ComponentProgress.timeTracker c = Some tracker.
Proof.
  unfold orderComponentTracker, componentTracker.
  destruct (orders w !! id) as [doc|]; [|done].
  destruct (findComponent cid _) as [c|] eqn:Hf; [|done].
  intros Ht. by exists doc, c.
Qed.

Lemma cardComponentTracker_inv w id cid tracker :
  cardComponentTracker w id cid = Some tracker ->
  exists doc c,
    cards w !! id = Some doc
    /\ findComponent cid (ProductionCard.components doc) = Some c
    /\ ComponentProgress.timeTracker c = Some tracker.
Proof.
  unfold cardComponentTracker, componentTracker.
  destruct (cards w !! id) as [doc|]; [|done].
  destruct (findComponent cid _) as [c|] eqn:Hf; [|done].
  intros Ht. by exists doc, c.
Qed.

(** X5: the timer of a component accumulates its pauses like the timer of
    an order: a running timer paused at [pausedAt] and resumed at
    [resumedAt] runs again, with [round((resumedAt - pausedAt) / 60000)]
    minutes added to its pauses and the same start; this holds for the
    components of an order and for those of a card, and touches nothing
    else. *)
Theorem component_timer_pause_resume
    (w : World S) (id componentId : string) (pausedAt resumedAt : Date)
    (tracker : TimeTracker) :
  isPaused tracker = false ->
  let tracker' :=
    tt_set_resumed (totalPauseMinutes tracker + round_minutes (resumedAt - pausedAt))
      tracker in
  (orderComponentTracker w id componentId = Some tracker ->
   exists e1 w1 e2 w2,
     ManufacturingOrderUseCases.pauseComponentProduction id componentId pausedAt w
     = (Ok e1, w1)
     /\ orderComponentTracker w1 id componentId = Some (tt_set_paused pausedAt tracker)
     /\ ManufacturingOrderUseCases.resumeComponentProduction id componentId resumedAt w1
        = (Ok e2, w2)
     /\ orderComponentTracker w2 id componentId = Some tracker'
     /\ cards w2 = cards w /\ inventory w2 = inventory w)
  /\ (cardComponentTracker w id componentId = Some tracker ->
      exists e1 w1 e2 w2,
        ProductionCardUseCases.pauseComponentProduction id componentId pausedAt w
        = (Ok e1, w1)
        /\ cardComponentTracker w1 id componentId = Some (tt_set_paused pausedAt tracker)
        /\ ProductionCardUseCases.resumeComponentProduction id componentId resumedAt w1
           = (Ok e2, w2)
        /\ cardComponentTracker w2 id componentId = Some tracker'
        /\ orders w2 = orders w /\ inventory w2 = inventory w)
  /\ isPaused tracker' = false
  /\ pauseStartTime tracker' = None
  /\ startTime tracker' = startTime tracker
  /\ totalPauseMinutes tracker'
     = totalPauseMinutes tracker + round_minutes (resumedAt - pausedAt).
Proof.
  intros Hp tracker'. split; [|split; [|done]].
  - intros Htr. destruct (orderComponentTracker_inv _ _ _ _ Htr) as (doc & c & Hdoc & Hf & Ht).
    destruct (order_pauseComponent_run w id doc componentId c tracker pausedAt Hdoc Hf Ht Hp)
      as (e1 & w1 & Hrun1 & Htr1 & _ & Hc1 & Hi1).
    destruct (orderComponentTracker_inv _ _ _ _ Htr1) as (doc1 & c1 & Hdoc1 & Hf1 & Ht1).
    destruct (order_resumeComponent_run w1 id doc1 componentId c1 _ pausedAt resumedAt
                Hdoc1 Hf1 Ht1 eq_refl eq_refl)
      as (e2 & w2 & Hrun2 & Htr2 & _ & Hc2 & Hi2).
    exists e1, w1, e2, w2. repeat split; try done; congruence.
  - intros Htr. destruct (cardComponentTracker_inv _ _ _ _ Htr) as (doc & c & Hdoc & Hf & Ht).
    destruct (card_pauseComponent_run w id doc componentId c tracker pausedAt Hdoc Hf Ht)
      as (e1 & w1 & Hrun1 & Htr1 & _ & Hc1 & Hi1).
    destruct (cardComponentTracker_inv _ _ _ _ Htr1) as (doc1 & c1 & Hdoc1 & Hf1 & Ht1).
    destruct (card_resumeComponent_run w1 id doc1 componentId c1 _ pausedAt resumedAt
                Hdoc1 Hf1 Ht1 eq_refl)
      as (e2 & w2 & Hrun2 & Htr2 & _ & Hc2 & Hi2).
    exists e1, w1, e2, w2. repeat split; try done; congruence.
Qed.

(** X6: on an order that is neither completed nor cancelled, [updateOrder]
    stores the quantity and the due date that it is given and changes
    nothing that follows from them: the estimated hours are not computed
    again for the new quantity and no production card is added, removed or
    changed; the status, the components and the timer stay as they are. *)
Theorem updateOrder_changes_no_derived_data
    (w : World S) (id : string) (updates : UpdateManufacturingOrderRequest.t)
    (now : Date) (order : ManufacturingOrderDocument) :
  orders w !! id = Some order ->
  ~ terminalOrder (ManufacturingOrder.status order) ->
  exists e w' order',
    ManufacturingOrderUseCases.updateOrder id updates now w = (Ok e, w')
    /\ orders w' = <[id := order']> (orders w)
    /\ cards w' = cards w
    /\ inventory w' = inventory w
    /\ ManufacturingOrder.quantity order'
       = default (ManufacturingOrder.quantity order)
           (UpdateManufacturingOrderRequest.quantity updates)
    /\ ManufacturingOrder.dueDate order'
       = default (ManufacturingOrder.dueDate order)
           (UpdateManufacturingOrderRequest.dueDate updates)
    /\ ManufacturingOrder.estimatedHours order' = ManufacturingOrder.estimatedHours order
    /\ ManufacturingOrder.status order' = ManufacturingOrder.status order
    /\ ManufacturingOrder.components order' = ManufacturingOrder.components order
    /\ ManufacturingOrder.timeTracker order' = ManufacturingOrder.timeTracker order
    /\ ManufacturingOrder.quantity e = ManufacturingOrder.quantity order'
    /\ ManufacturingOrder.estimatedHours e = ManufacturingOrder.estimatedHours order.
Proof.
  intros Hdoc Hst. unfold ManufacturingOrderUseCases.updateOrder.
  rewrite (run_bind_Ok _ _ _ _ _ (getOrderById_found _ _ _ Hdoc)). simpl.
  rewrite !bool_decide_false by (intros H; apply Hst; first [by left | by right]).
  unfold MongoManufacturingOrderRepository.update,
    MongoManufacturingOrderRepository.findByIdAndUpdate,
    MongoManufacturingOrderRepository.mapToEntityOrNull,
    MongoManufacturingOrderRepository.mapToEntity, allocArray, bind, ret.
  simpl. rewrite Hdoc. simpl.
  eexists _, _, _. split; [reflexivity|]. done.
Qed.

Lemma duplicateKey_false doc (stored : gmap string ProductionCardDocument) k d :
  MongoProductionCardRepository.duplicateKey doc stored = false ->
  stored !! k = Some d ->
  ProductionCard.orderId d = ProductionCard.orderId doc ->
  ProductionCard.cardNumber d <> ProductionCard.cardNumber doc.
Proof.
  unfold MongoProductionCardRepository.duplicateKey. intros Hdup Hk Ho Hn.
  assert (Hex : existsb
            (fun kd : string * ProductionCardDocument =>
               bool_decide (ProductionCard.orderId kd.2 = ProductionCard.orderId doc)
               && (ProductionCard.cardNumber kd.2 =? ProductionCard.cardNumber doc))
            (map_to_list stored) = true); [|congruence].
  apply existsb_exists. exists (k, d). split.
  - apply list_elem_of_In, elem_of_map_to_list. done.
  - simpl. rewrite bool_decide_true by done. by apply Z.eqb_eq.
Qed.

Lemma duplicateKey_true doc (stored : gmap string ProductionCardDocument) k d :
  stored !! k = Some d ->
  ProductionCard.orderId d = ProductionCard.orderId doc ->
  ProductionCard.cardNumber d = ProductionCard.cardNumber doc ->
  MongoProductionCardRepository.duplicateKey doc stored = true.
Proof.
  intros Hk Ho Hn. destruct (MongoProductionCardRepository.duplicateKey doc stored) eqn:H;
    [done|]. by destruct (duplicateKey_false doc stored k d H Hk Ho).
Qed.

(** X7: the numbers of the cards of an order stay unique.  A request to
    create a card with the order and the number of a stored card is
    rejected, and nothing is stored -- the unique index answers with a
    duplicate key error when the request is otherwise valid --; and
    [createProductionCard] keeps the property that no two stored cards have
    the same order and number. *)
Theorem createProductionCard_keeps_numbers_unique
    (w : World S) (request : CreateProductionCardRequest.t) (now : Date) :
  (forall k card,
      cards w !! k = Some card ->
      ProductionCard.orderId card = CreateProductionCardRequest.orderId request ->
      ProductionCard.cardNumber card = CreateProductionCardRequest.cardNumber request ->
      exists e w',
        ProductionCardUseCases.createProductionCard request now w = (Throw e, w')
        /\ (e = DuplicateKey \/ e = ValidationFailed \/ e = TypeError)
        /\ cards w' = cards w /\ orders w' = orders w /\ inventory w' = inventory w)
  /\ (uniqueCardNumbers (cards w) ->
      uniqueCardNumbers
        (cards (snd (ProductionCardUseCases.createProductionCard request now w)))).
Proof.
  unfold ProductionCardUseCases.createProductionCard, jsonClone,
    MongoProductionCardRepository.create.
  split.
  - intros k card Hk Ho Hn. unfold bind at 1. unfold bind at 1.
    unfold readArray at 1.
    destruct (heap w !! CreateProductionCardRequest.components request) as [cs|];
      [|eexists _, _; split; [reflexivity|]; auto].
    unfold allocArray. cbv beta iota.
    rewrite (run_bind_Ok _ _ _ _ _ (readArray_allocated _ _ _)).
    cbv beta zeta.
    match goal with |- context [negb ?v] => destruct v end; cbn [negb];
      [|eexists _, _; split; [reflexivity|]; auto].
    erewrite duplicateKey_true; [eexists _, _; split; [reflexivity|]; auto | exact Hk | done | done].
  - intros Huniq. unfold bind at 1. unfold bind at 1. unfold readArray at 1.
    destruct (heap w !! CreateProductionCardRequest.components request) as [cs|];
      [|done].
    unfold allocArray. cbv beta iota.
    rewrite (run_bind_Ok _ _ _ _ _ (readArray_allocated _ _ _)).
    cbv beta zeta.
    match goal with |- context [negb ?v] => destruct v end; cbn [negb]; [|done].
    match goal with |- context [MongoProductionCardRepository.duplicateKey ?d ?s] =>
      destruct (MongoProductionCardRepository.duplicateKey d s) eqn:Hdup end; [done|].
    unfold MongoProductionCardRepository.mapToEntity, allocArray, bind, ret. simpl.
    assert (Hfresh : cards w !! fresh (dom (cards w)) = None)
      by (apply not_elem_of_dom, is_fresh).
    intros k1 k2 d1 d2 H1 H2 Ho Hn.
    destruct (decide (k1 = fresh (dom (cards w)))) as [->|Hk1];
      destruct (decide (k2 = fresh (dom (cards w)))) as [->|Hk2]; [done|..].
    + rewrite lookup_insert_eq in H1. rewrite lookup_insert_ne in H2 by done.
      injection H1 as <-.
      by destruct (duplicateKey_false _ _ _ _ Hdup H2).
    + rewrite lookup_insert_eq in H2. rewrite lookup_insert_ne in H1 by done.
      injection H2 as <-.
      by destruct (duplicateKey_false _ _ _ _ Hdup H1).
    + rewrite lookup_insert_ne in H1, H2 by done. by eapply Huniq.
Qed.

End Components2.

(** ** The components and the refusals of a new order *)

Section MongoCreation.
Implicit Type w : World (gmap string InventoryItem.t).

Lemma set_heap_id {S} (w : World S) : set_heap (heap w) w = w.
Proof. by destruct w. Qed.

Lemma mongo_findById_run id w :
  callInventory (findById id) w = (Ok (inventory w !! id), w).
Proof. unfold callInventory. simpl. by destruct w. Qed.

Lemma mongo_resolveComponent_run r componentId w cs :
  heap w !! r = Some cs ->
  ManufacturingOrderUseCases.resolveComponent r componentId w
  = (Ok tt, set_heap (<[r := cs ++ resolvedComponents (inventory w) [componentId]]>
                        (heap w)) w).
Proof.
  intros Hcs. unfold ManufacturingOrderUseCases.resolveComponent.
  rewrite (run_bind_Ok _ _ _ _ _ (mongo_findById_run _ _)).
  unfold resolvedComponents. simpl.
  destruct (inventory w !! componentId) as [item|]; simpl.
  - unfold pushArray. by rewrite Hcs.
  - by rewrite app_nil_r, insert_id, set_heap_id.
Qed.

Lemma mongo_forEach_resolve_run r ids : forall w cs,
  heap w !! r = Some cs ->
  forEach ids (ManufacturingOrderUseCases.resolveComponent r) w
  = (Ok tt, set_heap (<[r := cs ++ resolvedComponents (inventory w) ids]> (heap w)) w).
Proof.
  induction ids as [|i ids IH]; intros w cs Hcs.
  - simpl. unfold resolvedComponents. simpl.
    by rewrite app_nil_r, insert_id, set_heap_id.
  - cbn [forEach].
    rewrite (run_bind_Ok _ _ _ _ _ (mongo_resolveComponent_run _ _ _ _ Hcs)).
    rewrite (IH _ (cs ++ resolvedComponents (inventory w) [i]))
      by (simpl; apply lookup_insert_eq).
    simpl. rewrite insert_insert_eq. unfold set_heap. simpl.
    do 3 f_equal. rewrite <- app_assoc. f_equal.
    unfold resolvedComponents. simpl. by destruct (inventory w !! i).
Qed.

(** The resolution of the components in [createManufacturingOrder]: the
    two loops, on the array [r] just allocated. *)
Lemma mongo_resolution_run request model r w :
  heap w !! r = Some [] ->
  (match CreateManufacturingOrderRequest.componentIds request with
   | _ :: _ =>
       forEach (CreateManufacturingOrderRequest.componentIds request)
         (ManufacturingOrderUseCases.resolveComponent r)
   | [] =>
       match InventoryItem.components model with
       | _ :: _ =>
           forEach (InventoryItem.components model)
             (ManufacturingOrderUseCases.resolveComponent r)
       | [] => ret tt
       end
   end) w
  = (Ok tt, set_heap (<[r := resolvedComponents (inventory w)
                                (requestedComponents request model)]> (heap w)) w).
Proof.
  intros H1. unfold requestedComponents.
  assert (Hnil : (ret tt : M _ unit) w
                 = (Ok tt, set_heap (<[r := resolvedComponents (inventory w) []]> (heap w)) w)).
  { unfold ret, resolvedComponents. simpl. by rewrite insert_id, set_heap_id. }
  destruct (CreateManufacturingOrderRequest.componentIds request) as [|i ids];
    [|by rewrite (mongo_forEach_resolve_run _ _ _ _ H1)].
  destruct (InventoryItem.components model) as [|i ids];
    [done | by rewrite (mongo_forEach_resolve_run _ _ _ _ H1)].
Qed.

(** X8: the components of a new order.  The identifiers resolved are those
    of the request or, when it gives none, those listed by the model; each
    one that the inventory knows gives a component, in the order given and
    as often as it is given, whatever the type of the item; an identifier
    that the inventory does not know is left out without an error.  The
    order and every one of its cards are stored with exactly these
    components. *)
Theorem createManufacturingOrder_resolves_components
    (request : CreateManufacturingOrderRequest.t) (now : Date)
    (w w' : World (gmap string InventoryItem.t)) (result : CreateResult.t)
    (model : InventoryItem.t) :
  ManufacturingOrderUseCases.createManufacturingOrder request now w = (Ok result, w') ->
  inventory w !! CreateManufacturingOrderRequest.modelId request = Some model ->
  let resolved :=
    resolvedComponents (inventory w) (requestedComponents request model) in
  orders w' !! ManufacturingOrder.id (CreateResult.order result)
  = Some (ManufacturingOrder.with_components resolved (CreateResult.order result))
  /\ Forall (fun card =>
               cards w' !! ProductionCard.id card
               = Some (ProductionCard.with_components resolved card))
            (CreateResult.cards result)
  /\ (length resolved <= length (requestedComponents request model))%nat
  /\ Forall (fun c => exists id item,
               id ∈ requestedComponents request model
               /\ inventory w !! id = Some item /\ c = componentOf item) resolved.
Proof.
  intros Hrun Hmodel resolved.
  unfold ManufacturingOrderUseCases.createManufacturingOrder in Hrun.
  rewrite (run_bind_Ok _ _ _ _ _ (mongo_findById_run _ _)), Hmodel in Hrun.
  destruct (bool_decide (InventoryItem.canManufacture model = Some false)); [discriminate|].
  destruct (negb (bool_decide (InventoryItem.type model = MODEL))); [discriminate|].
  apply bind_Ok_inv in Hrun as (r0 & wB & Halloc & Hrun).
  apply allocArray_inv in Halloc as [Hr0 ->].
  rewrite (run_bind_Ok _ _ _ _ _
             (mongo_resolution_run request model r0 _ (lookup_insert_eq _ _ _))) in Hrun.
  simpl in Hrun. rewrite insert_insert_eq in Hrun. fold resolved in Hrun.
  apply bind_Ok_inv in Hrun as (order0 & wD & Hcreate & Hrun).
  apply order_create_inv in Hcreate
    as (cs & Hcs & Hr1 & HhD & Hid & HoD & HcD & _).
  simpl in Hcs, HhD, Hr1. rewrite lookup_insert_eq in Hcs. injection Hcs as <-.
  apply bind_Ok_inv in Hrun as (requests & wE & Hreqs & Hrun).
  assert (Hr0D : heap wD !! r0 = Some resolved).
  { rewrite HhD. rewrite lookup_insert_ne; [apply lookup_insert_eq|].
    intros <-. by rewrite lookup_insert_eq in Hr1. }
  apply (cardRequests_inv r0 _ resolved) in Hreqs as (Hall & HhE & HoE & HcE);
    [|exact Hr0D].
  apply bind_Ok_inv in Hrun as (es & wF & Hmulti & Hrun).
  injection Hrun as <- <-.
  assert (HreqsE : Forall (fun request0 =>
             heap wE !! CreateProductionCardRequest.components request0 = Some resolved)
             requests).
  { clear -Hall. induction Hall as [|i rq l l' (r & -> & Hr) _ IH]; constructor; done. }
  destruct (createMultipleProductionCards_inv _ _ _ _ _ _ Hmulti HreqsE)
    as (_ & Hes & _ & _ & _ & HoF).
  simpl. split. { rewrite HoF, HoE, HoD. apply lookup_insert_eq. }
  split. { eapply Forall_impl; [exact Hes|]. by intros e (_ & _ & ?). }
  subst resolved. unfold resolvedComponents.
  generalize (requestedComponents request model) as ids. intros ids. split.
  - induction ids as [|i ids IH]; [done|]. cbn [omap list_omap length].
    destruct (inventory w !! i); cbn [fmap option_fmap option_map length]; lia.
  - apply Forall_forall. intros c Hc. apply list_elem_of_omap in Hc as (i & Hi & Hc).
    destruct (inventory w !! i) as [item|] eqn:Hitem; [|done].
    injection Hc as <-. by exists i, item.
Qed.

(** X9: what [createManufacturingOrder] refuses before it stores anything:
    a model that the inventory does not know, an item marked as not to be
    manufactured, an item that is not a model (in this order), and, by the
    validators of the order, a quantity below 1 or a client name that is
    blank once trimmed.  In each case the three collections are left as they
    were. *)
Theorem createManufacturingOrder_rejections
    (request : CreateManufacturingOrderRequest.t) (now : Date)
    (w : World (gmap string InventoryItem.t)) :
  let run := ManufacturingOrderUseCases.createManufacturingOrder request now w in
  let modelId := CreateManufacturingOrderRequest.modelId request in
  (inventory w !! modelId = None ->
   fst run = Throw (Rejected AnOrder ModelNotFound) /\ sameDatabase w (snd run))
  /\ (forall model, inventory w !! modelId = Some model ->
      InventoryItem.canManufacture model = Some false ->
      fst run = Throw (Rejected AnOrder ModelNotManufacturable)
      /\ sameDatabase w (snd run))
  /\ (forall model, inventory w !! modelId = Some model ->
      InventoryItem.canManufacture model <> Some false ->
      InventoryItem.type model <> MODEL ->
      fst run = Throw (Rejected AnOrder NotAModel) /\ sameDatabase w (snd run))
  /\ (forall model, inventory w !! modelId = Some model ->
      InventoryItem.canManufacture model <> Some false ->
      InventoryItem.type model = MODEL ->
      CreateManufacturingOrderRequest.quantity request < 1
      \/ trim (CreateManufacturingOrderRequest.clientName request) = "" ->
      fst run = Throw ValidationFailed /\ sameDatabase w (snd run))
  /\ error_kind (Rejected AnOrder ModelNotFound) = NotFound
  /\ error_kind (Rejected AnOrder ModelNotManufacturable) = InvalidState
  /\ error_kind (Rejected AnOrder NotAModel) = InvalidState
  /\ error_kind ValidationFailed = ValidationError.
Proof.
  intros run modelId.
  assert (Hcases :
    (inventory w !! modelId = None ->
     exists w1, run = (Throw (Rejected AnOrder ModelNotFound), w1) /\ sameDatabase w w1)
    /\ (forall model, inventory w !! modelId = Some model ->
        InventoryItem.canManufacture model = Some false ->
        exists w1, run = (Throw (Rejected AnOrder ModelNotManufacturable), w1)
                   /\ sameDatabase w w1)
    /\ (forall model, inventory w !! modelId = Some model ->
        InventoryItem.canManufacture model <> Some false ->
        InventoryItem.type model <> MODEL ->
        exists w1, run = (Throw (Rejected AnOrder NotAModel), w1) /\ sameDatabase w w1)
    /\ (forall model, inventory w !! modelId = Some model ->
        InventoryItem.canManufacture model <> Some false ->
        InventoryItem.type model = MODEL ->
        CreateManufacturingOrderRequest.quantity request < 1
        \/ trim (CreateManufacturingOrderRequest.clientName request) = "" ->
        exists w1, run = (Throw ValidationFailed, w1) /\ sameDatabase w w1)).
  { subst run modelId.
    unfold ManufacturingOrderUseCases.createManufacturingOrder.
    rewrite (run_bind_Ok _ _ _ _ _ (mongo_findById_run _ _)).
    split; [intros ->; by eexists|].
    split; [intros model -> Hc; rewrite bool_decide_true by done; by eexists|].
    split.
    { intros model -> Hc Ht. rewrite bool_decide_false by done.
      rewrite (bool_decide_false _ Ht). by eexists. }
    intros model -> Hc Ht Hbad. rewrite bool_decide_false by done.
    rewrite (bool_decide_true _ Ht). cbn [negb].
    unfold allocArray. unfold bind at 1. cbv beta iota.
    rewrite (run_bind_Ok _ _ _ _ _
               (mongo_resolution_run request model _ _ (lookup_insert_eq _ _ _))).
    unfold MongoManufacturingOrderRepository.create.
    unfold bind at 1. unfold bind at 1. unfold readArray at 1.
    cbn [heap set_heap]. rewrite lookup_insert_eq. cbv beta iota zeta.
    match goal with |- context [MongoManufacturingOrderRepository.validate ?d] =>
      assert (Hv : MongoManufacturingOrderRepository.validate d = false)
    end.
    { unfold MongoManufacturingOrderRepository.validate. cbn.
      destruct Hbad as [Hq | Hn].
      - apply Z.leb_gt in Hq. rewrite Hq. by rewrite !andb_false_r.
      - rewrite Hn. by rewrite !andb_false_r. }
    rewrite Hv. by eexists. }
  destruct Hcases as (H1 & H2 & H3 & H4).
  split; [intros Hm; by destruct (H1 Hm) as (w1 & -> & ?)|].
  split; [intros model Hm Hc; by destruct (H2 model Hm Hc) as (w1 & -> & ?)|].
  split; [intros model Hm Hc Ht; by destruct (H3 model Hm Hc Ht) as (w1 & -> & ?)|].
  split; [intros model Hm Hc Ht Hb; by destruct (H4 model Hm Hc Ht Hb) as (w1 & -> & ?)|].
  done.
Qed.

End MongoCreation.

(** ** The materials of a component *)

Section Materials.
Implicit Type w : World (gmap string InventoryItem.t).

Lemma forCollect_pure {S A B} (body : A -> M S B) (g : A -> B) (w : World S) xs :
  (forall x, body x w = (Ok (g x), w)) ->
  forCollect xs body w = (Ok (g <$> xs), w).
Proof.
  intros H. induction xs as [|x xs IH]; [done|].
  cbn [forCollect]. rewrite (run_bind_Ok _ _ _ _ _ (H x)).
  by rewrite (run_bind_Ok _ _ _ _ _ IH).
Qed.

(** X10: adding a material to a component of an order appends one entry
    to the materials of that component and leaves the entries that are there
    as they are, even an entry for the same material; the entry has the
    planned quantity given, the actual quantity given or 0, and the unit of
    the item or "unidad".  A component or a material that does not exist is
    reported as not found and nothing is written. *)
Theorem addMaterialToComponent_appends
    (w : World (gmap string InventoryItem.t)) (id componentId materialId : string)
    (plannedQuantity : Q) (actualQuantity : option Q) (now : Date)
    (order : ManufacturingOrderDocument) :
  orders w !! id = Some order ->
  let run := ManufacturingOrderUseCases.addMaterialToComponent
               id componentId materialId plannedQuantity actualQuantity now w in
  (findComponent componentId (ManufacturingOrder.components order) = None ->
   fst run = Throw (Rejected AnOrder ComponentNotFound) /\ sameDatabase w (snd run))
  /\ (forall c, findComponent componentId (ManufacturingOrder.components order) = Some c ->
      inventory w !! materialId = None ->
      fst run = Throw (Rejected AnOrder MaterialNotFound) /\ sameDatabase w (snd run))
  /\ (forall c material,
      findComponent componentId (ManufacturingOrder.components order) = Some c ->
      inventory w !! materialId = Some material ->
      exists e order' c' entry,
        fst run = Ok e
        /\ orders (snd run) = <[id := order']> (orders w)
        /\ cards (snd run) = cards w /\ inventory (snd run) = inventory w
        /\ ManufacturingOrder.status order' = ManufacturingOrder.status order
        /\ findComponent componentId (ManufacturingOrder.components order') = Some c'
        /\ ComponentProgress.materialUsage c' = ComponentProgress.materialUsage c ++ [entry]
        /\ ComponentProgress.isCompleted c' = ComponentProgress.isCompleted c
        /\ MaterialUsage.materialId entry = InventoryItem.id material
        /\ MaterialUsage.plannedQuantity entry = plannedQuantity
        /\ MaterialUsage.actualQuantity entry = default 0%Q actualQuantity
        /\ MaterialUsage.unit entry
           = (if bool_decide (InventoryItem.unit material = "") then "unidad"
              else InventoryItem.unit material)
        /\ (forall other, other <> componentId ->
              findComponent other (ManufacturingOrder.components order')
              = findComponent other (ManufacturingOrder.components order))).
Proof.
  intros Hdoc run.
  assert (Hstart : run
    = (cs <- readArray (fresh (dom (heap w))) ;;
       match findComponent componentId cs with
       | None => ManufacturingOrderUseCases.rejected ComponentNotFound
       | Some _ =>
           material <- callInventory (findById materialId) ;;
           match material with
           | None => ManufacturingOrderUseCases.rejected MaterialNotFound
           | Some material =>
               let newMaterial :=
                 MaterialUsage.mk (InventoryItem.id material) (InventoryItem.name material)
                   (InventoryItem.sku material) plannedQuantity (default 0%Q actualQuantity)
                   (if bool_decide (InventoryItem.unit material = "") then "unidad"
                    else InventoryItem.unit material) None None None in
               updatedOrder <- MongoManufacturingOrderRepository.addMaterialToComponent
                                 id componentId newMaterial now ;;
               match updatedOrder with
               | None => ManufacturingOrderUseCases.rejected AddMaterialFailed
               | Some updatedOrder => ret updatedOrder
               end
           end
       end)
      (set_heap (<[fresh (dom (heap w)) := ManufacturingOrder.components order]> (heap w)) w)).
  { subst run. unfold ManufacturingOrderUseCases.addMaterialToComponent.
    by rewrite (run_bind_Ok _ _ _ _ _ (getOrderById_found _ _ _ Hdoc)). }
  rewrite Hstart. clear Hstart run.
  rewrite (run_bind_Ok _ _ _ _ _ (readArray_allocated _ _ _)).
  split; [by intros ->|].
  split.
  { intros c -> Hm. rewrite (run_bind_Ok _ _ _ _ _ (mongo_findById_run _ _)).
    cbn [inventory set_heap]. by rewrite Hm. }
  intros c material Hfind Hm. rewrite Hfind.
  rewrite (run_bind_Ok _ _ _ _ _ (mongo_findById_run _ _)).
  cbn [inventory set_heap]. rewrite Hm. cbv zeta.
  unfold MongoManufacturingOrderRepository.addMaterialToComponent.
  match goal with |- context [MongoManufacturingOrderRepository.findOneAndUpdate _ _ ?f _] =>
    match goal with |- context [bind _ _ ?w1] =>
      destruct (order_componentUpdate_run w1 id order componentId f c now Hdoc Hfind
                  ltac:(done))
        as (e & w' & cs' & Hrun & Hup & Hf & Ho & Hc & Hi);
      destruct (updateFirst_found componentId f _ c ltac:(done) Hfind)
        as (cs'' & Hup' & _ & _ & Hother)
    end
  end.
  rewrite Hup in Hup'. injection Hup' as <-.
  rewrite (run_bind_Ok _ _ _ _ _ Hrun). cbn [fst snd ret].
  eexists e, _, _, _. split; [reflexivity|]. split; [exact Ho|].
  split; [exact Hc|]. split; [exact Hi|]. split; [reflexivity|].
  split; [exact Hf|]. split; [reflexivity|]. done.
Qed.

(** X11: adjusting the materials of a component replaces its list of
    materials by one entry for each adjustment whose material the inventory
    knows, in the order of the adjustments; an adjustment for an unknown
    material is left out, and so is every former entry that no adjustment
    names.  An entry takes the actual quantity and the notes of its
    adjustment and is dated now; its planned quantity is never taken from the
    adjustment: it is that of the former entry for the same material, or 1
    when there is none (or when it was 0). *)
Theorem updateComponentMaterials_replaces_usage
    (w : World (gmap string InventoryItem.t)) (id componentId : string)
    (adjustments : list MaterialAdjustment.t) (now : Date)
    (order : ManufacturingOrderDocument) (c : ComponentProgress.t) :
  orders w !! id = Some order ->
  activeOrder (ManufacturingOrder.status order) ->
  findComponent componentId (ManufacturingOrder.components order) = Some c ->
  ComponentProgress.isCompleted c = false ->
  exists e w' order' c',
    ManufacturingOrderUseCases.updateComponentMaterials id componentId adjustments now w
    = (Ok e, w')
    /\ orders w' = <[id := order']> (orders w)
    /\ cards w' = cards w /\ inventory w' = inventory w
    /\ findComponent componentId (ManufacturingOrder.components order') = Some c'
    /\ (length (ComponentProgress.materialUsage c') <= length adjustments)%nat
    /\ MaterialUsage.materialId <$> ComponentProgress.materialUsage c'
       = omap (fun a => InventoryItem.id
                          <$> inventory w !! MaterialAdjustment.materialId a) adjustments
    /\ Forall (fun entry =>
         exists a material,
           a ∈ adjustments
           /\ inventory w !! MaterialAdjustment.materialId a = Some material
           /\ MaterialUsage.materialId entry = InventoryItem.id material
           /\ MaterialUsage.actualQuantity entry = MaterialAdjustment.actualQuantity a
           /\ MaterialUsage.notes entry = MaterialAdjustment.notes a
           /\ MaterialUsage.adjustedAt entry = Some now
           /\ (MaterialUsage.plannedQuantity entry = 1%Q
               \/ exists former,
                    former ∈ ComponentProgress.materialUsage c
                    /\ MaterialUsage.materialId former = MaterialAdjustment.materialId a
                    /\ MaterialUsage.plannedQuantity entry
                       = MaterialUsage.plannedQuantity former))
         (ComponentProgress.materialUsage c').
Proof.
  intros Hdoc Hst Hfind Hc.
  unfold ManufacturingOrderUseCases.updateComponentMaterials.
  rewrite (run_bind_Ok _ _ _ _ _ (getOrderById_found _ _ _ Hdoc)). simpl.
  rewrite (activeOrder_guard _ Hst).
  rewrite (run_bind_Ok _ _ _ _ _ (readArray_allocated _ _ _)).
  rewrite Hfind, Hc.
  set (w1 := set_heap _ w).
  set (g := fun materialData : MaterialAdjustment.t =>
     match inventory w !! MaterialAdjustment.materialId materialData with
     | Some material =>
         [MaterialUsage.mk (InventoryItem.id material) (InventoryItem.name material)
            (InventoryItem.sku material)
            (match List.find
                     (fun m => bool_decide (MaterialUsage.materialId m
                                            = MaterialAdjustment.materialId materialData))
                     (ComponentProgress.materialUsage c) with
             | Some m => if Qeq_bool (MaterialUsage.plannedQuantity m) 0 then 1%Q
                         else MaterialUsage.plannedQuantity m
             | None => 1%Q
             end)
            (MaterialAdjustment.actualQuantity materialData)
            (if bool_decide (InventoryItem.unit material = "") then "unidad"
             else InventoryItem.unit material)
            (MaterialAdjustment.notes materialData)
            (MaterialAdjustment.adjustedBy materialData)
            (Some now)]
     | None => []
     end).
  assert (Hcollect :
    forCollect adjustments
      (fun m => ManufacturingOrderUseCases.adjustedUsage c m now) w1
    = (Ok (g <$> adjustments), w1)).
  { apply forCollect_pure. intros a.
    unfold ManufacturingOrderUseCases.adjustedUsage.
    rewrite (run_bind_Ok _ _ _ _ _ (mongo_findById_run _ _)).
    subst g w1. cbn [inventory set_heap].
    by destruct (inventory w !! MaterialAdjustment.materialId a). }
  rewrite (run_bind_Ok _ _ _ _ _ Hcollect).
  unfold MongoManufacturingOrderRepository.updateComponentMaterials.
  destruct (order_componentUpdate_run w1 id order componentId
              (ComponentProgress.set_materialUsage (concat (g <$> adjustments)))
              c now Hdoc Hfind ltac:(done))
    as (e & w' & cs' & Hrun & Hup & Hf & Ho & Hcards & Hi).
  rewrite (run_bind_Ok _ _ _ _ _ Hrun).
  eexists e, w', _, _. split; [reflexivity|]. split; [exact Ho|].
  split; [exact Hcards|]. split; [exact Hi|]. split; [exact Hf|].
  cbn [ComponentProgress.materialUsage ComponentProgress.set_materialUsage].
  clear. split; [|split].
  - induction adjustments as [|a l IH]; [done|].
    rewrite fmap_cons. cbn [concat]. rewrite length_app, length_cons.
    subst g. cbv beta. destruct (inventory w !! MaterialAdjustment.materialId a);
      cbn [length]; lia.
  - induction adjustments as [|a l IH]; [done|].
    rewrite fmap_cons. cbn [concat omap list_omap]. rewrite fmap_app, IH.
    subst g. cbv beta. by destruct (inventory w !! MaterialAdjustment.materialId a).
  - apply Forall_forall. intros entry Hin.
    apply list_elem_of_In, in_concat in Hin as (l & Hl & Hin).
    apply list_elem_of_In, list_elem_of_fmap in Hl as (a & -> & Ha).
    subst g. cbv beta in Hin.
    destruct (inventory w !! MaterialAdjustment.materialId a) as [material|] eqn:Hm;
      [|done].
    destruct Hin as [<- | []]. exists a, material.
    do 6 (split; [done|]). cbn [MaterialUsage.plannedQuantity].
    destruct (List.find _ _) as [former|] eqn:Hfo; [|by left].
    apply find_some in Hfo as [Hin Heq]. apply bool_decide_eq_true in Heq.
    destruct (Qeq_bool _ _); [by left|]. right. exists former.
    split; [by apply list_elem_of_In|]. done.
Qed.

End Materials.

(** ** Listings *)

Lemma sort_sorted {A} (compareFn : A -> A -> Z) (l : list A) :
  StronglySorted (fun x y => compareFn x y <= 0) l -> sort compareFn l = l.
Proof.
  induction 1 as [|x l Hl IH Hx]; [done|].
  unfold sort in *. cbn [foldr]. rewrite IH.
  destruct l as [|y l]; [done|]. cbn [insertSorted].
  apply Forall_cons in Hx as [Hxy _].
  by destruct (Z.leb_spec (compareFn x y) 0); [|lia].
Qed.

Lemma sortAscending_Permutation {A} (key : A -> Z) l : sortAscending key l ≡ₚ l.
Proof. apply sort_Permutation. Qed.

Lemma sortAscending_StronglySorted {A} (key : A -> Z) l :
  StronglySorted (fun a b => key a <= key b) (sortAscending key l).
Proof.
  eapply StronglySorted_weaken;
    [|apply (sort_StronglySorted (fun a b => key a - key b))].
  - intros a b. cbv beta. lia.
  - intros a b. lia.
  - intros a b c. lia.
Qed.

Lemma StronglySorted_Forall2 {A B} (R : A -> A -> Prop) (R' : B -> B -> Prop)
    (P : B -> A -> Prop) es ds :
  (forall e1 e2 d1 d2, P e1 d1 -> P e2 d2 -> R d1 d2 -> R' e1 e2) ->
  Forall2 P es ds -> StronglySorted R ds -> StronglySorted R' es.
Proof.
  intros HP Hall. induction Hall as [|e d es ds Hed Hall IH]; intros Hs; [constructor|].
  apply StronglySorted_inv in Hs as [Hs Hd].
  constructor; [by apply IH|].
  clear IH Hs. induction Hall as [|e' d' es ds He'd' Hall IH]; [constructor|].
  apply Forall_cons in Hd as [Hdd' Hd].
  constructor; [by eapply HP | by apply IH].
Qed.

Section Listings.
Context {S : Type} {inventoryRepository : IInventoryRepository S}.
Implicit Type w : World S.

Lemma forCollect_order_mapToEntity (docs : list ManufacturingOrderDocument) : forall w,
  exists es w',
    forCollect docs MongoManufacturingOrderRepository.mapToEntity w = (Ok es, w')
    /\ Forall2 orderEntityOf es docs
    /\ sameDatabase w w'.
Proof.
  induction docs as [|d docs IH]; intros w; simpl.
  - exists [], w. by repeat constructor.
  - unfold bind at 1. unfold MongoManufacturingOrderRepository.mapToEntity at 1.
    unfold allocArray, bind at 1, ret at 1.
    set (w1 := set_heap _ w).
    destruct (IH w1) as (es & w' & Hrun & Hall & Hdb).
    rewrite (run_bind_Ok _ _ _ _ _ Hrun). unfold ret.
    eexists _, _. split; [reflexivity|]. split.
    + constructor; [|done]. unfold orderEntityOf. by destruct d.
    + destruct Hdb as (? & ? & ?). done.
Qed.

(** The orders found by a query, by ascending due date, as entities. *)
Lemma order_listing_run (query : ManufacturingOrderDocument -> bool) w :
  exists es docs w',
    (orders' <- MongoManufacturingOrderRepository.findWhere query ;;
     forCollect (sortAscending ManufacturingOrder.dueDate orders')
       MongoManufacturingOrderRepository.mapToEntity) w = (Ok es, w')
    /\ Forall2 orderEntityOf es docs
    /\ StronglySorted (fun a b => ManufacturingOrder.dueDate a <= ManufacturingOrder.dueDate b)
         es
    /\ docs ≡ₚ filter (fun doc => query doc = true) (snd <$> map_to_list (orders w))
    /\ sameDatabase w w'.
Proof.
  unfold bind at 1. unfold MongoManufacturingOrderRepository.findWhere at 1.
  set (found := filter _ _).
  destruct (forCollect_order_mapToEntity
              (sortAscending ManufacturingOrder.dueDate found) w)
    as (es & w' & Hrun & Hall & Hdb).
  exists es, (sortAscending ManufacturingOrder.dueDate found), w'.
  split; [exact Hrun|]. split; [done|].
  split; [|split; [apply sortAscending_Permutation | done]].
  eapply StronglySorted_Forall2; [|exact Hall|apply sortAscending_StronglySorted].
  intros e1 e2 d1 d2. unfold orderEntityOf. intros <- <-. by destruct e1, e2.
Qed.

(** X12: the production queue holds the orders that are pending, in
    progress or paused, and no other, the soonest due first; the sort of the
    use case changes nothing to the list that the repository returns, which
    is in that order already. *)
Theorem production_queue_is_active_orders_by_due_date (w : World S) :
  exists queue docs w',
    ManufacturingOrderUseCases.getProductionQueue w = (Ok queue, w')
    /\ ManufacturingOrderUseCases.getActiveOrders w = (Ok queue, w')
    /\ StronglySorted
         (fun a b => ManufacturingOrder.dueDate a <= ManufacturingOrder.dueDate b) queue
    /\ Forall2 orderEntityOf queue docs
    /\ docs ≡ₚ filter (fun doc => queuedOrder (ManufacturingOrder.status doc))
                      (snd <$> map_to_list (orders w))
    /\ sameDatabase w w'.
Proof.
  unfold ManufacturingOrderUseCases.getProductionQueue,
    ManufacturingOrderUseCases.getActiveOrders,
    MongoManufacturingOrderRepository.getActiveOrders.
  destruct (order_listing_run
              (fun doc => bool_decide (ManufacturingOrder.status doc = PENDING)
                          || bool_decide (ManufacturingOrder.status doc = IN_PROGRESS)
                          || bool_decide (ManufacturingOrder.status doc = PAUSED)) w)
    as (es & docs & w' & Hrun & Hall & Hsorted & Hperm & Hdb).
  exists es, docs, w'. rewrite (run_bind_Ok _ _ _ _ _ Hrun).
  split.
  { unfold ret. f_equal. f_equal. apply sort_sorted.
    eapply StronglySorted_weaken; [|exact Hsorted]. intros a b. cbv beta. lia. }
  do 3 (split; [done|]). split; [|done].
  rewrite Hperm. erewrite list_filter_iff; [done|].
  intros doc. unfold queuedOrder.
  rewrite !orb_true_iff, !bool_decide_eq_true. tauto.
Qed.

End Listings.

Section CardListings.
Context {S : Type} {inventoryRepository : IInventoryRepository S}.
Implicit Type w : World S.

Lemma card_findAll_run (regexMatch : string -> string -> bool)
    (filters : ProductionCardFilters.t) (now : Date) w :
  exists (listed : list ProductionCardEntity) (docs : list ProductionCardDocument) w',
    MongoProductionCardRepository.findAll regexMatch filters now w = (Ok listed, w')
    /\ StronglySorted listedBefore listed
    /\ Forall2 entityOf listed docs
    /\ docs ≡ₚ filter (fun doc => MongoProductionCardRepository.matchesQuery
                                    regexMatch filters now doc = true)
                      (snd <$> map_to_list (cards w))
    /\ sameDatabase w w'.
Proof.
  unfold MongoProductionCardRepository.findAll.
  unfold bind at 1. unfold MongoProductionCardRepository.find at 1.
  set (found := filter _ _).
  destruct (forCollect_mapToEntity
              (sort MongoProductionCardRepository.compareCards found) w)
    as (es & w' & Hrun & Hall & Hdb).
  exists es, (sort MongoProductionCardRepository.compareCards found), w'.
  split; [exact Hrun|]. split; [|split; [done|split; [apply sort_Permutation|done]]].
  eapply StronglySorted_Forall2; [apply listedBefore_entity|exact Hall|].
  eapply StronglySorted_weaken;
    [|apply (sort_StronglySorted MongoProductionCardRepository.compareCards)].
  - intros a b. by apply compareCards_listedBefore.
  - intros a b. rewrite !compareCards_listedBefore. unfold listedBefore. lia.
  - intros a b c. rewrite !compareCards_listedBefore. unfold listedBefore. lia.
Qed.

(** The cards found by a query, by ascending due date, as entities. *)
Lemma card_listing_run (query : ProductionCardDocument -> bool) w :
  exists es docs w',
    (cards' <- MongoProductionCardRepository.findWhere query ;;
     forCollect (sortAscending ProductionCard.dueDate cards')
       MongoProductionCardRepository.mapToEntity) w = (Ok es, w')
    /\ Forall2 entityOf es docs
    /\ StronglySorted (fun a b => ProductionCard.dueDate a <= ProductionCard.dueDate b) es
    /\ docs ≡ₚ filter (fun doc => query doc = true) (snd <$> map_to_list (cards w))
    /\ sameDatabase w w'.
Proof.
  unfold bind at 1. unfold MongoProductionCardRepository.findWhere at 1.
  set (found := filter _ _).
  destruct (forCollect_mapToEntity (sortAscending ProductionCard.dueDate found) w)
    as (es & w' & Hrun & Hall & Hdb).
  exists es, (sortAscending ProductionCard.dueDate found), w'.
  split; [exact Hrun|]. split; [done|].
  split; [|split; [apply sortAscending_Permutation | done]].
  eapply StronglySorted_Forall2; [|exact Hall|apply sortAscending_StronglySorted].
  intros e1 e2 d1 d2. unfold entityOf. intros <- <-. by destruct e1, e2.
Qed.

(** X13: the overdue orders and the overdue cards that the use cases list
    are, by ascending due date, the ones that [isOverdue] holds of, the
    cancelled ones apart: a cancelled order or card past its due date is
    overdue for [isOverdue] and is not listed. *)
Theorem overdue_lists_are_isOverdue_less_cancelled (w : World S) (now : Date) :
  (exists listed docs w',
     ManufacturingOrderUseCases.getOverdueOrders now w = (Ok listed, w')
     /\ Forall2 orderEntityOf listed docs
     /\ StronglySorted
          (fun a b => ManufacturingOrder.dueDate a <= ManufacturingOrder.dueDate b) listed
     /\ docs ≡ₚ filter (fun doc => ManufacturingOrderModel.isOverdue doc now = true
                                   /\ ManufacturingOrderEntityClass.isOverdue doc now = true
                                   /\ ManufacturingOrder.status doc <> CANCELLED)
                       (snd <$> map_to_list (orders w))
     /\ sameDatabase w w')
  /\ (exists listed docs w',
        ProductionCardUseCases.getOverdueCards now w = (Ok listed, w')
        /\ Forall2 entityOf listed docs
        /\ StronglySorted
             (fun a b => ProductionCard.dueDate a <= ProductionCard.dueDate b) listed
        /\ docs ≡ₚ filter (fun doc => ProductionCardEntityClass.isOverdue doc now = true
                                      /\ ProductionCard.status doc
                                         <> ProductionCardStatus.CANCELLED)
                          (snd <$> map_to_list (cards w))
        /\ sameDatabase w w').
Proof.
  split.
  - unfold ManufacturingOrderUseCases.getOverdueOrders,
      MongoManufacturingOrderRepository.getOverdueOrders.
    destruct (order_listing_run
                (fun doc => (ManufacturingOrder.dueDate doc <? now)
                            && negb (bool_decide (ManufacturingOrder.status doc = COMPLETED))
                            && negb (bool_decide (ManufacturingOrder.status doc = CANCELLED)))
                w) as (es & docs & w' & Hrun & Hall & Hsorted & Hperm & Hdb).
    exists es, docs, w'. do 3 (split; [done|]). split; [|done].
    rewrite Hperm. erewrite list_filter_iff; [done|].
    intros doc. unfold ManufacturingOrderModel.isOverdue,
      ManufacturingOrderEntityClass.isOverdue.
    rewrite !andb_true_iff, !negb_true_iff, !bool_decide_eq_false. tauto.
  - unfold ProductionCardUseCases.getOverdueCards,
      MongoProductionCardRepository.getOverdueCards.
    destruct (card_listing_run
                (fun doc => (ProductionCard.dueDate doc <? now)
                            && negb (bool_decide (ProductionCard.status doc
                                                  = ProductionCardStatus.COMPLETED))
                            && negb (bool_decide (ProductionCard.status doc
                                                  = ProductionCardStatus.CANCELLED)))
                w) as (es & docs & w' & Hrun & Hall & Hsorted & Hperm & Hdb).
    exists es, docs, w'. do 3 (split; [done|]). split; [|done].
    rewrite Hperm. erewrite list_filter_iff; [done|].
    intros doc. unfold ProductionCardEntityClass.isOverdue.
    rewrite !andb_true_iff, !negb_true_iff, !bool_decide_eq_false. tauto.
Qed.

Lemma entityOf_fields e d :
  entityOf e d ->
  ProductionCard.id e = ProductionCard.id d
  /\ ProductionCard.orderId e = ProductionCard.orderId d
  /\ ProductionCard.cardNumber e = ProductionCard.cardNumber d
  /\ ProductionCard.status e = ProductionCard.status d
  /\ ProductionCard.priority e = ProductionCard.priority d
  /\ ProductionCard.dueDate e = ProductionCard.dueDate d.
Proof. unfold entityOf. intros <-. by destruct e. Qed.

Lemma Forall2_Forall_l {A B} (P : A -> B -> Prop) (Q : B -> Prop) (R : A -> Prop) es ds :
  (forall e d, P e d -> Q d -> R e) -> Forall2 P es ds -> Forall Q ds -> Forall R es.
Proof.
  intros HP Hall. induction Hall; intros HQ; [constructor|].
  apply Forall_cons in HQ as [? ?]. constructor; eauto.
Qed.

(** X14: when the listing of the cards is asked for the overdue cards, the
    status filter is not applied: whatever status is asked for, the listing
    is the same, and holds cards past their due date that are neither
    completed nor cancelled. *)
Theorem overdue_filter_replaces_status_filter
    (regexMatch : string -> string -> bool) (filters : ProductionCardFilters.t)
    (now : Date) (w : World S) :
  ProductionCardFilters.overdue filters = Some true ->
  (forall status,
     ProductionCardUseCases.getAllCards regexMatch (withStatus status filters) now w
     = ProductionCardUseCases.getAllCards regexMatch filters now w)
  /\ exists listed w',
       ProductionCardUseCases.getAllCards regexMatch filters now w = (Ok listed, w')
       /\ Forall (fun card =>
                    ProductionCard.dueDate card < now
                    /\ ProductionCard.status card <> ProductionCardStatus.COMPLETED
                    /\ ProductionCard.status card <> ProductionCardStatus.CANCELLED)
                 listed.
Proof.
  intros Hoverdue. split.
  - intros status. unfold ProductionCardUseCases.getAllCards,
      MongoProductionCardRepository.findAll.
    unfold bind, MongoProductionCardRepository.find.
    erewrite list_filter_iff; [reflexivity|].
    intros doc. unfold MongoProductionCardRepository.matchesQuery, withStatus.
    cbn [ProductionCardFilters.overdue ProductionCardFilters.status
         ProductionCardFilters.priority ProductionCardFilters.orderId
         ProductionCardFilters.modelId ProductionCardFilters.startDate
         ProductionCardFilters.endDate ProductionCardFilters.search].
    rewrite Hoverdue. done.
  - unfold ProductionCardUseCases.getAllCards.
    destruct (card_findAll_run regexMatch filters now w)
      as (listed & docs & w' & Hrun & _ & Hall & Hperm & _).
    exists listed, w'. split; [done|].
    eapply Forall2_Forall_l; [|exact Hall|].
    2:{ rewrite Hperm. apply Forall_forall. intros doc Hdoc.
        apply list_elem_of_filter in Hdoc as [Hq _]. exact Hq. }
    intros e d Hed. cbv beta.
    apply entityOf_fields in Hed as (_ & _ & _ & -> & _ & ->).
    unfold MongoProductionCardRepository.matchesQuery. rewrite Hoverdue.
    cbn [MongoProductionCardRepository.givenFlag].
    rewrite !andb_true_iff, !negb_true_iff, !bool_decide_eq_false, Z.ltb_lt. tauto.
Qed.

Lemma matchesQuery_empty regexMatch now doc :
  MongoProductionCardRepository.matchesQuery regexMatch ProductionCardFilters.empty now doc
  = true.
Proof. reflexivity. Qed.

Lemma card_update_run w id updates now card :
  cards w !! id = Some card ->
  exists e w',
    MongoProductionCardRepository.update id updates now w = (Ok (Some e), w')
    /\ entityOf e (MongoProductionCardRepository.applyUpdates updates now card)
    /\ cards w' = <[id := MongoProductionCardRepository.applyUpdates updates now card]>
                    (cards w)
    /\ orders w' = orders w
    /\ inventory w' = inventory w.
Proof.
  intros Hdoc. unfold MongoProductionCardRepository.update,
    MongoProductionCardRepository.findByIdAndUpdate,
    MongoProductionCardRepository.mapToEntityOrNull,
    MongoProductionCardRepository.mapToEntity, allocArray, bind, ret.
  rewrite Hdoc. cbv beta iota zeta. eexists _, _. split; [reflexivity|].
  split; [|done]. unfold entityOf. by destruct card.
Qed.

(** X15: changing the priority of a card that is neither completed nor
    cancelled changes its priority and its modification date and nothing
    else of it, nor any order or stock; in a listing of all the cards made
    afterwards the card comes after cards of its priority or a more urgent
    one only, and before cards of its priority or a less urgent one only. *)
Theorem updateCardPriority_moves_card_in_listing
    (regexMatch : string -> string -> bool) (w : World S) (id : string)
    (priority' : ProductionCardPriority) (now later : Date)
    (card : ProductionCardDocument) :
  cards w !! id = Some card ->
  ~ terminalCard (ProductionCard.status card) ->
  exists e w' card',
    ProductionCardUseCases.updateCardPriority id priority' now w = (Ok e, w')
    /\ entityOf e card'
    /\ cards w' = <[id := card']> (cards w)
    /\ orders w' = orders w
    /\ inventory w' = inventory w
    /\ ProductionCard.priority card' = Some priority'
    /\ ProductionCard.updatedAt card' = now
    /\ ProductionCard.id card' = ProductionCard.id card
    /\ ProductionCard.orderId card' = ProductionCard.orderId card
    /\ ProductionCard.cardNumber card' = ProductionCard.cardNumber card
    /\ ProductionCard.status card' = ProductionCard.status card
    /\ ProductionCard.dueDate card' = ProductionCard.dueDate card
    /\ ProductionCard.quantity card' = ProductionCard.quantity card
    /\ ProductionCard.components card' = ProductionCard.components card
    /\ ProductionCard.timeTracker card' = ProductionCard.timeTracker card
    /\ exists before listed after w'',
         ProductionCardUseCases.getAllCards regexMatch ProductionCardFilters.empty later w'
         = (Ok (before ++ listed :: after), w'')
         /\ entityOf listed card'
         /\ Forall (fun other => (listingRank (ProductionCard.priority other)
                                  <= listingRank (Some priority'))%nat) before
         /\ Forall (fun other => (listingRank (Some priority')
                                  <= listingRank (ProductionCard.priority other))%nat) after.
Proof.
  intros Hdoc Hst. unfold ProductionCardUseCases.updateCardPriority.
  destruct (MongoProductionCardRepository.findById id w) as [found w0] eqn:Hfind.
  assert (Hfound : exists e0, found = Ok (Some e0)
                              /\ ProductionCard.status e0 = ProductionCard.status card
                              /\ cards w0 = cards w).
  { revert Hfind. unfold MongoProductionCardRepository.findById,
      MongoProductionCardRepository.findDocument,
      MongoProductionCardRepository.mapToEntityOrNull,
      MongoProductionCardRepository.mapToEntity, allocArray, bind, ret.
    rewrite Hdoc. cbv beta iota zeta. intros [= <- <-]. eexists. split; [done|].
    by destruct card. }
  destruct Hfound as (e0 & -> & Hst0 & Hcards0).
  assert (Hrest : orders w0 = orders w /\ inventory w0 = inventory w).
  { revert Hfind. unfold MongoProductionCardRepository.findById,
      MongoProductionCardRepository.findDocument,
      MongoProductionCardRepository.mapToEntityOrNull,
      MongoProductionCardRepository.mapToEntity, allocArray, bind, ret.
    rewrite Hdoc. cbv beta iota zeta. by intros [= _ <-]. }
  destruct Hrest as [Horders0 Hinv0].
  rewrite (run_bind_Ok _ _ _ _ _ Hfind). rewrite Hst0.
  rewrite !bool_decide_false by (intros H; apply Hst; first [by left | by right]).
  cbn [orb].
  assert (Hdoc0 : cards w0 !! id = Some card) by by rewrite Hcards0.
  destruct (card_update_run w0 id
              (ProductionCardUpdates.mk None None (Some priority') None None) now card Hdoc0)
    as (e & w' & Hupd & Hent & Hcards & Horders & Hinv).
  rewrite (run_bind_Ok _ _ _ _ _ Hupd). unfold ret.
  set (card' := MongoProductionCardRepository.applyUpdates _ now card) in *.
  exists e, w', card'. split; [done|]. split; [done|].
  split; [by rewrite Hcards, Hcards0|].
  split; [congruence|]. split; [congruence|].
  do 10 (split; [done|]).
  unfold ProductionCardUseCases.getAllCards.
  destruct (card_findAll_run regexMatch ProductionCardFilters.empty later w')
    as (listed & docs & w'' & Hrun & Hsorted & Hall & Hperm & _).
  assert (Hin : card' ∈ docs).
  { rewrite Hperm. apply list_elem_of_filter. split; [apply matchesQuery_empty|].
    apply list_elem_of_fmap. exists (id, card'). split; [done|].
    apply elem_of_map_to_list. rewrite Hcards. apply lookup_insert_eq. }
  apply list_elem_of_split in Hin as (d1 & d2 & ->).
  apply Forall2_app_inv_r in Hall as (l1 & l2' & Hall1 & Hall2 & ->).
  apply Forall2_cons_inv_r in Hall2 as (e' & l2 & He' & Hall2 & ->).
  exists l1, e', l2, w''. split; [done|]. split; [done|].
  assert (Hp : ProductionCard.priority e' = Some priority').
  { apply entityOf_fields in He' as (_ & _ & _ & _ & -> & _). done. }
  split; apply Forall_forall; intros other Hother.
  - assert (Hb : listedBefore other e').
    { eapply StronglySorted_app_1_elem_of; [exact Hsorted|done|]. by left. }
    unfold listedBefore in Hb. rewrite Hp in Hb. lia.
  - apply StronglySorted_app_1_r in Hsorted.
    apply StronglySorted_inv in Hsorted as [_ Hafter].
    rewrite Forall_forall in Hafter. specialize (Hafter _ Hother).
    unfold listedBefore in Hafter. rewrite Hp in Hafter. lia.
Qed.

End CardListings.

(** ** Deletion *)

Section Deletion.
Context {S : Type} {inventoryRepository : IInventoryRepository S}.
Implicit Type w : World S.

Lemma findByOrderId_run (orderId' : string) w :
  exists es docs w',
    MongoProductionCardRepository.findByOrderId orderId' w = (Ok es, w')
    /\ Forall2 entityOf es docs
    /\ StronglySorted
         (fun a b => ProductionCard.cardNumber a <= ProductionCard.cardNumber b) es
    /\ docs ≡ₚ filter (fun doc => ProductionCard.orderId doc = orderId')
                      (snd <$> map_to_list (cards w))
    /\ sameDatabase w w'.
Proof.
  unfold MongoProductionCardRepository.findByOrderId.
  unfold bind at 1. unfold MongoProductionCardRepository.findWhere at 1.
  set (found := filter _ _).
  destruct (forCollect_mapToEntity (sortAscending ProductionCard.cardNumber found) w)
    as (es & w' & Hrun & Hall & Hdb).
  exists es, (sortAscending ProductionCard.cardNumber found), w'.
  split; [exact Hrun|]. split; [done|]. split; [|split; [|done]].
  - eapply StronglySorted_Forall2; [|exact Hall|apply sortAscending_StronglySorted].
    intros e1 e2 d1 d2. unfold entityOf. intros <- <-. by destruct e1, e2.
  - rewrite sortAscending_Permutation. subst found.
    erewrite list_filter_iff; [done|].
    intros doc. cbv beta. by rewrite bool_decide_eq_true.
Qed.

Lemma forEach_delete_run (es : list ProductionCardEntity) : forall w,
  exists w',
    forEach es (fun card => MongoProductionCardRepository.delete (ProductionCard.id card)
                            ;;; ret tt) w = (Ok tt, w')
    /\ (forall k d, cards w' !! k = Some d
                    <-> cards w !! k = Some d /\ k ∉ ProductionCard.id <$> es)
    /\ orders w' = orders w
    /\ inventory w' = inventory w.
Proof.
  induction es as [|e es IH]; intros w.
  - exists w. split; [done|]. split; [|done].
    intros k d. rewrite fmap_nil, elem_of_nil. tauto.
  - cbn [forEach]. unfold bind at 1. unfold bind at 1.
    unfold MongoProductionCardRepository.delete at 1.
    destruct (cards w !! ProductionCard.id e) as [d0|] eqn:He; unfold ret at 1.
    + destruct (IH (set_cards (base.delete (ProductionCard.id e) (cards w)) w))
        as (w' & -> & Hcards & Horders & Hinv).
      exists w'. split; [done|]. split; [|done].
      intros k d. rewrite Hcards. cbn [set_cards cards].
      rewrite lookup_delete_Some, fmap_cons, not_elem_of_cons.
      split; [intros [[? ?] ?]|intros [? [? ?]]]; repeat split; congruence.
    + destruct (IH w) as (w' & -> & Hcards & Horders & Hinv).
      exists w'. split; [done|]. split; [|done].
      intros k d. rewrite Hcards, fmap_cons, not_elem_of_cons.
      split; [intros [? ?]|intros [? [? ?]]]; repeat split; congruence.
Qed.

Lemma deleteCardsByOrderId_run (orderId' : string) w :
  wellKeyed (cards w) ->
  exists w',
    ProductionCardUseCases.deleteCardsByOrderId orderId' w = (Ok true, w')
    /\ (forall k d, cards w' !! k = Some d
                    <-> cards w !! k = Some d /\ ProductionCard.orderId d <> orderId')
    /\ orders w' = orders w
    /\ inventory w' = inventory w.
Proof.
  intros Hkeys. unfold ProductionCardUseCases.deleteCardsByOrderId,
    ProductionCardUseCases.getCardsByOrder.
  destruct (findByOrderId_run orderId' w)
    as (es & docs & w1 & Hrun & Hall & _ & Hperm & Hinv1 & Horders1 & Hcards1).
  rewrite (run_bind_Ok _ _ _ _ _ Hrun).
  destruct (forEach_delete_run es w1) as (w' & Hdel & Hcards & Horders & Hinv).
  rewrite (run_bind_Ok _ _ _ _ _ Hdel). unfold ret.
  exists w'. split; [done|]. split; [|split; congruence].
  assert (Hids : forall k, k ∈ ProductionCard.id <$> es
                           <-> exists d, cards w !! k = Some d
                                         /\ ProductionCard.orderId d = orderId').
  { intros k. rewrite list_elem_of_fmap. split.
    - intros (e & -> & He).
      destruct (proj1 (list_elem_of_lookup _ _) He) as [i Hi].
      destruct (Forall2_lookup_l _ _ _ _ _ Hall Hi) as (d & Hd & Hed).
      apply list_elem_of_lookup_2 in Hd. rewrite Hperm in Hd.
      apply list_elem_of_filter in Hd as [Ho Hd].
      apply list_elem_of_fmap in Hd as ([k' d'] & -> & Hd).
      apply elem_of_map_to_list in Hd. cbn [snd] in *.
      apply entityOf_fields in Hed as (-> & _).
      rewrite (Hkeys _ _ Hd). eauto.
    - intros (d & Hd & Ho).
      assert (Hin : d ∈ docs).
      { rewrite Hperm. apply list_elem_of_filter. split; [done|].
        apply list_elem_of_fmap. exists (k, d). split; [done|].
        by apply elem_of_map_to_list. }
      destruct (proj1 (list_elem_of_lookup _ _) Hin) as [i Hi].
      destruct (Forall2_lookup_r _ _ _ _ _ Hall Hi) as (e & He & Hed).
      exists e. split; [|by eapply list_elem_of_lookup_2].
      apply entityOf_fields in Hed as (-> & _). symmetry. by apply Hkeys. }
  intros k d. rewrite Hcards, Hcards1, Hids. split.
  - intros [Hd Hno]. split; [done|]. intros Ho. apply Hno. eauto.
  - intros [Hd Ho]. split; [done|]. intros (d' & Hd' & Ho'). congruence.
Qed.

(** X16: deleting an order that is in progress is refused and changes
    nothing; deleting any other stored order, a paused one as well, removes
    the order and every production card of that order, keeps all other
    orders and cards and leaves the stock alone; an unknown identifier is
    reported as not found. *)
Theorem deleteOrder_removes_order_and_its_cards (w : World S) (id : string) :
  wellKeyed (cards w) ->
  match orders w !! id with
  | None =>
      ManufacturingOrderUseCases.deleteOrder id w
      = (DeleteFailed (Rejected AnOrder EntityNotFound), w)
  | Some order =>
      if bool_decide (ManufacturingOrder.status order = IN_PROGRESS)
      then exists w',
             ManufacturingOrderUseCases.deleteOrder id w = (DeleteInProgress, w')
             /\ sameDatabase w w'
      else exists w',
             ManufacturingOrderUseCases.deleteOrder id w = (Deleted true, w')
             /\ orders w' = base.delete id (orders w)
             /\ (forall k card,
                   cards w' !! k = Some card
                   <-> cards w !! k = Some card /\ ProductionCard.orderId card <> id)
             /\ inventory w' = inventory w
  end.
Proof.
  intros Hkeys. unfold ManufacturingOrderUseCases.deleteOrder.
  destruct (orders w !! id) as [order|] eqn:Hdoc.
  - rewrite (getOrderById_found _ _ _ Hdoc).
    cbn [ManufacturingOrder.status ManufacturingOrder.with_components].
    replace (ManufacturingOrder.status
               (ManufacturingOrder.with_components (fresh (dom (heap w))) order))
      with (ManufacturingOrder.status order) by by destruct order.
    destruct (bool_decide (ManufacturingOrder.status order = IN_PROGRESS)).
    + eexists. split; [reflexivity|]. done.
    + set (w1 := set_heap _ w).
      destruct (deleteCardsByOrderId_run id w1 Hkeys)
        as (w2 & Hdel & Hcards & Horders & Hinv).
      rewrite (run_bind_Ok _ _ _ _ _ Hdel).
      unfold MongoManufacturingOrderRepository.delete.
      assert (Hdoc2 : orders w2 !! id = Some order) by by rewrite Horders.
      rewrite Hdoc2. eexists. split; [reflexivity|].
      cbn [set_orders orders cards inventory]. rewrite Horders. done.
  - unfold ManufacturingOrderUseCases.getOrderById,
      MongoManufacturingOrderRepository.findById,
      MongoManufacturingOrderRepository.findDocument,
      MongoManufacturingOrderRepository.mapToEntityOrNull, bind, ret.
    by rewrite Hdoc.
Qed.

(** X17: deleting a stored card removes that card and nothing else;
    deleting a card that is not stored is rejected as not found and changes
    nothing. *)
Theorem deleteCard_removes_one_card (w : World S) (id : string) :
  match cards w !! id with
  | None =>
      ProductionCardUseCases.deleteCard id w = (Throw (Rejected ACard EntityNotFound), w)
  | Some _ =>
      exists w',
        ProductionCardUseCases.deleteCard id w = (Ok true, w')
        /\ cards w' = base.delete id (cards w)
        /\ orders w' = orders w
        /\ inventory w' = inventory w
  end.
Proof.
  unfold ProductionCardUseCases.deleteCard, MongoProductionCardRepository.findById,
    MongoProductionCardRepository.findDocument,
    MongoProductionCardRepository.mapToEntityOrNull,
    MongoProductionCardRepository.mapToEntity,
    MongoProductionCardRepository.delete, allocArray, bind, ret.
  destruct (cards w !! id) as [card|] eqn:Hdoc; [|done].
  cbn [set_heap cards]. rewrite Hdoc. eexists. split; [reflexivity|]. done.
Qed.

End Deletion.

(** ** Statistics *)

Section Statistics.
Context {S : Type} {inventoryRepository : IInventoryRepository S}.
Implicit Type w : World S.

Lemma filter_all {A} (P : A -> Prop) `{forall x, Decision (P x)} (l : list A) :
  (forall x, P x) -> filter P l = l.
Proof.
  intros HP. induction l as [|x l IH]; [done|].
  rewrite filter_cons_True by done. by rewrite IH.
Qed.

Lemma Forall2_filter_length {A B} (R : A -> B -> Prop) (P : A -> Prop) (Q : B -> Prop)
    `{forall x, Decision (P x)} `{forall y, Decision (Q y)} es ds :
  (forall e d, R e d -> (P e <-> Q d)) ->
  Forall2 R es ds -> length (filter P es) = length (filter Q ds).
Proof.
  intros HR Hall. induction Hall as [|e d es ds Hed Hall IH]; [done|].
  rewrite !filter_cons. specialize (HR _ _ Hed).
  destruct (decide (P e)), (decide (Q d)); cbn [length]; tauto || lia.
Qed.

(** What the loop of [getCardsStats] does to the counters. *)
Lemma stats_loop (es : list ProductionCardEntity) : forall stats,
  let stats' :=
    foldl (fun stats card =>
             CardsStats.mk
               (CardsStats.totalCards stats)
               (increment (ProductionCard.status card) (CardsStats.byStatus stats))
               (increment (default NORMAL (ProductionCard.priority card))
                          (CardsStats.byPriority stats))
               (CardsStats.overdue stats))
          stats es in
  CardsStats.totalCards stats' = CardsStats.totalCards stats
  /\ CardsStats.overdue stats' = CardsStats.overdue stats
  /\ (forall s, CardsStats.byStatus stats' s
                = CardsStats.byStatus stats s
                  + Z.of_nat (length (filter (fun e => ProductionCard.status e = s) es)))
  /\ (forall p, CardsStats.byPriority stats' p
                = CardsStats.byPriority stats p
                  + Z.of_nat (length (filter
                                        (fun e => default NORMAL (ProductionCard.priority e)
                                                  = p) es))).
Proof.
  induction es as [|e es IH]; intros stats; cbn [foldl].
  - cbn [filter list_filter length]. repeat split; intros; lia.
  - destruct (IH (CardsStats.mk
                    (CardsStats.totalCards stats)
                    (increment (ProductionCard.status e) (CardsStats.byStatus stats))
                    (increment (default NORMAL (ProductionCard.priority e))
                               (CardsStats.byPriority stats))
                    (CardsStats.overdue stats)))
      as (Ht & Ho & Hs & Hp).
    cbv zeta. split; [exact Ht|]. split; [exact Ho|]. split.
    + intros s. rewrite Hs. cbn [CardsStats.byStatus]. unfold increment.
      rewrite filter_cons.
      destruct (decide (s = ProductionCard.status e)) as [->|Hne].
      * rewrite decide_True by done. cbn [length]. lia.
      * rewrite decide_False by congruence. lia.
    + intros p. rewrite Hp. cbn [CardsStats.byPriority]. unfold increment.
      rewrite filter_cons.
      destruct (decide (p = default NORMAL (ProductionCard.priority e))) as [->|Hne].
      * rewrite decide_True by done. cbn [length]. lia.
      * rewrite decide_False by congruence. lia.
Qed.

Lemma status_counts_add_up (ds : list ProductionCardDocument) :
  let count s := Z.of_nat (length (filter (fun d => ProductionCard.status d = s) ds)) in
  count ProductionCardStatus.PENDING + count ProductionCardStatus.IN_PROGRESS
  + count ProductionCardStatus.PAUSED + count ProductionCardStatus.COMPLETED
  + count ProductionCardStatus.CANCELLED = Z.of_nat (length ds).
Proof.
  induction ds as [|d ds IH]; [done|]. cbv beta zeta in *. rewrite !filter_cons.
  destruct (ProductionCard.status d);
    repeat (first [rewrite decide_True by done | rewrite decide_False by done]);
    cbn [length]; lia.
Qed.

Lemma priority_counts_add_up (ds : list ProductionCardDocument) :
  let count p :=
    Z.of_nat (length (filter (fun d => default NORMAL (ProductionCard.priority d) = p) ds))
  in
  count LOW + count NORMAL + count HIGH + count URGENT = Z.of_nat (length ds).
Proof.
  induction ds as [|d ds IH]; [done|]. cbv beta zeta in *. rewrite !filter_cons.
  destruct (default NORMAL (ProductionCard.priority d));
    repeat (first [rewrite decide_True by done | rewrite decide_False by done]);
    cbn [length]; lia.
Qed.

(** X18: the statistics of the cards count every stored card once by status
    and once by priority, a card without priority counting as normal, so the
    counts by status and the counts by priority each add up to the total;
    the overdue count is the number of cards past their due date that are
    neither completed nor cancelled. *)
Theorem getCardsStats_counts_every_card_once
    (regexMatch : string -> string -> bool) (now : Date) (w : World S) :
  let stored := snd <$> map_to_list (cards w) in
  let count (P : ProductionCardDocument -> Prop) `{forall d, Decision (P d)} :=
    Z.of_nat (length (filter P stored)) in
  exists stats w',
    ProductionCardUseCases.getCardsStats regexMatch now w = (Ok stats, w')
    /\ sameDatabase w w'
    /\ CardsStats.totalCards stats = Z.of_nat (size (cards w))
    /\ (forall s, CardsStats.byStatus stats s
                  = count (fun d => ProductionCard.status d = s))
    /\ (forall p, CardsStats.byPriority stats p
                  = count (fun d => default NORMAL (ProductionCard.priority d) = p))
    /\ CardsStats.overdue stats
       = count (fun d => ProductionCard.dueDate d < now
                         /\ ProductionCard.status d <> ProductionCardStatus.COMPLETED
                         /\ ProductionCard.status d <> ProductionCardStatus.CANCELLED)
    /\ CardsStats.byStatus stats ProductionCardStatus.PENDING
       + CardsStats.byStatus stats ProductionCardStatus.IN_PROGRESS
       + CardsStats.byStatus stats ProductionCardStatus.PAUSED
       + CardsStats.byStatus stats ProductionCardStatus.COMPLETED
       + CardsStats.byStatus stats ProductionCardStatus.CANCELLED
       = CardsStats.totalCards stats
    /\ CardsStats.byPriority stats LOW + CardsStats.byPriority stats NORMAL
       + CardsStats.byPriority stats HIGH + CardsStats.byPriority stats URGENT
       = CardsStats.totalCards stats
    /\ 0 <= CardsStats.overdue stats <= CardsStats.totalCards stats.
Proof.
  intros stored count. unfold ProductionCardUseCases.getCardsStats,
    ProductionCardUseCases.getOverdueCards,
    MongoProductionCardRepository.getOverdueCards.
  destruct (card_findAll_run regexMatch ProductionCardFilters.empty now w)
    as (es & docs & w1 & Hrun & _ & Hall & Hperm & Hinv1 & Horders1 & Hcards1).
  rewrite (run_bind_Ok _ _ _ _ _ Hrun).
  destruct (card_listing_run
              (fun doc => (ProductionCard.dueDate doc <? now)
                          && negb (bool_decide (ProductionCard.status doc
                                                = ProductionCardStatus.COMPLETED))
                          && negb (bool_decide (ProductionCard.status doc
                                                = ProductionCardStatus.CANCELLED)))
              w1) as (es2 & docs2 & w' & Hrun2 & Hall2 & _ & Hperm2 & Hinv2 & Horders2 & Hcards2).
  rewrite (run_bind_Ok _ _ _ _ _ Hrun2). unfold ret.
  rewrite (filter_all _ _ (matchesQuery_empty regexMatch now)) in Hperm.
  fold stored in Hperm. rewrite Hcards1 in Hperm2. fold stored in Hperm2.
  match goal with |- context [foldl ?f ?s es] =>
    destruct (stats_loop es s) as (Ht & Ho & Hs & Hp) end.
  cbv zeta in Ht, Ho, Hs, Hp. cbn [CardsStats.totalCards CardsStats.overdue
    CardsStats.byStatus CardsStats.byPriority] in Ht, Ho, Hs, Hp.
  assert (Hlen : length es = length stored).
  { rewrite (Forall2_length _ _ _ Hall). by rewrite Hperm. }
  assert (HbyStatus : forall s,
            length (filter (fun e => ProductionCard.status e = s) es)
            = length (filter (fun d => ProductionCard.status d = s) stored)).
  { intros s. rewrite <- Hperm. apply (Forall2_filter_length entityOf); [|done].
    intros e d Hed. apply entityOf_fields in Hed as (_ & _ & _ & -> & _). done. }
  assert (HbyPriority : forall p,
            length (filter (fun e => default NORMAL (ProductionCard.priority e) = p) es)
            = length (filter (fun d => default NORMAL (ProductionCard.priority d) = p)
                             stored)).
  { intros p. rewrite <- Hperm. apply (Forall2_filter_length entityOf); [|done].
    intros e d Hed. apply entityOf_fields in Hed as (_ & _ & _ & _ & -> & _). done. }
  assert (Hoverdue : length es2
            = length (filter (fun d => ProductionCard.dueDate d < now
                                /\ ProductionCard.status d <> ProductionCardStatus.COMPLETED
                                /\ ProductionCard.status d <> ProductionCardStatus.CANCELLED)
                             stored)).
  { rewrite (Forall2_length _ _ _ Hall2), Hperm2. f_equal.
    apply list_filter_iff. intros d.
    rewrite !andb_true_iff, !negb_true_iff, !bool_decide_eq_false, Z.ltb_lt. tauto. }
  eexists _, w'. split; [reflexivity|].
  split; [split; [|split]; congruence|].
  split; [rewrite Ht, Hlen; unfold stored;
          by rewrite length_fmap, length_map_to_list|].
  assert (HS : forall s, CardsStats.byStatus _ s = count (fun d => ProductionCard.status d = s) _)
    by (intros s; rewrite Hs, HbyStatus; unfold count; lia).
  assert (HP : forall p, CardsStats.byPriority _ p
                         = count (fun d => default NORMAL (ProductionCard.priority d) = p) _)
    by (intros p; rewrite Hp, HbyPriority; unfold count; lia).
  split; [exact HS|]. split; [exact HP|].
  split; [rewrite Ho, Hoverdue; done|].
  split; [rewrite !HS, Ht, Hlen; apply status_counts_add_up|].
  split; [rewrite !HP, Ht, Hlen; apply priority_counts_add_up|].
  rewrite Ho, Ht, Hoverdue, Hlen. split; [lia|].
  apply inj_le, length_filter.
Qed.

End Statistics.

(** ** The cards of a new order *)

Lemma NoDup_fmap_elem_inj {A B} (f : A -> B) (l : list A) x y :
  NoDup (f <$> l) -> x ∈ l -> y ∈ l -> f x = f y -> x = y.
Proof.
  induction l as [|a l IH]; intros Hnd Hx Hy Hf; [by apply elem_of_nil in Hx|].
  rewrite fmap_cons in Hnd. apply NoDup_cons in Hnd as [Ha Hnd].
  apply elem_of_cons in Hx as [->|Hx]; apply elem_of_cons in Hy as [->|Hy].
  - done.
  - exfalso. apply Ha. rewrite Hf. apply list_elem_of_fmap. eauto.
  - exfalso. apply Ha. rewrite <- Hf. apply list_elem_of_fmap. eauto.
  - by apply IH.
Qed.

Lemma filter_fmap {A B} (f : A -> B) (P : B -> Prop) `{forall y, Decision (P y)}
    (l : list A) :
  filter P (f <$> l) = f <$> filter (fun x => P (f x)) l.
Proof.
  induction l as [|x l IH]; [done|].
  rewrite fmap_cons, !filter_cons. destruct (decide (P (f x))); by rewrite IH.
Qed.

Lemma StronglySorted_fmap_inv {A} (f : A -> Z) (l : list A) :
  StronglySorted Z.le (f <$> l) -> StronglySorted (fun a b => f a <= f b) l.
Proof.
  induction l as [|x l IH]; intros Hs; [constructor|].
  rewrite fmap_cons in Hs. apply StronglySorted_inv in Hs as [Hs Hx].
  constructor; [by apply IH|].
  rewrite Forall_forall in Hx. apply Forall_forall. intros b Hb.
  apply Hx, list_elem_of_fmap. eauto.
Qed.

Lemma seqZ_StronglySorted (len : nat) : forall m,
  StronglySorted Z.le (seqZ m (Z.of_nat len)).
Proof.
  induction len as [|len IH]; intros m.
  - rewrite seqZ_nil by done. constructor.
  - rewrite Nat2Z.inj_succ, seqZ_cons by lia.
    replace (Z.pred (Z.succ (Z.of_nat len))) with (Z.of_nat len) by lia.
    constructor; [apply IH|].
    apply Forall_forall. intros x Hx. apply elem_of_seqZ in Hx. lia.
Qed.

Section NewOrderCards.
Context {S : Type} {inventoryRepository : IInventoryRepository S}.
Implicit Type w : World S.

Lemma createMultipleProductionCards_stored now cs requests : forall w es w',
  ProductionCardUseCases.createMultipleProductionCards requests now w = (Ok es, w') ->
  Forall (fun request =>
            heap w !! CreateProductionCardRequest.components request = Some cs)
         requests ->
  forall k d, cards w' !! k = Some d ->
    cards w !! k = Some d
    \/ exists e, e ∈ es /\ ProductionCard.id e = k
                 /\ d = ProductionCard.with_components cs e.
Proof.
  unfold ProductionCardUseCases.createMultipleProductionCards.
  induction requests as [|request requests IH]; intros w es w' H Hall k d Hd;
    simpl in H.
  - injection H as <- <-. by left.
  - apply Forall_cons in Hall as [Hreq Hall].
    apply bind_Ok_inv in H as (e & w1 & Hone & H).
    apply bind_Ok_inv in H as (es' & w2 & Hrest & H).
    injection H as <- <-.
    destruct (createProductionCard_inv _ _ _ _ _ _ Hone Hreq)
      as (_ & _ & _ & Hheap & _ & Hcards & _).
    assert (Hall1 : Forall (fun request =>
                heap w1 !! CreateProductionCardRequest.components request = Some cs)
              requests).
    { eapply Forall_impl; [exact Hall|]. intros r Hr. simpl in Hr.
      by eapply lookup_weaken. }
    destruct (IH _ _ _ Hrest Hall1 k d Hd) as [Hold|(e' & He' & Hk & ->)].
    + rewrite Hcards in Hold. apply lookup_insert_Some in Hold as [[<- <-]|[_ Hold]].
      * right. exists e. split; [by left | done].
      * by left.
    + right. exists e'. split; [by right | done].
Qed.

Lemma createManufacturingOrder_stored_cards
    (request : CreateManufacturingOrderRequest.t) (now : Date)
    (w w' : World S) (result : CreateResult.t) :
  ManufacturingOrderUseCases.createManufacturingOrder request now w = (Ok result, w') ->
  exists resolved,
    orders w !! ManufacturingOrder.id (CreateResult.order result) = None
    /\ ProductionCard.cardNumber <$> CreateResult.cards result
       = seqZ 1 (CreateManufacturingOrderRequest.quantity request)
    /\ Forall (fun e => ProductionCard.orderId e
                        = ManufacturingOrder.id (CreateResult.order result)
                        /\ cards w' !! ProductionCard.id e
                           = Some (ProductionCard.with_components resolved e))
              (CreateResult.cards result)
    /\ forall k d, cards w' !! k = Some d ->
         cards w !! k = Some d
         \/ exists e, e ∈ CreateResult.cards result /\ ProductionCard.id e = k
                      /\ d = ProductionCard.with_components resolved e.
Proof.
  intros Hrun.
  unfold ManufacturingOrderUseCases.createManufacturingOrder in Hrun.
  apply bind_Ok_inv in Hrun as (found & wA & Hfind & Hrun).
  apply callInventory_frame in Hfind as (HoA & HcA & HhA).
  destruct found as [model|]; [|discriminate].
  destruct (bool_decide (InventoryItem.canManufacture model = Some false)); [discriminate|].
  destruct (negb (bool_decide (InventoryItem.type model = MODEL))); [discriminate|].
  apply bind_Ok_inv in Hrun as (r0 & wB & Halloc & Hrun).
  apply allocArray_inv in Halloc as [Hr0 ->].
  apply bind_Ok_inv in Hrun as ([] & wC & Hresolve & Hrun).
  assert (Hres : exists resolved,
             heap wC = <[r0 := resolved]> (heap wA)
             /\ orders wC = orders wA /\ cards wC = cards wA).
  { set (wB := set_heap _ wA) in *.
    assert (Hcs0 : heap wB !! r0 = Some []) by apply lookup_insert_eq.
    assert (Hloop : forall ids,
              forEach ids (ManufacturingOrderUseCases.resolveComponent r0) wB = (Ok tt, wC) ->
              exists resolved,
                heap wC = <[r0 := resolved]> (heap wA)
                /\ orders wC = orders wA /\ cards wC = cards wA).
    { intros ids Hloop.
      destruct (forEach_resolve_inv _ _ _ _ _ Hloop Hcs0) as (added & Hh & Hu & Ho & Hc).
      exists added. simpl in Hh. rewrite insert_insert_eq in Hh. done. }
    destruct (CreateManufacturingOrderRequest.componentIds request) as [|i ids].
    - destruct (InventoryItem.components model) as [|i ids].
      + injection Hresolve as <-. exists []. subst wB. simpl. done.
      + by apply Hloop in Hresolve.
    - by apply Hloop in Hresolve. }
  destruct Hres as (resolved & HhC & HoC & HcC).
  apply bind_Ok_inv in Hrun as (order0 & wD & Hcreate & Hrun).
  apply order_create_inv in Hcreate
    as (cs & Hcs & Hr1 & HhD & Hid & HoD & HcD & _).
  simpl in Hcs.
  rewrite HhC, lookup_insert_eq in Hcs. injection Hcs as <-.
  apply bind_Ok_inv in Hrun as (requests & wE & Hreqs & Hrun).
  assert (Hr0D : heap wD !! r0 = Some resolved).
  { rewrite HhD. rewrite lookup_insert_ne.
    - rewrite HhC. apply lookup_insert_eq.
    - intros <-. by rewrite HhC, lookup_insert_eq in Hr1. }
  apply (cardRequests_inv r0 _ resolved) in Hreqs as (Hall & HhE & HoE & HcE);
    [|exact Hr0D].
  apply bind_Ok_inv in Hrun as (es & wF & Hmulti & Hrun).
  injection Hrun as <- <-.
  assert (HreqsE : Forall (fun request0 =>
             heap wE !! CreateProductionCardRequest.components request0 = Some resolved)
             requests).
  { clear -Hall. induction Hall as [|i rq l l' (r & -> & Hr) _ IH]; constructor; done. }
  destruct (createMultipleProductionCards_inv _ _ _ _ _ _ Hmulti HreqsE)
    as (Hfields & Hes & _).
  pose proof (createMultipleProductionCards_stored _ _ _ _ _ _ Hmulti HreqsE) as Hstored.
  exists resolved. cbn [CreateResult.cards CreateResult.order].
  assert (Hnumbers : ProductionCard.cardNumber <$> es
                     = seqZ 1 (CreateManufacturingOrderRequest.quantity request)
          /\ Forall (fun card => ProductionCard.orderId card = ManufacturingOrder.id order0)
                    es).
  { clear -Hall Hfields. revert es Hfields. revert Hall.
    generalize (seqZ 1 (CreateManufacturingOrderRequest.quantity request)) as numbers.
    intros numbers Hall.
    induction Hall as [|i rq l l' (r & -> & Hr) _ IH]; intros es Hf.
    - apply Forall2_nil_inv_l in Hf as ->. split; [done | constructor].
    - apply Forall2_cons_inv_l in Hf as (e & es' & Hone & Hf & ->).
      destruct (IH _ Hf) as [IH1 IH2].
      destruct Hone as (? & ? & ? & ? & ? & ?). simpl in *.
      split; [by f_equal | by constructor]. }
  destruct Hnumbers as [Hnum Horder].
  split; [by rewrite <- HoA, <- HoC|]. split; [done|]. split.
  - rewrite Forall_forall in Horder, Hes. apply Forall_forall. intros e He.
    split; [by apply Horder|]. by destruct (Hes _ He) as (_ & _ & ?).
  - intros k d Hd. rewrite <- HcA, <- HcC, <- HcD, <- HcE. by apply Hstored.
Qed.

(** X19: after an order is created, the cards listed for that order are the
    cards that the creation returned, in the same order, numbered 1 to the
    quantity ordered, each as a fresh copy; this holds when every card stored
    before is a card of a stored order. *)
Theorem new_order_cards_listed_in_number_order
    (request : CreateManufacturingOrderRequest.t) (now : Date)
    (w w' : World S) (result : CreateResult.t) :
  ManufacturingOrderUseCases.createManufacturingOrder request now w = (Ok result, w') ->
  cardsBelongToOrders w ->
  exists listed w'',
    ProductionCardUseCases.getCardsByOrder
      (ManufacturingOrder.id (CreateResult.order result)) w' = (Ok listed, w'')
    /\ sameDatabase w' w''
    /\ ProductionCard.cardNumber <$> listed
       = seqZ 1 (CreateManufacturingOrderRequest.quantity request)
    /\ Forall2 (fun card created =>
                  ProductionCard.with_components (ProductionCard.components created) card
                  = created)
               listed (CreateResult.cards result).
Proof.
  intros Hrun Hbelong.
  destruct (createManufacturingOrder_stored_cards _ _ _ _ _ Hrun)
    as (resolved & Hfresh & Hnum & Hes & Hstored).
  assert (Hold : forall k card, cards w !! k = Some card ->
            ProductionCard.orderId card
            <> ManufacturingOrder.id (CreateResult.order result)).
  { intros k card Hcard Heq. destruct (Hbelong k card Hcard) as [o Ho].
    rewrite Heq in Ho. congruence. }
  set (order := CreateResult.order result) in *.
  set (es := CreateResult.cards result) in *.
  unfold ProductionCardUseCases.getCardsByOrder.
  destruct (findByOrderId_run (ManufacturingOrder.id order) w')
    as (listed & docs & w'' & Hlist & Hall & Hsorted & Hperm & Hdb).
  exists listed, w''. split; [done|]. split; [done|].
  set (created := ProductionCard.with_components resolved <$> es).
  assert (HcardNumber : ProductionCard.cardNumber <$> created
                        = seqZ 1 (CreateManufacturingOrderRequest.quantity request)).
  { rewrite <- Hnum. unfold created. rewrite <- list_fmap_compose.
    apply list_fmap_ext. intros _ e _. by destruct e. }
  assert (Hsub : forall d, d ∈ docs <-> d ∈ created).
  { intros d. unfold created. rewrite Hperm, list_elem_of_filter, !list_elem_of_fmap. split.
    - intros (Ho & [k d'] & -> & Hd). apply elem_of_map_to_list in Hd. cbn [snd] in *.
      destruct (Hstored _ _ Hd) as [Hd0|(e & He & _ & ->)].
      + by destruct (Hold _ _ Hd0).
      + by exists e.
    - intros (e & -> & He). rewrite Forall_forall in Hes.
      destruct (Hes _ He) as [Ho Hd]. split; [by destruct e|].
      exists (ProductionCard.id e, ProductionCard.with_components resolved e).
      split; [done|]. by apply elem_of_map_to_list. }
  assert (Hnd : NoDup (ProductionCard.cardNumber <$> created)).
  { rewrite HcardNumber. apply NoDup_seqZ. }
  assert (HndDocs : NoDup docs).
  { rewrite Hperm, filter_fmap. apply NoDup_fmap_2_strong.
    2:{ apply NoDup_filter, NoDup_map_to_list. }
    assert (Hk : forall kd : string * ProductionCardDocument,
              kd ∈ filter (fun kd => ProductionCard.orderId kd.2
                                     = ManufacturingOrder.id order)
                          (map_to_list (cards w')) ->
              kd.1 = ProductionCard.id kd.2).
    { intros [k d] Hkd. apply list_elem_of_filter in Hkd as [Ho Hkd].
      apply elem_of_map_to_list in Hkd. cbn [fst snd] in *.
      destruct (Hstored _ _ Hkd) as [Hd0|(e & _ & <- & ->)].
      - by destruct (Hold _ _ Hd0).
      - by destruct e. }
    intros [k1 d1] [k2 d2] H1 H2 Heq. cbn [snd] in Heq. subst d2.
    apply Hk in H1, H2. cbn [fst snd] in *. congruence. }
  assert (Hdocs : docs = created).
  { assert (HpermC : docs ≡ₚ created).
    { apply NoDup_Permutation; [done| |done].
      eapply NoDup_fmap_1. exact Hnd. }
    set (R := fun a b : ProductionCardDocument =>
                ProductionCard.cardNumber a <= ProductionCard.cardNumber b).
    apply (StronglySorted_unique_strong R); [| | |done].
    - intros x1 x2 H1 H2 H12 H21. apply Hsub in H1.
      eapply (NoDup_fmap_elem_inj ProductionCard.cardNumber); [exact Hnd|done|done|].
      unfold R in *. lia.
    - eapply StronglySorted_Forall2; [|apply Forall2_flip; exact Hall|exact Hsorted].
      intros d1 d2 e1 e2 H1 H2. cbv beta in H1, H2.
      apply entityOf_fields in H1 as (_ & _ & -> & _), H2 as (_ & _ & -> & _). done.
    - assert (Hs : StronglySorted Z.le (ProductionCard.cardNumber <$> created)).
      { rewrite HcardNumber.
        destruct (Z.le_gt_cases 0 (CreateManufacturingOrderRequest.quantity request)).
        - rewrite <- (Z2Nat.id (CreateManufacturingOrderRequest.quantity request)) by done.
          apply seqZ_StronglySorted.
        - rewrite seqZ_nil by lia. constructor. }
      by apply StronglySorted_fmap_inv in Hs. }
  subst docs. split.
  - rewrite <- HcardNumber. clear -Hall.
    induction Hall as [|e d es' ds Hed _ IH]; [done|].
    rewrite !fmap_cons, IH. f_equal.
    by apply entityOf_fields in Hed as (_ & _ & -> & _).
  - unfold created in Hall. rewrite Forall2_fmap_r in Hall.
    eapply Forall2_impl; [exact Hall|]. intros e c. unfold entityOf. cbv beta.
    intros He. destruct e, c. cbn in *. by injection He as -> -> -> -> -> -> -> -> -> -> -> -> -> -> -> -> -> -> ->.
Qed.

End NewOrderCards.

(** ** Progress, remaining time and their presentation *)

Lemma Math_ceil_div a (p : positive) :
  Math_ceil (inject_Z a / inject_Z (Z.pos p)) = - ((- a) `div` Z.pos p).
Proof.
  unfold Math_ceil, Qceiling. f_equal.
  transitivity (Qfloor ((- a) # p)); [|done].
  apply Qfloor_comp. unfold Qeq, Qopp, Qdiv, Qinv, Qmult, inject_Z. simpl. lia.
Qed.

Lemma Math_ceil_le a (p : positive) k :
  Math_ceil (inject_Z a / inject_Z (Z.pos p)) <= k <-> a <= k * Z.pos p.
Proof.
  rewrite Math_ceil_div.
  pose proof (Z.div_mod (- a) (Z.pos p) ltac:(lia)).
  pose proof (Z.mod_pos_bound (- a) (Z.pos p) ltac:(lia)).
  nia.
Qed.









(** X21: the remaining time of an order is a whole number of hours, never
    negative: 0 when the order is completed or its due date is reached, and
    otherwise the least number of hours that covers the time left, so less
    than an hour more than it.  The virtual of the order schema gives the
    same number. *)
Theorem getRemainingTime_covers_the_time_left
    (order : ManufacturingOrderDocument) (now : Date) :
  let remaining := ManufacturingOrderEntityClass.getRemainingTime order now in
  let left := ManufacturingOrder.dueDate order - now in
  0 <= remaining
  /\ (remaining = 0 <-> ManufacturingOrder.status order = COMPLETED \/ left <= 0)
  /\ (ManufacturingOrder.status order <> COMPLETED -> 0 < left ->
      (remaining - 1) * hour < left <= remaining * hour)
  /\ ManufacturingOrderModel.remainingHours order now = remaining.
Proof.
  intros remaining left. subst remaining.
  unfold ManufacturingOrderEntityClass.getRemainingTime,
    ManufacturingOrderModel.remainingHours.
  fold left. change (1000 * 60 * 60) with (Z.pos 3600000).
  change hour with (Z.pos 3600000).
  rewrite Math_ceil_div.
  pose proof (Z.div_mod (- left) (Z.pos 3600000) ltac:(lia)) as Hdiv.
  pose proof (Z.mod_pos_bound (- left) (Z.pos 3600000) ltac:(lia)) as Hmod.
  destruct (bool_decide (ManufacturingOrder.status order = COMPLETED)) eqn:Hst.
  - apply bool_decide_eq_true in Hst. split; [done|]. split; [tauto|]. done.
  - apply bool_decide_eq_false in Hst. split; [lia|]. split; [|split; [|done]].
    + split; [intros H; right; lia | intros [?|?]; [done | lia]].
    + intros _ Hleft. lia.
Qed.

(** X22: the priority that the production queue page derives from a due
    date depends on the time left only, with thresholds at exactly 3, 7 and
    14 days: urgent up to 3 days (and when overdue), high up to 7, normal up
    to 14, low beyond; a later due date never gives a more urgent
    priority. *)
Theorem calculateAutoPriority_thresholds (dueDate dueDate' now : Date) :
  let left := dueDate - now in
  ProductionQueue.calculateAutoPriority dueDate now
  = (if left <=? 3 * day then URGENT
     else if left <=? 7 * day then HIGH
     else if left <=? 14 * day then NORMAL
     else LOW)
  /\ (dueDate <= dueDate' ->
      (listingRank (Some (ProductionQueue.calculateAutoPriority dueDate now))
       <= listingRank (Some (ProductionQueue.calculateAutoPriority dueDate' now)))%nat).
Proof.
  intros left.
  assert (Hcalc : forall d,
            ProductionQueue.calculateAutoPriority d now
            = (if d - now <=? 3 * day then URGENT
               else if d - now <=? 7 * day then HIGH
               else if d - now <=? 14 * day then NORMAL
               else LOW)).
  { intros d. unfold ProductionQueue.calculateAutoPriority.
    change (1000 * 3600 * 24) with (Z.pos 86400000).
    change day with (Z.pos 86400000). cbv zeta.
    pose proof (Math_ceil_le (d - now) 86400000 (-1)) as Hneg.
    pose proof (Math_ceil_le (d - now) 86400000 3) as H3.
    pose proof (Math_ceil_le (d - now) 86400000 7) as H7.
    pose proof (Math_ceil_le (d - now) 86400000 14) as H14.
    set (diffDays := Math_ceil _) in *.
    destruct (Z.ltb_spec diffDays 0), (Z.leb_spec diffDays 3), (Z.leb_spec diffDays 7),
      (Z.leb_spec diffDays 14), (Z.leb_spec (d - now) (3 * Z.pos 86400000)),
      (Z.leb_spec (d - now) (7 * Z.pos 86400000)),
      (Z.leb_spec (d - now) (14 * Z.pos 86400000)); try done; lia. }
  split; [apply Hcalc|].
  intros Hle. rewrite !Hcalc. change day with (Z.pos 86400000).
  destruct (Z.leb_spec (dueDate - now) (3 * Z.pos 86400000)),
    (Z.leb_spec (dueDate - now) (7 * Z.pos 86400000)),
    (Z.leb_spec (dueDate - now) (14 * Z.pos 86400000)),
    (Z.leb_spec (dueDate' - now) (3 * Z.pos 86400000)),
    (Z.leb_spec (dueDate' - now) (7 * Z.pos 86400000)),
    (Z.leb_spec (dueDate' - now) (14 * Z.pos 86400000));
    unfold listingRank; simpl; lia.
Qed.

(** X23: for a number of minutes above -60, so for every elapsed time, the
    server ([formatMinutes]) and the production queue page ([formatTime])
    write the same text: the minutes alone below one hour, hours and minutes
    from one hour on. *)
Theorem formatMinutes_agrees_with_formatTime (minutes : Z) :
  -60 < minutes ->
  ManufacturingOrderController.formatMinutes minutes = ProductionQueue.formatTime minutes
  /\ (minutes < 60 ->
      ProductionQueue.formatTime minutes = pretty minutes +:+ "m")
  /\ (60 <= minutes ->
      ProductionQueue.formatTime minutes
      = pretty (minutes `div` 60) +:+ "h " +:+ pretty (minutes `mod` 60) +:+ "m").
Proof.
  intros Hm. unfold ManufacturingOrderController.formatMinutes, ProductionQueue.formatTime.
  cbv zeta.
  destruct (Z.ltb_spec minutes 60) as [Hlt|Hge].
  - split; [|split; [done | lia]].
    assert (Hh : minutes `div` 60 <= 0).
    { apply Z.lt_succ_r, Z.div_lt_upper_bound; lia. }
    destruct (Z.ltb_spec 0 (minutes `div` 60)); [lia|].
    assert (Hr : minutes `rem` 60 = minutes); [|by rewrite Hr].
    destruct (Z.le_gt_cases 0 minutes); [apply Z.rem_small; lia|].
    assert (Ho : (- - minutes) `rem` 60 = - - minutes).
    { rewrite Z.rem_opp_l by lia. f_equal. apply Z.rem_small. lia. }
    by rewrite Z.opp_involutive in Ho.
  - assert (Hh : 1 <= minutes `div` 60) by (apply Z.div_le_lower_bound; lia).
    destruct (Z.ltb_spec 0 (minutes `div` 60)); [|lia].
    split; [done|]. split; [lia|]. intros _.
    by rewrite Z.rem_mod_nonneg by lia.
Qed.

(** ** The domain classes and the page against the use cases *)

Section Agreement.
Context {S : Type} {inventoryRepository : IInventoryRepository S}.
Implicit Type w : World S.

(** X24: the production queue page offers to complete a card exactly when
    the server accepts to complete it: for a stored card, [canCompleteCard]
    holds if and only if [completeCard] succeeds.  [canComplete] of the card
    class is stricter: it refuses the paused cards that the server
    completes.  [canStart] of the class holds exactly when the server
    starts the card. *)
Theorem canCompleteCard_iff_completeCard_succeeds
    (w : World S) (id : string) (card : ProductionCardDocument) (now : Date) :
  cards w !! id = Some card ->
  (ProductionQueue.canCompleteCard card = true
   <-> exists e w', ProductionCardUseCases.completeCard id now w = (Ok e, w'))
  /\ (ProductionCardEntityClass.canComplete card = true
      <-> ProductionQueue.canCompleteCard card = true
          /\ ProductionCard.status card <> ProductionCardStatus.PAUSED)
  /\ (ProductionCardEntityClass.canStart card = true
      <-> exists e w', ProductionCardUseCases.startProduction id now w = (Ok e, w')).
Proof.
  intros Hdoc. split; [|split].
  - unfold ProductionQueue.canCompleteCard.
    rewrite andb_true_iff, orb_true_iff, !bool_decide_eq_true,
      allComponentsCompleted_forallb.
    split.
    + intros [Hst Hall].
      destruct (completeCard_complete w id card now Hdoc Hst Hall)
        as (e & w1 & w' & Hrun & _). eauto.
    + intros (e & w' & Hrun).
      destruct (decide (activeCard (ProductionCard.status card))) as [Hst|Hst].
      * split; [exact Hst|].
        destruct (decide (allComponentsCompleted (ProductionCard.components card)))
          as [Hall|Hinc]; [done|].
        destruct (completeCard_incomplete w id card now Hdoc Hst Hinc)
          as (w1 & Hthrow & _). congruence.
      * exfalso. revert Hrun. unfold ProductionCardUseCases.completeCard.
        rewrite (run_bind_Ok _ _ _ _ _ (getCardById_found _ _ _ Hdoc)).
        cbn [ProductionCard.status ProductionCard.with_components].
        replace (ProductionCard.status
                   (ProductionCard.with_components (fresh (dom (heap w))) card))
          with (ProductionCard.status card) by by destruct card.
        unfold activeCard in Hst.
        rewrite !bool_decide_false by tauto. cbn [negb andb]. discriminate.
  - unfold ProductionCardEntityClass.canComplete, ProductionQueue.canCompleteCard.
    rewrite !andb_true_iff, orb_true_iff, !bool_decide_eq_true.
    split; [intros [Hst Hall]; rewrite Hst; by repeat split; eauto|].
    intros [[[?|?] ?] ?]; done.
  - unfold ProductionCardEntityClass.canStart. rewrite bool_decide_eq_true. split.
    + intros Hst.
      destruct (card_startProduction_run w id card now Hdoc Hst) as (e & w' & Hrun & _).
      eauto.
    + intros (e & w' & Hrun). revert Hrun.
      unfold ProductionCardUseCases.startProduction.
      rewrite (run_bind_Ok _ _ _ _ _ (getCardById_found _ _ _ Hdoc)).
      replace (ProductionCard.status
                 (ProductionCard.with_components (fresh (dom (heap w))) card))
        with (ProductionCard.status card) by by destruct card.
      destruct (decide (ProductionCard.status card = ProductionCardStatus.PENDING))
        as [Hst|Hst]; [done|].
      rewrite bool_decide_false by done. cbn [negb]. discriminate.
Qed.

(** X25: the class of the orders and the use cases make the same
    transitions: through a start, a pause and a resume of a pending order
    the document that the use cases store is, each time, the state that the
    methods of the class reach from the same document at the same instants,
    and at the end both report the same production time, the pause left
    out. *)
Theorem order_class_agrees_with_use_cases
    (w : World S) (id : string) (this : ManufacturingOrderDocument)
    (t0 t1 t2 later : Date) :
  orders w !! id = Some this ->
  ManufacturingOrder.status this = PENDING ->
  exists started paused resumed e1 e2 e3 w1 w2 w3,
    ManufacturingOrderEntityClass.startProduction this t0 = Returns started
    /\ ManufacturingOrderUseCases.startProduction id t0 w = (Ok e1, w1)
    /\ orders w1 !! id = Some started
    /\ ManufacturingOrderEntityClass.pauseProduction started t1 = Returns paused
    /\ ManufacturingOrderUseCases.pauseProduction id t1 w1 = (Ok e2, w2)
    /\ orders w2 !! id = Some paused
    /\ ManufacturingOrderEntityClass.resumeProduction paused t2 = Returns resumed
    /\ ManufacturingOrderUseCases.resumeProduction id t2 w2 = (Ok e3, w3)
    /\ orders w3 !! id = Some resumed
    /\ ManufacturingOrder.status resumed = IN_PROGRESS
    /\ ManufacturingOrder.components resumed = ManufacturingOrder.components this
    /\ let minutes :=
         Z.max 0 (round_minutes (later - t0 - round_minutes (t2 - t1) * 60000)) in
       ManufacturingOrderEntityClass.getCurrentProductionTime resumed later
       = Returns minutes
       /\ ManufacturingOrderUseCases.getCurrentProductionTime id later w3
          = (Ok minutes, w3).
Proof.
  intros Hdoc Hst.
  set (started := ManufacturingOrder.started t0 this).
  set (paused := ManufacturingOrder.with_status_tracker PAUSED
                   (Some (tt_set_paused t1 (fresh_tracker t0))) t1 started).
  set (resumed := ManufacturingOrder.with_status_tracker IN_PROGRESS
                    (Some (tt_set_resumed (0 + round_minutes (t2 - t1))
                             (tt_set_paused t1 (fresh_tracker t0)))) t2 paused).
  destruct (order_startProduction_run w id this t0 Hdoc Hst)
    as (e1 & w1 & Hrun1 & _ & Horders1 & _).
  assert (Hdoc1 : orders w1 !! id = Some started)
    by (rewrite Horders1; apply lookup_insert_eq).
  destruct (order_pauseProduction_run w1 id started t1 Hdoc1)
    as (e2 & w2 & Hrun2 & Horders2 & _); [by destruct this|].
  assert (Hdoc2 : orders w2 !! id = Some paused).
  { rewrite Horders2, lookup_insert_eq. subst paused started. by destruct this. }
  destruct (order_resumeProduction_run w2 id paused
              (tt_set_paused t1 (fresh_tracker t0)) t1 t2 Hdoc2)
    as (e3 & w3 & Hrun3 & _ & _ & Horders3 & _);
    [by destruct this..|].
  assert (Hdoc3 : orders w3 !! id = Some resumed).
  { rewrite Horders3, lookup_insert_eq. done. }
  exists started, paused, resumed, e1, e2, e3, w1, w2, w3.
  split. { unfold ManufacturingOrderEntityClass.startProduction,
             ManufacturingOrderEntityClass.canStart. by rewrite Hst. }
  do 2 (split; [done|]).
  split. { subst paused started. by destruct this. }
  do 2 (split; [done|]).
  split. { subst resumed paused started. by destruct this. }
  do 2 (split; [done|]).
  split; [by destruct this|]. split; [by destruct this|].
  cbv zeta. split.
  - subst resumed paused started. destruct this.
    unfold ManufacturingOrderEntityClass.getCurrentProductionTime. simpl.
    do 3 f_equal. lia.
  - unfold ManufacturingOrderUseCases.getCurrentProductionTime,
      MongoManufacturingOrderRepository.getCurrentProductionTime,
      MongoManufacturingOrderRepository.findDocument, bind, ret.
    rewrite Hdoc3. subst resumed paused started. destruct this. simpl.
    do 4 f_equal. lia.
Qed.

(** X26: cancelling.  An order is cancelled from any status but completed
    and cancelled, each refused with an error of its own; a card is
    cancelled from any status but completed, so a cancelled card is
    cancelled again.  A cancellation stores the document as cancelled. *)
Theorem cancel_guards (w : World S) (id : string) (now : Date) :
  (forall order, orders w !! id = Some order ->
     match ManufacturingOrder.status order with
     | COMPLETED =>
         exists w', ManufacturingOrderUseCases.cancelOrder id now w
                    = (Throw (Rejected AnOrder CancelCompleted), w')
     | CANCELLED =>
         exists w', ManufacturingOrderUseCases.cancelOrder id now w
                    = (Throw (Rejected AnOrder AlreadyCancelled), w')
     | _ =>
         exists e w', ManufacturingOrderUseCases.cancelOrder id now w = (Ok e, w')
                      /\ ManufacturingOrder.status e = CANCELLED
                      /\ orders w'
                         = <[id := ManufacturingOrder.cancelled now order]> (orders w)
     end)
  /\ (forall card, cards w !! id = Some card ->
        match ProductionCard.status card with
        | ProductionCardStatus.COMPLETED =>
            exists w', ProductionCardUseCases.cancelCard id now w
                       = (Throw (Rejected ACard CancelCompleted), w')
        | _ =>
            exists e w', ProductionCardUseCases.cancelCard id now w = (Ok e, w')
                         /\ ProductionCard.status e = ProductionCardStatus.CANCELLED
                         /\ cards w'
                            = <[id := ProductionCard.cancelled now card]> (cards w)
        end).
Proof.
  split; intros doc Hdoc; [by apply cancelOrder_guard | by apply cancelCard_guard].
Qed.

End Agreement.

(** ** The other listings, and where the class and the use cases part *)

Lemma updateFirst_ext cid f g cs c :
  findComponent cid cs = Some c -> f c = g c -> updateFirst cid f cs = updateFirst cid g cs.
Proof.
  intros Hfind Hfg. induction cs as [|c0 cs IH]; [done|].
  rewrite findComponent_cons in Hfind. cbn [updateFirst].
  destruct (bool_decide (ComponentProgress.componentId c0 = cid)).
  - injection Hfind as ->. by rewrite Hfg.
  - by rewrite IH.
Qed.

Section ClassAndListings.
Context {S : Type} {inventoryRepository : IInventoryRepository S}.
Implicit Type w : World S.

(** X27: the listings by status and by priority and the listing of the
    active cards return the stored orders or cards with that status, that
    priority, or a pending, in progress or paused status, by ascending due
    date alone: unlike the general listing of the cards they do not rank by
    priority, and a card stored without priority is listed under no
    priority. *)
Theorem listings_by_status_and_priority
    (w : World S) (orderStatus : ManufacturingOrderStatus)
    (cardStatus : ProductionCardStatus.t) (priority : ProductionCardPriority) :
  listsOrders (ManufacturingOrderUseCases.getOrdersByStatus orderStatus)
    (fun doc => ManufacturingOrder.status doc = orderStatus) w
  /\ listsCards (ProductionCardUseCases.getCardsByStatus cardStatus)
       (fun doc => ProductionCard.status doc = cardStatus) w
  /\ listsCards (ProductionCardUseCases.getCardsByPriority priority)
       (fun doc => ProductionCard.priority doc = Some priority) w
  /\ listsCards ProductionCardUseCases.getActiveCards
       (fun doc => activeCard (ProductionCard.status doc)
                   \/ ProductionCard.status doc = ProductionCardStatus.PENDING) w.
Proof.
  split; [|split; [|split]].
  - unfold listsOrders, ManufacturingOrderUseCases.getOrdersByStatus,
      MongoManufacturingOrderRepository.getOrdersByStatus.
    destruct (order_listing_run
                (fun doc => bool_decide (ManufacturingOrder.status doc = orderStatus)) w)
      as (es & docs & w' & Hrun & Hall & Hsorted & Hperm & Hdb).
    exists es, docs, w'. do 3 (split; [done|]). split; [|done].
    rewrite Hperm. erewrite list_filter_iff; [done|].
    intros doc. cbv beta. by rewrite bool_decide_eq_true.
  - unfold listsCards, ProductionCardUseCases.getCardsByStatus,
      MongoProductionCardRepository.getCardsByStatus.
    destruct (card_listing_run
                (fun doc => bool_decide (ProductionCard.status doc = cardStatus)) w)
      as (es & docs & w' & Hrun & Hall & Hsorted & Hperm & Hdb).
    exists es, docs, w'. do 3 (split; [done|]). split; [|done].
    rewrite Hperm. erewrite list_filter_iff; [done|].
    intros doc. cbv beta. by rewrite bool_decide_eq_true.
  - unfold listsCards, ProductionCardUseCases.getCardsByPriority,
      MongoProductionCardRepository.getCardsByPriority.
    destruct (card_listing_run
                (fun doc => bool_decide (ProductionCard.priority doc = Some priority)) w)
      as (es & docs & w' & Hrun & Hall & Hsorted & Hperm & Hdb).
    exists es, docs, w'. do 3 (split; [done|]). split; [|done].
    rewrite Hperm. erewrite list_filter_iff; [done|].
    intros doc. cbv beta. by rewrite bool_decide_eq_true.
  - unfold listsCards, ProductionCardUseCases.getActiveCards,
      MongoProductionCardRepository.getActiveCards.
    destruct (card_listing_run
                (fun doc => bool_decide (ProductionCard.status doc
                                         = ProductionCardStatus.PENDING)
                            || bool_decide (ProductionCard.status doc
                                            = ProductionCardStatus.IN_PROGRESS)
                            || bool_decide (ProductionCard.status doc
                                            = ProductionCardStatus.PAUSED)) w)
      as (es & docs & w' & Hrun & Hall & Hsorted & Hperm & Hdb).
    exists es, docs, w'. do 3 (split; [done|]). split; [|done].
    rewrite Hperm. erewrite list_filter_iff; [done|].
    intros doc. unfold activeCard.
    rewrite !orb_true_iff, !bool_decide_eq_true. tauto.
Qed.

(** X28: what the use cases refuse on an order, or a card, that is completed
    or cancelled: updating, starting, pausing, resuming, completing,
    cancelling an order, completing a component, starting a component and
    replacing the materials of a component of an order; starting, pausing,
    resuming, completing a card, completing a component and changing the
    priority of a card.  Each is rejected with an invalid-state error and
    leaves the collections as they were. *)
Theorem terminal_guards
    (w : World S) (id componentId : string) (now : Date)
    (updates : UpdateManufacturingOrderRequest.t) (materials : list MaterialAdjustment.t)
    (priority : ProductionCardPriority) :
  (forall order, orders w !! id = Some order ->
     terminalOrder (ManufacturingOrder.status order) ->
     rejectedUnchanged AnOrder (ManufacturingOrderUseCases.updateOrder id updates now) w
     /\ rejectedUnchanged AnOrder (ManufacturingOrderUseCases.startProduction id now) w
     /\ rejectedUnchanged AnOrder (ManufacturingOrderUseCases.pauseProduction id now) w
     /\ rejectedUnchanged AnOrder (ManufacturingOrderUseCases.resumeProduction id now) w
     /\ rejectedUnchanged AnOrder
          (ManufacturingOrderUseCases.completeComponent id componentId now) w
     /\ rejectedUnchanged AnOrder (ManufacturingOrderUseCases.completeOrder id now) w
     /\ rejectedUnchanged AnOrder (ManufacturingOrderUseCases.cancelOrder id now) w
     /\ rejectedUnchanged AnOrder
          (ManufacturingOrderUseCases.startComponentProduction id componentId now) w
     /\ rejectedUnchanged AnOrder
          (ManufacturingOrderUseCases.updateComponentMaterials id componentId materials now)
          w)
  /\ (forall card, cards w !! id = Some card ->
        terminalCard (ProductionCard.status card) ->
        rejectedUnchanged ACard (ProductionCardUseCases.startProduction id now) w
        /\ rejectedUnchanged ACard (ProductionCardUseCases.pauseProduction id now) w
        /\ rejectedUnchanged ACard (ProductionCardUseCases.resumeProduction id now) w
        /\ rejectedUnchanged ACard
             (ProductionCardUseCases.completeComponent id componentId now) w
        /\ rejectedUnchanged ACard (ProductionCardUseCases.completeCard id now) w
        /\ rejectedUnchanged ACard
             (ProductionCardUseCases.updateCardPriority id priority now) w).
Proof.
  split; intros doc Hdoc Hst.
  - by eapply terminal_order_guarded.
  - by eapply terminal_card_guarded.
Qed.

(** X29: where the class of the orders and the use cases part.  Completing:
    the class completes an order in progress whose components are all
    completed, as the use case does, and refuses a paused one, which the use
    case completes.  Cancelling: the class cancels a cancelled order again,
    which the use case refuses.  Completing a component: on an order in
    progress or paused both reach the same document; the class does it in
    any status and does nothing, without an error, on a component that is
    completed already.  [updateStatus] marks as overdue every order past its
    due date that is not completed, a cancelled one as well. *)
Theorem order_class_departs_from_use_cases
    (w : World S) (id componentId : string) (this : ManufacturingOrderDocument)
    (now : Date) :
  orders w !! id = Some this ->
  (* completeOrder *)
  (allComponentsCompleted (ManufacturingOrder.components this) ->
   (ManufacturingOrder.status this = IN_PROGRESS ->
    ManufacturingOrderEntityClass.completeOrder this now
    = Returns (ManufacturingOrder.completed now this)
    /\ exists e w', ManufacturingOrderUseCases.completeOrder id now w = (Ok e, w')
                    /\ orders w' !! id = Some (ManufacturingOrder.completed now this))
   /\ (ManufacturingOrder.status this = PAUSED ->
       ManufacturingOrderEntityClass.completeOrder this now
       = Throws "Cannot complete order: not all components are finished"
       /\ exists e w', ManufacturingOrderUseCases.completeOrder id now w = (Ok e, w')
                       /\ orders w' !! id = Some (ManufacturingOrder.completed now this)))
  (* cancelOrder *)
  /\ (ManufacturingOrder.status this = CANCELLED ->
      ManufacturingOrderEntityClass.cancelOrder this now
      = Returns (ManufacturingOrder.cancelled now this)
      /\ exists w', ManufacturingOrderUseCases.cancelOrder id now w
                    = (Throw (Rejected AnOrder AlreadyCancelled), w'))
  (* completeComponent *)
  /\ (forall c, findComponent componentId (ManufacturingOrder.components this) = Some c ->
      if ComponentProgress.isCompleted c
      then ManufacturingOrderEntityClass.completeComponent this componentId now
           = Returns this
      else exists this',
             ManufacturingOrderEntityClass.completeComponent this componentId now
             = Returns this'
             /\ ManufacturingOrderEntityClass.completeComponent this' componentId now
                = Returns this'
             /\ (activeOrder (ManufacturingOrder.status this) ->
                 exists e w',
                   ManufacturingOrderUseCases.completeComponent id componentId now w
                   = (Ok e, w')
                   /\ orders w' !! id = Some this'))
  /\ (findComponent componentId (ManufacturingOrder.components this) = None ->
      ManufacturingOrderEntityClass.completeComponent this componentId now
      = Throws "Component not found in this order")
  (* updateStatus *)
  /\ ManufacturingOrder.status (ManufacturingOrderEntityClass.updateStatus this now)
     = (if bool_decide (ManufacturingOrder.dueDate this < now
                        /\ ManufacturingOrder.status this <> COMPLETED)
        then OVERDUE else ManufacturingOrder.status this).
Proof.
  intros Hdoc. split; [|split; [|split; [|split]]].
  - intros Hall. pose proof Hall as Hall'.
    rewrite <- allComponentsCompleted_forallb in Hall'.
    unfold ManufacturingOrderEntityClass.completeOrder,
      ManufacturingOrderEntityClass.canComplete. rewrite Hall'.
    split; intros Hst; rewrite Hst; (split; [done|]).
    + destruct (completeOrder_swallows w id this now Hdoc) as (e & w' & Hrun & _ & Ho);
        [by left; done | done | eauto].
    + destruct (completeOrder_swallows w id this now Hdoc) as (e & w' & Hrun & _ & Ho);
        [by right; done | done | eauto].
  - intros Hst. unfold ManufacturingOrderEntityClass.cancelOrder. rewrite Hst.
    split; [done|].
    pose proof (cancelOrder_guard w id this now Hdoc) as Hc. by rewrite Hst in Hc.
  - intros c Hfind. unfold ManufacturingOrderEntityClass.completeComponent.
    rewrite Hfind. destruct (ComponentProgress.isCompleted c) eqn:Hc; [done|].
    cbn [negb].
    destruct (updateFirst_found componentId
                (fun c => ComponentProgress.set_completed now
                            (ComponentProgress.quantityRequired c) c)
                _ c ltac:(done) Hfind) as (cs' & Hup & _ & Hfind' & _).
    rewrite Hup. eexists. split; [done|]. split.
    + replace (ManufacturingOrder.components
                 (ManufacturingOrder.with_components_at cs' now this)) with cs'
        by by destruct this.
      rewrite Hfind'. done.
    + intros Hst.
      destruct (order_completeComponent_run w id this c componentId now Hdoc Hst Hfind Hc)
        as (e & w' & cs'' & Hrun & Hup' & Ho & _).
      exists e, w'. split; [done|]. rewrite Ho, lookup_insert_eq.
      rewrite (updateFirst_ext componentId
                 (fun c => ComponentProgress.set_completed now
                             (ComponentProgress.quantityRequired c) c)
                 (ComponentProgress.set_completed now
                    (ComponentProgress.quantityRequired c)) _ c Hfind eq_refl) in Hup.
      congruence.
  - intros Hfind. unfold ManufacturingOrderEntityClass.completeComponent.
    by rewrite Hfind.
  - unfold ManufacturingOrderEntityClass.updateStatus,
      ManufacturingOrderEntityClass.isOverdue.
    destruct (Z.ltb_spec (ManufacturingOrder.dueDate this) now);
      destruct (bool_decide (ManufacturingOrder.status this = COMPLETED)) eqn:Hst;
      [apply bool_decide_eq_true in Hst|apply bool_decide_eq_false in Hst
      |apply bool_decide_eq_true in Hst|apply bool_decide_eq_false in Hst];
      cbn [negb andb].
    + rewrite bool_decide_false by tauto. done.
    + rewrite bool_decide_true by tauto. by destruct this.
    + rewrite bool_decide_false by lia. done.
    + rewrite bool_decide_false by lia. done.
Qed.

End ClassAndListings.


(** * Examples, and the claims that the code does not meet *)

Lemma elapsed_time_formula_witness :
  orderTracker exampleWorld "o1" = Some runningTracker
  /\ cardTracker exampleWorld "k1" = Some runningTracker
  /\ orderComponentTracker exampleWorld "o1" "c1" = Some runningTracker
  /\ cardComponentTracker exampleWorld "k2" "c2" = Some runningTracker
  /\ ManufacturingOrderUseCases.getCurrentProductionTime "o1" 600000 exampleWorld
     = (Ok 8, exampleWorld)
  /\ ProductionCardUseCases.getCurrentProductionTime "k1" 600000 exampleWorld
     = (Ok 8, exampleWorld)
  /\ ManufacturingOrderUseCases.getComponentProductionTime "o1" "c1" 600000 exampleWorld
     = (Ok 8, exampleWorld)
  /\ ProductionCardUseCases.getComponentProductionTime "k2" "c2" 600000 exampleWorld
     = (Ok 8, exampleWorld).
Proof.
  pose proof (elapsed_time_formula exampleWorld runningTracker 0 600000
                eq_refl ltac:(lia)) as (Ho & Hc & Hoc & Hcc & _).
  assert (H1 : orderTracker exampleWorld "o1" = Some runningTracker)
    by (vm_compute; reflexivity).
  assert (H2 : cardTracker exampleWorld "k1" = Some runningTracker)
    by (vm_compute; reflexivity).
  assert (H3 : orderComponentTracker exampleWorld "o1" "c1" = Some runningTracker)
    by (vm_compute; reflexivity).
  assert (H4 : cardComponentTracker exampleWorld "k2" "c2" = Some runningTracker)
    by (vm_compute; reflexivity).
  exact (conj H1 (conj H2 (conj H3 (conj H4
           (conj (Ho _ H1) (conj (Hc _ H2) (conj (Hoc _ _ H3) (Hcc _ _ H4)))))))).
Defined.



(** The listing of the example cards: the two urgent cards by due date, then
    the normal card and the card without priority by due date, then the low
    one. *)
Lemma card_listing_example :
  (fun listed : list ProductionCardEntity => ProductionCard.id <$> listed)
    <$> resultOf (fst (ProductionCardUseCases.getAllCards noRegex
                         ProductionCardFilters.empty 1000 exampleWorld))
  = Some ["k5"; "k3"; "k4"; "k2"; "k1"].
Proof. vm_compute. reflexivity. Qed.

Lemma allDone_completed : allComponentsCompleted allDone.
Proof. repeat constructor. Qed.

Lemma oneLeft_incomplete : ~ allComponentsCompleted oneLeft.
Proof.
  intros H. apply allComponentsCompleted_forallb in H. vm_compute in H. discriminate.
Qed.

Lemma complete_iff_all_components_completed_witness :
  (exists e w', ManufacturingOrderUseCases.completeOrder "o1" 1000 exampleWorld = (Ok e, w'))
  /\ (exists w', ManufacturingOrderUseCases.completeOrder "o2" 1000 exampleWorld
                 = (Throw (Rejected AnOrder ComponentsIncomplete), w')
                 /\ sameDatabase exampleWorld w')
  /\ (exists e w', ProductionCardUseCases.completeCard "k1" 1000 exampleWorld = (Ok e, w'))
  /\ (exists w', ProductionCardUseCases.completeCard "k2" 1000 exampleWorld
                 = (Throw (Rejected ACard ComponentsIncomplete), w')
                 /\ sameDatabase exampleWorld w').
Proof.
  destruct (proj1 (complete_iff_all_components_completed exampleWorld 1000 "o1")
              (exampleOrder "o1" "m1" 5 IN_PROGRESS allDone (Some runningTracker))
              ltac:(vm_compute; reflexivity) ltac:(left; reflexivity))
    as (Ho1 & _ & _).
  destruct (proj1 (complete_iff_all_components_completed exampleWorld 1000 "o2")
              (exampleOrder "o2" "m1" 2 PAUSED oneLeft (Some pausedTracker))
              ltac:(vm_compute; reflexivity) ltac:(right; reflexivity))
    as (_ & _ & Ho2).
  destruct (proj2 (complete_iff_all_components_completed exampleWorld 1000 "k1")
              (exampleCard "k1" "o1" "m1" 1 500000 ProductionCardStatus.IN_PROGRESS
                 (Some LOW) allDone (Some runningTracker))
              ltac:(vm_compute; reflexivity) ltac:(left; reflexivity))
    as (Hk1 & _ & _).
  destruct (proj2 (complete_iff_all_components_completed exampleWorld 1000 "k2")
              (exampleCard "k2" "o1" "m1" 2 300000 ProductionCardStatus.PAUSED
                 None oneLeft (Some pausedTracker))
              ltac:(vm_compute; reflexivity) ltac:(right; reflexivity))
    as (_ & _ & Hk2).
  destruct (Ho2 oneLeft_incomplete) as (w2 & Hrun2 & _ & Hdb2).
  destruct (Hk2 oneLeft_incomplete) as (w4 & Hrun4 & _ & Hdb4).
  exact (conj (proj2 Ho1 allDone_completed)
           (conj (ex_intro _ w2 (conj Hrun2 Hdb2))
              (conj (proj2 Hk1 allDone_completed)
                 (ex_intro _ w4 (conj Hrun4 Hdb4))))).
Defined.

Lemma completion_increments_stock_witness :
  (* quantity 5 on a stock of 10 *)
  (exists e w', ManufacturingOrderUseCases.completeOrder "o1" 1000 exampleWorld = (Ok e, w')
      /\ InventoryItem.quantity <$> inventory w' !! "m1" = Some 15)
  (* one card on a stock of 10, its order being for 5 units *)
  /\ (exists e w', ProductionCardUseCases.completeCard "k1" 1000 exampleWorld = (Ok e, w')
      /\ InventoryItem.quantity <$> inventory w' !! "m1" = Some 11)
  (* quantity 3 on a stock of -7: the update is rejected, the order completed *)
  /\ (exists e w', ManufacturingOrderUseCases.completeOrder "o4" 1000 exampleWorld = (Ok e, w')
      /\ inventory w' = inventory exampleWorld)
  /\ (exists e w', ManufacturingOrderUseCases.completeOrder "o4" 1000 exampleWorld = (Ok e, w')
      /\ ManufacturingOrder.status e = COMPLETED)
  (* a card whose model is not in the inventory *)
  /\ (exists e w', ProductionCardUseCases.completeCard "k4" 1000 exampleWorld = (Ok e, w')
      /\ ProductionCard.status e = ProductionCardStatus.COMPLETED).
Proof.
  destruct completion_increments_stock as (Horder & Hcard & Hmorder & Hmcard).
  destruct (Hmorder exampleWorld 1000 "o1"
              (exampleOrder "o1" "m1" 5 IN_PROGRESS allDone (Some runningTracker))
              ltac:(vm_compute; reflexivity) ltac:(left; reflexivity) allDone_completed)
    as (e1 & w1 & Hrun1 & Hinc1 & _).
  destruct (Hmcard exampleWorld 1000 "k1"
              (exampleCard "k1" "o1" "m1" 1 500000 ProductionCardStatus.IN_PROGRESS
                 (Some LOW) allDone (Some runningTracker))
              ltac:(vm_compute; reflexivity) ltac:(left; reflexivity) allDone_completed)
    as (e2 & w2 & Hrun2 & Hinc2 & _).
  destruct (Hmorder exampleWorld 1000 "o4"
              (exampleOrder "o4" "m0" 3 IN_PROGRESS allDone (Some runningTracker))
              ltac:(vm_compute; reflexivity) ltac:(left; reflexivity) allDone_completed)
    as (e3 & w3 & Hrun3 & _ & Hrej3 & _).
  destruct (Horder _ _ exampleWorld 1000 "o4"
              (exampleOrder "o4" "m0" 3 IN_PROGRESS allDone (Some runningTracker))
              ltac:(vm_compute; reflexivity) ltac:(left; reflexivity) allDone_completed)
    as (e3' & w3' & Hrun3' & Hst3 & _).
  destruct (Hcard _ _ exampleWorld 1000 "k4"
              (exampleCard "k4" "o2" "zz" 2 100000 ProductionCardStatus.IN_PROGRESS
                 (Some NORMAL) allDone (Some runningTracker))
              ltac:(vm_compute; reflexivity) ltac:(left; reflexivity) allDone_completed)
    as (e4 & w4 & Hrun4 & Hst4 & _).
  split; [|split; [|split; [|split]]].
  - exists e1, w1. split; [exact Hrun1|].
    exact (Hinc1 (exampleItem "m1" "Torso" MODEL 10 (Some (2 # 1)) ["c1"; "c2"])
             ltac:(vm_compute; reflexivity) ltac:(vm_compute; discriminate)).
  - exists e2, w2. split; [exact Hrun2|].
    exact (Hinc2 (exampleItem "m1" "Torso" MODEL 10 (Some (2 # 1)) ["c1"; "c2"])
             ltac:(vm_compute; reflexivity) ltac:(vm_compute; discriminate)).
  - exists e3, w3. split; [exact Hrun3|].
    exact (Hrej3 (exampleItem "m0" "Brazo" MODEL (-7) (Some 0%Q) ["c1"])
             ltac:(vm_compute; reflexivity) ltac:(vm_compute; reflexivity)).
  - exists e3', w3'. exact (conj Hrun3' Hst3).
  - exists e4, w4. exact (conj Hrun4 Hst4).
Defined.

Lemma resume_accumulates_pause_minutes_witness :
  (* paused at minute 2 with 1 minute of pauses, resumed at minute 5 *)
  (exists e w' tracker',
      ManufacturingOrderUseCases.resumeProduction "o2" 300000 exampleWorld = (Ok e, w')
      /\ orderTracker w' "o2" = Some tracker'
      /\ totalPauseMinutes tracker' = 4
      /\ pauseStartTime tracker' = None /\ isPaused tracker' = false)
  /\ (exists e w' tracker',
      ProductionCardUseCases.resumeProduction "k2" 300000 exampleWorld = (Ok e, w')
      /\ cardTracker w' "k2" = Some tracker'
      /\ totalPauseMinutes tracker' = 4
      /\ pauseStartTime tracker' = None /\ isPaused tracker' = false)
  (* pauses of 2 minutes, 0 minutes and 89 seconds on top of 2 minutes *)
  /\ (exists w' tracker',
      orderPauseResume "o1" examplePauses
        exampleWorld = (Ok tt, w')
      /\ orderTracker w' "o1" = Some tracker'
      /\ totalPauseMinutes tracker' = 5)
  /\ (exists w' tracker',
      cardPauseResume "k1" examplePauses
        exampleWorld = (Ok tt, w')
      /\ cardTracker w' "k1" = Some tracker'
      /\ totalPauseMinutes tracker' = 5).
Proof.
  destruct (@resume_accumulates_pause_minutes (gmap string InventoryItem.t))
    as (Horder & Hcard & Hocycles & Hccycles & _).
  destruct (Horder exampleWorld 300000 "o2"
              (exampleOrder "o2" "m1" 2 PAUSED oneLeft (Some pausedTracker))
              pausedTracker 120000
              ltac:(vm_compute; reflexivity) eq_refl eq_refl eq_refl)
    as (e1 & w1 & t1 & Hrun1 & Ht1 & _ & Hsum1 & Hps1 & Hp1).
  destruct (Hcard exampleWorld 300000 "k2"
              (exampleCard "k2" "o1" "m1" 2 300000 ProductionCardStatus.PAUSED
                 None oneLeft (Some pausedTracker))
              pausedTracker 120000
              ltac:(vm_compute; reflexivity) eq_refl eq_refl eq_refl)
    as (e2 & w2 & t2 & Hrun2 & Ht2 & _ & Hsum2 & Hps2 & Hp2).
  destruct (Hocycles exampleWorld "o1"
              (exampleOrder "o1" "m1" 5 IN_PROGRESS allDone (Some runningTracker))
              runningTracker examplePauses
              ltac:(vm_compute; reflexivity) eq_refl eq_refl)
    as (w3 & t3 & Hrun3 & Ht3 & Hsum3).
  destruct (Hccycles exampleWorld "k1"
              (exampleCard "k1" "o1" "m1" 1 500000 ProductionCardStatus.IN_PROGRESS
                 (Some LOW) allDone (Some runningTracker))
              runningTracker examplePauses
              ltac:(vm_compute; reflexivity) eq_refl eq_refl)
    as (w4 & t4 & Hrun4 & Ht4 & Hsum4).
  split; [|split; [|split]].
  - exists e1, w1, t1. exact (conj Hrun1 (conj Ht1 (conj Hsum1 (conj Hps1 Hp1)))).
  - exists e2, w2, t2. exact (conj Hrun2 (conj Ht2 (conj Hsum2 (conj Hps2 Hp2)))).
  - exists w3, t3. exact (conj Hrun3 (conj Ht3 Hsum3)).
  - exists w4, t4. exact (conj Hrun4 (conj Ht4 Hsum4)).
Defined.

Lemma exampleRequest_succeeds :
  exists result w',
    ManufacturingOrderUseCases.createManufacturingOrder exampleRequest 1000 exampleWorld
    = (Ok result, w').
Proof. vm_compute. eexists _, _. reflexivity. Qed.



(** C7: [cancelCard] has no guard against a card that is already
    cancelled.  The card "k3" is cancelled; cancelling it again succeeds and
    writes the card once more, where [cancelOrder] rejects the cancelled
    order "o5" as already cancelled. *)
Theorem cancelCard_accepts_cancelled_card :
  ProductionCard.status <$> cards exampleWorld !! "k3" = Some ProductionCardStatus.CANCELLED
  /\ ManufacturingOrder.status <$> orders exampleWorld !! "o5" = Some CANCELLED
  /\ fst (ManufacturingOrderUseCases.cancelOrder "o5" 1000 exampleWorld)
     = Throw (Rejected AnOrder AlreadyCancelled)
  /\ isOk (fst (ProductionCardUseCases.cancelCard "k3" 1000 exampleWorld)) = true
  /\ ProductionCard.updatedAt
       <$> cards (snd (ProductionCardUseCases.cancelCard "k3" 1000 exampleWorld)) !! "k3"
     = Some 1000.
Proof. repeat split; vm_compute; reflexivity. Qed.

(** C8: the card use case [startComponentProduction] has no guard against a
    running timer.  The component "c2" of the card "k2" has a tracker that is
    not paused; starting it again succeeds and replaces the tracker by a new
    one, where the order use case rejects the same call on the order "o2"
    ("ya tiene un cronómetro activo"). *)
Theorem card_component_double_start_resets_tracker :
  cardComponentTracker exampleWorld "k2" "c2" = Some runningTracker
  /\ isPaused runningTracker = false
  /\ isOk (fst (ProductionCardUseCases.startComponentProduction
                  "k2" "c2" 600000 exampleWorld)) = true
  /\ cardComponentTracker
       (snd (ProductionCardUseCases.startComponentProduction
               "k2" "c2" 600000 exampleWorld)) "k2" "c2"
     = Some (fresh_tracker 600000)
  /\ orderComponentTracker exampleWorld "o2" "c2" = Some runningTracker
  /\ fst (ManufacturingOrderUseCases.startComponentProduction
            "o2" "c2" 600000 exampleWorld)
     = Throw (Rejected AnOrder ComponentTimerActive).
Proof. repeat split; vm_compute; reflexivity. Qed.

(** C2: operations without a guard on the status.  On the completed order
    "o3", [addMaterialToComponent] appends a material and
    [pauseComponentProduction] pauses a component timer; on the cancelled
    card "k3", [pauseComponentProduction] pauses a component timer and
    [updateCard] changes the notes and the due date. *)
Theorem terminal_entities_accept_component_mutations :
  ManufacturingOrder.status <$> orders exampleWorld !! "o3" = Some COMPLETED
  /\ ProductionCard.status <$> cards exampleWorld !! "k3" = Some ProductionCardStatus.CANCELLED
  (* a material is appended to a component of the completed order *)
  /\ isOk (fst (ManufacturingOrderUseCases.addMaterialToComponent
                  "o3" "c1" "x1" 1 None 1000 exampleWorld)) = true
  /\ orders (snd (ManufacturingOrderUseCases.addMaterialToComponent
                    "o3" "c1" "x1" 1 None 1000 exampleWorld)) !! "o3"
     <> orders exampleWorld !! "o3"
  (* the timer of a component of the completed order is paused *)
  /\ isOk (fst (ManufacturingOrderUseCases.pauseComponentProduction
                  "o3" "c1" 1000 exampleWorld)) = true
  /\ orderComponentTracker
       (snd (ManufacturingOrderUseCases.pauseComponentProduction
               "o3" "c1" 1000 exampleWorld)) "o3" "c1"
     = Some (tt_set_paused 1000 runningTracker)
  (* the timer of a component of the cancelled card is paused *)
  /\ isOk (fst (ProductionCardUseCases.pauseComponentProduction
                  "k3" "c2" 1000 exampleWorld)) = true
  /\ cardComponentTracker
       (snd (ProductionCardUseCases.pauseComponentProduction
               "k3" "c2" 1000 exampleWorld)) "k3" "c2"
     = Some (tt_set_paused 1000 runningTracker)
  (* the notes and due date of the cancelled card are edited *)
  /\ isOk (fst (ProductionCardUseCases.updateCard "k3"
                  (ProductionCardUpdates.mk (Some 950000) None None (Some "urgente") None)
                  1000 exampleWorld)) = true
  /\ ProductionCard.dueDate
       <$> cards (snd (ProductionCardUseCases.updateCard "k3"
                         (ProductionCardUpdates.mk (Some 950000) None None
                            (Some "urgente") None)
                         1000 exampleWorld)) !! "k3"
     = Some 950000.
Proof.
  repeat split; try (vm_compute; reflexivity).
  vm_compute. discriminate.
Qed.

(** * Examples for the further properties *)

(** The order "o2", paused since minute 2: asked at minute 10 and at minute
    60, the elapsed time is the same. *)
Lemma elapsed_time_advances_unless_paused_witness :
  exists m m',
    queriesReturn exampleWorld pausedTracker 600000 m
    /\ queriesReturn exampleWorld pausedTracker 3600000 m'
    /\ m <= m'
    /\ (isPaused pausedTracker = true -> pauseStartTime pausedTracker <> None -> m = m').
Proof.
  exact (elapsed_time_advances_unless_paused exampleWorld pausedTracker 0 600000 3600000
           eq_refl ltac:(lia)).
Defined.

Lemma startProduction_starts_the_clock_witness :
  (exists e w',
      ManufacturingOrderUseCases.startProduction "o6" 5000 pendingWorld = (Ok e, w')
      /\ ManufacturingOrder.status e = IN_PROGRESS
      /\ ManufacturingOrderUseCases.getCurrentProductionTime "o6" 605000 w' = (Ok 10, w'))
  /\ (exists e w',
      ProductionCardUseCases.startProduction "k6" 5000 pendingWorld = (Ok e, w')
      /\ ProductionCard.status e = ProductionCardStatus.IN_PROGRESS
      /\ ProductionCardUseCases.getCurrentProductionTime "k6" 605000 w' = (Ok 10, w')).
Proof.
  destruct (proj1 (startProduction_starts_the_clock pendingWorld "o6" 5000)
              (exampleOrder "o6" "m1" 2 PENDING notStarted None)
              ltac:(vm_compute; reflexivity) eq_refl)
    as (e & w' & Hrun & Hst & _ & _ & _ & _ & _ & Hlater).
  destruct (proj2 (startProduction_starts_the_clock pendingWorld "k6" 5000)
              (exampleCard "k6" "o6" "m1" 1 800000 ProductionCardStatus.PENDING
                 (Some NORMAL) notStarted None)
              ltac:(vm_compute; reflexivity) eq_refl)
    as (e2 & w2 & Hrun2 & Hst2 & _ & _ & _ & _ & _ & Hlater2).
  exact (conj (ex_intro _ e (ex_intro _ w'
                 (conj Hrun (conj Hst (Hlater 605000 ltac:(lia))))))
              (ex_intro _ e2 (ex_intro _ w2
                 (conj Hrun2 (conj Hst2 (Hlater2 605000 ltac:(lia))))))).
Defined.

(** The paused order "o2" and the paused card "k2": their component "c2" is
    completed once, and not a second time. *)
Lemma completeComponent_marks_one_component_witness :
  (exists e w' w'',
      ManufacturingOrderUseCases.completeComponent "o2" "c2" 1000 exampleWorld = (Ok e, w')
      /\ ManufacturingOrderUseCases.completeComponent "o2" "c2" 2000 w'
         = (Throw (Rejected AnOrder ComponentAlreadyCompleted), w''))
  /\ (exists e w' w'',
        ProductionCardUseCases.completeComponent "k2" "c2" 1000 exampleWorld = (Ok e, w')
        /\ ProductionCardUseCases.completeComponent "k2" "c2" 2000 w'
           = (Throw (Rejected ACard ComponentAlreadyCompleted), w'')).
Proof.
  destruct (proj1 (completeComponent_marks_one_component exampleWorld "o2" "c2" 1000 2000)
              (exampleOrder "o2" "m1" 2 PAUSED oneLeft (Some pausedTracker))
              (exampleComponent "c2" false (Some runningTracker))
              ltac:(vm_compute; reflexivity) ltac:(right; reflexivity)
              ltac:(vm_compute; reflexivity) eq_refl)
    as (e & w' & order' & c' & Hrun & _ & _ & _ & _ & _ & _ & _ & _ & _ & _ & _ & _
        & w'' & Hagain & _).
  destruct (proj2 (completeComponent_marks_one_component exampleWorld "k2" "c2" 1000 2000)
              (exampleCard "k2" "o1" "m1" 2 300000 ProductionCardStatus.PAUSED
                 None oneLeft (Some pausedTracker))
              (exampleComponent "c2" false (Some runningTracker))
              ltac:(vm_compute; reflexivity) ltac:(right; reflexivity)
              ltac:(vm_compute; reflexivity) eq_refl)
    as (e2 & w2 & card' & c2' & Hrun2 & _ & _ & _ & _ & _ & _ & _ & _ & _ & _ & _ & _
        & w2'' & Hagain2 & _).
  exact (conj (ex_intro _ e (ex_intro _ w' (ex_intro _ w'' (conj Hrun Hagain))))
              (ex_intro _ e2 (ex_intro _ w2 (ex_intro _ w2'' (conj Hrun2 Hagain2))))).
Defined.

(** The timer of the component "c2" of the order "o2", running with two
    minutes of pauses: paused at minute 10 and resumed at minute 13, it has five
    minutes of pauses. *)
Lemma component_timer_pause_resume_witness :
  isPaused runningTracker = false
  /\ exists e1 w1 e2 w2,
       ManufacturingOrderUseCases.pauseComponentProduction "o2" "c2" 600000 exampleWorld
       = (Ok e1, w1)
       /\ ManufacturingOrderUseCases.resumeComponentProduction "o2" "c2" 780000 w1
          = (Ok e2, w2)
       /\ orderComponentTracker w2 "o2" "c2"
          = Some (tt_set_resumed (2 + round_minutes (780000 - 600000)) runningTracker).
Proof.
  destruct (proj1 (component_timer_pause_resume exampleWorld "o2" "c2" 600000 780000
                     runningTracker eq_refl)
              ltac:(vm_compute; reflexivity))
    as (e1 & w1 & e2 & w2 & Hrun1 & _ & Hrun2 & Htracker & _).
  exact (conj eq_refl
           (ex_intro _ e1 (ex_intro _ w1 (ex_intro _ e2 (ex_intro _ w2
              (conj Hrun1 (conj Hrun2 Htracker))))))).
Defined.

(** The order "o1" of 5 units, estimated at 10 hours: its quantity is set to
    8 and its estimate stays at 10 hours. *)
Lemma updateOrder_changes_no_derived_data_witness :
  exists e w',
    ManufacturingOrderUseCases.updateOrder "o1"
      (UpdateManufacturingOrderRequest.mk None None None (Some 8)) 1000 exampleWorld
    = (Ok e, w')
    /\ cards w' = cards exampleWorld
    /\ ManufacturingOrder.quantity e = 8
    /\ ManufacturingOrder.estimatedHours e = (2 * inject_Z 5)%Q.
Proof.
  destruct (updateOrder_changes_no_derived_data exampleWorld "o1"
              (UpdateManufacturingOrderRequest.mk None None None (Some 8)) 1000
              (exampleOrder "o1" "m1" 5 IN_PROGRESS allDone (Some runningTracker))
              ltac:(vm_compute; reflexivity)
              ltac:(intros [H|H]; discriminate H))
    as (e & w' & order' & Hrun & _ & Hcards & _ & Hq' & _ & _ & _ & _ & _ & Hq & Hhours).
  exact (ex_intro _ e (ex_intro _ w'
           (conj Hrun (conj Hcards (conj (eq_trans Hq Hq') Hhours))))).
Defined.

(** A second card numbered 1 for the order "o1", which has the card "k1"
    with that number: it is refused and nothing is stored. *)
Lemma createProductionCard_keeps_numbers_unique_witness :
  exists e w',
    ProductionCardUseCases.createProductionCard
      (CreateProductionCardRequest.mk "o1" "ACME" 1 2 "m1" "Torso" "SKU-M1" 500000
         1%positive None (2 # 1) None)
      1000 exampleWorld = (Throw e, w')
    /\ (e = DuplicateKey \/ e = ValidationFailed \/ e = TypeError)
    /\ cards w' = cards exampleWorld.
Proof.
  destruct (proj1 (createProductionCard_keeps_numbers_unique exampleWorld
                     (CreateProductionCardRequest.mk "o1" "ACME" 1 2 "m1" "Torso" "SKU-M1"
                        500000 1%positive None (2 # 1) None) 1000)
              "k1"
              (exampleCard "k1" "o1" "m1" 1 500000 ProductionCardStatus.IN_PROGRESS
                 (Some LOW) allDone (Some runningTracker))
              ltac:(vm_compute; reflexivity) eq_refl eq_refl)
    as (e & w' & Hrun & He & Hcards & _).
  exact (ex_intro _ e (ex_intro _ w' (conj Hrun (conj He Hcards)))).
Defined.

(** The order of three units of the model "m1": the order and its three
    cards are stored with the two components of the model. *)
Lemma createManufacturingOrder_resolves_components_witness :
  exists result w',
    ManufacturingOrderUseCases.createManufacturingOrder exampleRequest 1000 exampleWorld
    = (Ok result, w')
    /\ orders w' !! ManufacturingOrder.id (CreateResult.order result)
       = Some (ManufacturingOrder.with_components
                 (resolvedComponents exampleInventory ["c1"; "c2"])
                 (CreateResult.order result)).
Proof.
  destruct exampleRequest_succeeds as (result & w' & Hrun).
  destruct (createManufacturingOrder_resolves_components exampleRequest 1000 exampleWorld
              w' result (exampleItem "m1" "Torso" MODEL 10 (Some (2 # 1)) ["c1"; "c2"])
              Hrun ltac:(vm_compute; reflexivity))
    as (Horder & _).
  exact (ex_intro _ result (ex_intro _ w' (conj Hrun Horder))).
Defined.

(** An order for the model "zz", which the inventory does not know, and an
    order for the component "c1". *)
Lemma createManufacturingOrder_rejections_witness :
  (fst (ManufacturingOrderUseCases.createManufacturingOrder
          (CreateManufacturingOrderRequest.mk "zz" 3 "ACME" 900000 None []) 1000
          exampleWorld)
   = Throw (Rejected AnOrder ModelNotFound))
  /\ (fst (ManufacturingOrderUseCases.createManufacturingOrder
             (CreateManufacturingOrderRequest.mk "c1" 3 "ACME" 900000 None []) 1000
             exampleWorld)
      = Throw (Rejected AnOrder NotAModel))
  /\ (fst (ManufacturingOrderUseCases.createManufacturingOrder
             (CreateManufacturingOrderRequest.mk "m1" 0 "ACME" 900000 None []) 1000
             exampleWorld)
      = Throw ValidationFailed).
Proof.
  destruct (createManufacturingOrder_rejections
              (CreateManufacturingOrderRequest.mk "zz" 3 "ACME" 900000 None []) 1000
              exampleWorld) as (Hnone & _).
  destruct (createManufacturingOrder_rejections
              (CreateManufacturingOrderRequest.mk "c1" 3 "ACME" 900000 None []) 1000
              exampleWorld) as (_ & _ & Hcomponent & _).
  destruct (createManufacturingOrder_rejections
              (CreateManufacturingOrderRequest.mk "m1" 0 "ACME" 900000 None []) 1000
              exampleWorld) as (_ & _ & _ & Hquantity & _).
  assert (Hbelow : CreateManufacturingOrderRequest.quantity
                     (CreateManufacturingOrderRequest.mk "m1" 0 "ACME" 900000 None []) < 1
                   \/ trim (CreateManufacturingOrderRequest.clientName
                              (CreateManufacturingOrderRequest.mk "m1" 0 "ACME" 900000
                                 None [])) = "")
    by (left; vm_compute; reflexivity).
  exact (conj (proj1 (Hnone ltac:(vm_compute; reflexivity)))
           (conj (proj1 (Hcomponent (exampleItem "c1" "Piel" COMPONENT 0 None [])
                           ltac:(vm_compute; reflexivity)
                           ltac:(vm_compute; intros H; discriminate H)
                           ltac:(vm_compute; intros H; discriminate H)))
                 (proj1 (Hquantity (exampleItem "m1" "Torso" MODEL 10 (Some (2 # 1))
                                      ["c1"; "c2"])
                           ltac:(vm_compute; reflexivity)
                           ltac:(vm_compute; intros H; discriminate H) eq_refl
                           Hbelow)))).
Defined.

(** The material "x1" is added to the component "c1" of the order "o1", and
    an unknown material is not. *)
Lemma addMaterialToComponent_appends_witness :
  (exists e, fst (ManufacturingOrderUseCases.addMaterialToComponent
                    "o1" "c1" "x1" 3 None 1000 exampleWorld) = Ok e)
  /\ fst (ManufacturingOrderUseCases.addMaterialToComponent
            "o1" "c1" "zz" 3 None 1000 exampleWorld)
     = Throw (Rejected AnOrder MaterialNotFound).
Proof.
  destruct (addMaterialToComponent_appends exampleWorld "o1" "c1" "x1" 3 None 1000
              (exampleOrder "o1" "m1" 5 IN_PROGRESS allDone (Some runningTracker))
              ltac:(vm_compute; reflexivity)) as (_ & _ & Hadd).
  destruct (addMaterialToComponent_appends exampleWorld "o1" "c1" "zz" 3 None 1000
              (exampleOrder "o1" "m1" 5 IN_PROGRESS allDone (Some runningTracker))
              ltac:(vm_compute; reflexivity)) as (_ & Hunknown & _).
  destruct (Hadd (exampleComponent "c1" true (Some runningTracker))
              (exampleItem "x1" "Silicona" MATERIAL 40 None [])
              ltac:(vm_compute; reflexivity) ltac:(vm_compute; reflexivity))
    as (e & _ & _ & _ & He & _).
  exact (conj (ex_intro _ e He)
              (proj1 (Hunknown (exampleComponent "c1" true (Some runningTracker))
                        ltac:(vm_compute; reflexivity) ltac:(vm_compute; reflexivity)))).
Defined.

(** The materials of the component "c2" of the order "o2" are replaced by
    one entry for the material "x1"; the adjustment for an unknown material
    is left out. *)
Lemma updateComponentMaterials_replaces_usage_witness :
  exists e w' order' c',
    ManufacturingOrderUseCases.updateComponentMaterials "o2" "c2"
      [MaterialAdjustment.mk "x1" 4 None None; MaterialAdjustment.mk "zz" 1 None None]
      1000 exampleWorld = (Ok e, w')
    /\ orders w' = <["o2" := order']> (orders exampleWorld)
    /\ findComponent "c2" (ManufacturingOrder.components order') = Some c'
    /\ MaterialUsage.materialId <$> ComponentProgress.materialUsage c' = ["x1"].
Proof.
  destruct (updateComponentMaterials_replaces_usage exampleWorld "o2" "c2"
              [MaterialAdjustment.mk "x1" 4 None None; MaterialAdjustment.mk "zz" 1 None None]
              1000
              (exampleOrder "o2" "m1" 2 PAUSED oneLeft (Some pausedTracker))
              (exampleComponent "c2" false (Some runningTracker))
              ltac:(vm_compute; reflexivity) ltac:(right; reflexivity)
              ltac:(vm_compute; reflexivity) eq_refl)
    as (e & w' & order' & c' & Hrun & Horders & _ & _ & Hfind & _ & Hids & _).
  exact (ex_intro _ e (ex_intro _ w' (ex_intro _ order' (ex_intro _ c'
           (conj Hrun (conj Horders (conj Hfind Hids))))))).
Defined.

(** The overdue cards at time 250000, asked with the status completed: the
    listing is the one asked without a status. *)
Lemma overdue_filter_replaces_status_filter_witness :
  ProductionCardUseCases.getAllCards noRegex
    (withStatus (Some ProductionCardStatus.COMPLETED)
       (ProductionCardFilters.mk None None None None (Some true) None None None))
    250000 exampleWorld
  = ProductionCardUseCases.getAllCards noRegex
      (ProductionCardFilters.mk None None None None (Some true) None None None)
      250000 exampleWorld.
Proof.
  exact (proj1 (overdue_filter_replaces_status_filter noRegex
                  (ProductionCardFilters.mk None None None None (Some true) None None None)
                  250000 exampleWorld eq_refl)
           (Some ProductionCardStatus.COMPLETED)).
Defined.

(** The paused card "k2", without priority, is made urgent. *)
Lemma updateCardPriority_moves_card_in_listing_witness :
  exists e w',
    ProductionCardUseCases.updateCardPriority "k2" URGENT 1000 exampleWorld = (Ok e, w')
    /\ orders w' = orders exampleWorld
    /\ exists before listed after w'',
         ProductionCardUseCases.getAllCards noRegex ProductionCardFilters.empty 2000 w'
         = (Ok (before ++ listed :: after), w'')
         /\ ProductionCard.id listed = "k2"
         /\ Forall (fun other => (listingRank (ProductionCard.priority other)
                                  <= listingRank (Some URGENT))%nat) before.
Proof.
  destruct (updateCardPriority_moves_card_in_listing noRegex exampleWorld "k2" URGENT
              1000 2000
              (exampleCard "k2" "o1" "m1" 2 300000 ProductionCardStatus.PAUSED
                 None oneLeft (Some pausedTracker))
              ltac:(vm_compute; reflexivity)
              ltac:(intros [H|H]; discriminate H))
    as (e & w' & card' & Hrun & _ & _ & Horders & _ & _ & _ & Hid & _ & _ & _ & _ & _ & _
        & _ & before & listed & after & w'' & Hlist & Hlisted & Hbefore & _).
  exact (ex_intro _ e (ex_intro _ w' (conj Hrun (conj Horders
           (ex_intro _ before (ex_intro _ listed (ex_intro _ after (ex_intro _ w''
              (conj Hlist
                 (conj (eq_trans (proj1 (entityOf_fields _ _ Hlisted)) Hid)
                       Hbefore)))))))))).
Defined.

Lemma exampleWorld_wellKeyed : wellKeyed (cards exampleWorld).
Proof.
  apply (bool_decide_unpack
           (map_Forall (fun k d => ProductionCard.id d = k) (cards exampleWorld))).
  vm_compute. exact I.
Qed.

Lemma exampleWorld_cardsBelongToOrders : cardsBelongToOrders exampleWorld.
Proof.
  apply (bool_decide_unpack
           (map_Forall (fun (k : string) (card : ProductionCardDocument) =>
                          is_Some (orders exampleWorld !! ProductionCard.orderId card))
                       (cards exampleWorld))).
  vm_compute. exact I.
Qed.

(** The paused order "o2" is deleted with its cards "k3" and "k4"; the
    card "k1" of the order "o1" stays. *)
Lemma deleteOrder_removes_order_and_its_cards_witness :
  wellKeyed (cards exampleWorld)
  /\ exists w',
       ManufacturingOrderUseCases.deleteOrder "o2" exampleWorld = (Deleted true, w')
       /\ orders w' = base.delete "o2" (orders exampleWorld)
       /\ cards w' !! "k3" = None
       /\ cards w' !! "k1" = cards exampleWorld !! "k1".
Proof.
  pose proof (deleteOrder_removes_order_and_its_cards exampleWorld "o2"
                exampleWorld_wellKeyed) as H.
  assert (Hdoc : orders exampleWorld !! "o2"
                 = Some (exampleOrder "o2" "m1" 2 PAUSED oneLeft (Some pausedTracker)))
    by (vm_compute; reflexivity).
  rewrite Hdoc in H. cbn [exampleOrder ManufacturingOrder.status] in H.
  rewrite bool_decide_false in H by discriminate.
  destruct H as (w' & Hrun & Horders & Hcards & _).
  split; [exact exampleWorld_wellKeyed|].
  exists w'. split; [exact Hrun|]. split; [exact Horders|]. split.
  - destruct (cards w' !! "k3") as [card|] eqn:Hk3; [|reflexivity].
    apply Hcards in Hk3 as [Hk3 Hne]. vm_compute in Hk3. injection Hk3 as <-.
    exfalso. apply Hne. reflexivity.
  - assert (Hk1 : cards exampleWorld !! "k1"
                  = Some (exampleCard "k1" "o1" "m1" 1 500000
                            ProductionCardStatus.IN_PROGRESS (Some LOW) allDone
                            (Some runningTracker)))
      by (vm_compute; reflexivity).
    rewrite Hk1. apply Hcards. split; [exact Hk1|]. discriminate.
Defined.

(** The three cards of the order of three units, listed for the new
    order. *)
Lemma new_order_cards_listed_in_number_order_witness :
  exists result w' listed w'',
    ManufacturingOrderUseCases.createManufacturingOrder exampleRequest 1000 exampleWorld
    = (Ok result, w')
    /\ ProductionCardUseCases.getCardsByOrder
         (ManufacturingOrder.id (CreateResult.order result)) w' = (Ok listed, w'')
    /\ ProductionCard.cardNumber <$> listed = [1; 2; 3].
Proof.
  destruct exampleRequest_succeeds as (result & w' & Hrun).
  destruct (new_order_cards_listed_in_number_order exampleRequest 1000 exampleWorld w'
              result Hrun exampleWorld_cardsBelongToOrders)
    as (listed & w'' & Hlist & _ & Hnumbers & _).
  exact (ex_intro _ result (ex_intro _ w' (ex_intro _ listed (ex_intro _ w''
           (conj Hrun (conj Hlist Hnumbers)))))).
Defined.

(** Two hours and a quarter. *)
Lemma formatMinutes_agrees_with_formatTime_witness :
  ManufacturingOrderController.formatMinutes 135 = ProductionQueue.formatTime 135.
Proof.
  exact (proj1 (formatMinutes_agrees_with_formatTime 135 ltac:(lia))).
Defined.

(** The card "k1", in progress with all its components completed, and the
    paused card "k2" with a component left. *)
Lemma canCompleteCard_iff_completeCard_succeeds_witness :
  (exists e w', ProductionCardUseCases.completeCard "k1" 1000 exampleWorld = (Ok e, w'))
  /\ ~ (exists e w', ProductionCardUseCases.completeCard "k2" 1000 exampleWorld
                     = (Ok e, w')).
Proof.
  destruct (canCompleteCard_iff_completeCard_succeeds exampleWorld "k1"
              (exampleCard "k1" "o1" "m1" 1 500000 ProductionCardStatus.IN_PROGRESS
                 (Some LOW) allDone (Some runningTracker)) 1000
              ltac:(vm_compute; reflexivity)) as [[Hk1 _] _].
  destruct (canCompleteCard_iff_completeCard_succeeds exampleWorld "k2"
              (exampleCard "k2" "o1" "m1" 2 300000 ProductionCardStatus.PAUSED
                 None oneLeft (Some pausedTracker)) 1000
              ltac:(vm_compute; reflexivity)) as [[_ Hk2] _].
  split.
  - apply Hk1. vm_compute. reflexivity.
  - intros Hrun. apply Hk2 in Hrun. vm_compute in Hrun. discriminate Hrun.
Defined.

(** The pending order "o6": started at 5 s, paused from minute 2 to minute
    5, it has run for 7 minutes at minute 10. *)
Lemma order_class_agrees_with_use_cases_witness :
  exists resumed e1 e2 e3 w1 w2 w3,
    ManufacturingOrderUseCases.startProduction "o6" 5000 pendingWorld = (Ok e1, w1)
    /\ ManufacturingOrderUseCases.pauseProduction "o6" 120000 w1 = (Ok e2, w2)
    /\ ManufacturingOrderUseCases.resumeProduction "o6" 300000 w2 = (Ok e3, w3)
    /\ orders w3 !! "o6" = Some resumed
    /\ ManufacturingOrderEntityClass.getCurrentProductionTime resumed 600000 = Returns 7
    /\ ManufacturingOrderUseCases.getCurrentProductionTime "o6" 600000 w3 = (Ok 7, w3).
Proof.
  destruct (order_class_agrees_with_use_cases pendingWorld "o6"
              (exampleOrder "o6" "m1" 2 PENDING notStarted None)
              5000 120000 300000 600000
              ltac:(vm_compute; reflexivity) eq_refl)
    as (started & paused & resumed & e1 & e2 & e3 & w1 & w2 & w3
        & _ & Hrun1 & _ & _ & Hrun2 & _ & _ & Hrun3 & Hdoc3 & _ & _ & Hclass & Hquery).
  exact (ex_intro _ resumed (ex_intro _ e1 (ex_intro _ e2 (ex_intro _ e3
           (ex_intro _ w1 (ex_intro _ w2 (ex_intro _ w3
              (conj Hrun1 (conj Hrun2 (conj Hrun3 (conj Hdoc3
                 (conj Hclass Hquery)))))))))))).
Defined.

(** The paused order "o2" has a component left: its completed component
    "c1" is completed again by the class, without an error; the cancelled
    order "o5" is cancelled again by the class and not by the use case. *)
Lemma order_class_departs_from_use_cases_witness :
  ManufacturingOrderEntityClass.completeComponent
    (exampleOrder "o2" "m1" 2 PAUSED oneLeft (Some pausedTracker)) "c1" 1000
  = Returns (exampleOrder "o2" "m1" 2 PAUSED oneLeft (Some pausedTracker))
  /\ (exists cancelled',
        ManufacturingOrderEntityClass.cancelOrder
          (exampleOrder "o5" "zz" 1 CANCELLED oneLeft None) 1000 = Returns cancelled')
  /\ (exists w', ManufacturingOrderUseCases.cancelOrder "o5" 1000 exampleWorld
                 = (Throw (Rejected AnOrder AlreadyCancelled), w')).
Proof.
  destruct (order_class_departs_from_use_cases exampleWorld "o2" "c1"
              (exampleOrder "o2" "m1" 2 PAUSED oneLeft (Some pausedTracker)) 1000
              ltac:(vm_compute; reflexivity)) as (_ & _ & Hcomponent & _).
  destruct (order_class_departs_from_use_cases exampleWorld "o5" "c1"
              (exampleOrder "o5" "zz" 1 CANCELLED oneLeft None) 1000
              ltac:(vm_compute; reflexivity)) as (_ & Hcancel & _).
  destruct (Hcancel eq_refl) as [Hclass Hcase].
  exact (conj (Hcomponent (exampleComponent "c1" true None) ltac:(vm_compute; reflexivity))
           (conj (ex_intro _ _ Hclass) Hcase)).
Defined.

(** The completed order "o3" and the cancelled card "k3". *)
Lemma terminal_guards_witness :
  rejectedUnchanged AnOrder (ManufacturingOrderUseCases.startProduction "o3" 1000)
    exampleWorld
  /\ rejectedUnchanged AnOrder (ManufacturingOrderUseCases.completeOrder "o3" 1000)
       exampleWorld
  /\ rejectedUnchanged ACard (ProductionCardUseCases.completeCard "k3" 1000) exampleWorld
  /\ rejectedUnchanged ACard (ProductionCardUseCases.updateCardPriority "k3" LOW 1000)
       exampleWorld.
Proof.
  destruct (proj1 (terminal_guards exampleWorld "o3" "c1" 1000
                     (UpdateManufacturingOrderRequest.mk None None None None) [] LOW)
              (exampleOrder "o3" "m1" 1 COMPLETED allDone (Some runningTracker))
              ltac:(vm_compute; reflexivity) ltac:(left; reflexivity))
    as (_ & Hstart & _ & _ & _ & Hcomplete & _).
  destruct (proj2 (terminal_guards exampleWorld "k3" "c1" 1000
                     (UpdateManufacturingOrderRequest.mk None None None None) [] LOW)
              (exampleCard "k3" "o2" "m1" 1 700000 ProductionCardStatus.CANCELLED
                 (Some URGENT) oneLeft None)
              ltac:(vm_compute; reflexivity) ltac:(right; reflexivity))
    as (_ & _ & _ & _ & HcompleteCard & Hpriority).
  exact (conj Hstart (conj Hcomplete (conj HcompleteCard Hpriority))).
Defined.

(** The order "o1", in progress, is cancelled; the cancelled card "k3" is
    cancelled again. *)
Lemma cancel_guards_witness :
  (exists e w', ManufacturingOrderUseCases.cancelOrder "o1" 1000 exampleWorld = (Ok e, w')
                /\ ManufacturingOrder.status e = CANCELLED)
  /\ (exists e w', ProductionCardUseCases.cancelCard "k3" 1000 exampleWorld = (Ok e, w')
                   /\ ProductionCard.status e = ProductionCardStatus.CANCELLED).
Proof.
  pose proof (proj1 (cancel_guards exampleWorld "o1" 1000)
                (exampleOrder "o1" "m1" 5 IN_PROGRESS allDone (Some runningTracker))
                ltac:(vm_compute; reflexivity)) as Horder.
  pose proof (proj2 (cancel_guards exampleWorld "k3" 1000)
                (exampleCard "k3" "o2" "m1" 1 700000 ProductionCardStatus.CANCELLED
                   (Some URGENT) oneLeft None)
                ltac:(vm_compute; reflexivity)) as Hcard.
  cbn [exampleOrder ManufacturingOrder.status] in Horder.
  cbn [exampleCard ProductionCard.status] in Hcard.
  destruct Horder as (e & w' & Hrun & Hst & _).
  destruct Hcard as (e2 & w2 & Hrun2 & Hst2 & _).
  exact (conj (ex_intro _ e (ex_intro _ w' (conj Hrun Hst)))
              (ex_intro _ e2 (ex_intro _ w2 (conj Hrun2 Hst2)))).
Defined.

(** The order "o1" and the card "k1" are in progress: they are not started
    again. *)
Lemma start_guards_witness :
  rejectedUnchanged AnOrder (ManufacturingOrderUseCases.startProduction "o1" 1000)
    exampleWorld
  /\ rejectedUnchanged ACard (ProductionCardUseCases.startProduction "k1" 1000)
       exampleWorld.
Proof.
  destruct (start_guards exampleWorld "o1" 1000) as (Horder & _ & _).
  destruct (start_guards exampleWorld "k1" 1000) as (_ & Hcard & _).
  exact (conj (Horder (exampleOrder "o1" "m1" 5 IN_PROGRESS allDone (Some runningTracker))
                 ltac:(vm_compute; reflexivity) ltac:(discriminate))
              (Hcard (exampleCard "k1" "o1" "m1" 1 500000 ProductionCardStatus.IN_PROGRESS
                        (Some LOW) allDone (Some runningTracker))
                 ltac:(vm_compute; reflexivity) ltac:(discriminate))).
Defined.


Lemma getRemainingTime_covers_the_time_left_witness :
  ManufacturingOrderEntityClass.getRemainingTime
    (exampleOrder "o2" "m1" 2 PAUSED oneLeft (Some pausedTracker)) 600000 = 1.
Proof.
  destruct (getRemainingTime_covers_the_time_left
              (exampleOrder "o2" "m1" 2 PAUSED oneLeft (Some pausedTracker)) 600000)
    as (Hpos & _ & Hleft & _).
  specialize (Hleft ltac:(discriminate) ltac:(vm_compute; reflexivity)).
  cbn [exampleOrder ManufacturingOrder.dueDate] in Hleft. unfold hour in Hleft.
  lia.
Defined.
